(** * Baly-Ticketes: the ticket API controller and the HTTP server wiring

    A shallow embedding of the Express/Prisma backend:
    - [JS]: the pieces of the JavaScript runtime the handlers call
      ([parseInt], [isNaN], truthiness, [Date.prototype.setHours],
      [Date.prototype.toISOString], [Math.ceil] of a quotient);
    - [Prisma]: the data access layer over the [Ticket] table;
    - [Validation]: the request checks that run before the handlers;
    - [Tickets]: the four route handlers of the ticket router;
    - [Server]: the middleware stacks of the two server variants;
    - [Spec]: the vocabulary the properties are stated in.

    Numbers are mathematical integers ([Z]); a JavaScript number that is
    [NaN] is [None], and the loss of precision of JavaScript numbers above
    2^53 is outside the model.  Timestamps are milliseconds since the
    epoch, unbounded.  Strings are sequences of 8-bit characters. *)

From Stdlib Require Import ZArith List String Ascii Bool Lia.
From Stdlib Require Import Permutation Sorted.
Import ListNotations.

Local Open Scope string_scope.
Local Open Scope Z_scope.

(** ** The JavaScript runtime *)

Module JS.

(** A JavaScript number that is an integer, or [None] for a value that is
    not one ([NaN], or the quotient by zero). *)
Definition Number := option Z.

Definition Number_sub (a b : Number) : Number :=
  match a, b with Some x, Some y => Some (x - y) | _, _ => None end.

Definition Number_mul (a b : Number) : Number :=
  match a, b with Some x, Some y => Some (x * y) | _, _ => None end.

Definition isNaN (n : Number) : bool :=
  match n with None => true | Some _ => false end.

(** Truthiness of an optional query parameter: [undefined] and the empty
    string are falsy, every other string is truthy. *)
Definition truthy (v : option string) : bool :=
  match v with
  | None => false
  | Some s => negb (String.eqb s "")
  end.

(** [WhiteSpace] and [LineTerminator] code units below 256. *)
Definition isWhiteSpace (c : ascii) : bool :=
  let n := N_of_ascii c in
  (N.eqb n 9 || N.eqb n 10 || N.eqb n 11 || N.eqb n 12 || N.eqb n 13
   || N.eqb n 32 || N.eqb n 160)%bool.

Fixpoint trimStart (s : string) : string :=
  match s with
  | String c r => if isWhiteSpace c then trimStart r else s
  | EmptyString => EmptyString
  end.

(** The value of a character as a digit: [0-9], [a-z], [A-Z]. *)
Definition digitValue (c : ascii) : option Z :=
  let n := Z.of_N (N_of_ascii c) in
  if (48 <=? n) && (n <=? 57) then Some (n - 48)
  else if (97 <=? n) && (n <=? 122) then Some (n - 87)
  else if (65 <=? n) && (n <=? 90) then Some (n - 55)
  else None.

Definition radixDigit (radix : Z) (c : ascii) : option Z :=
  match digitValue c with
  | Some d => if d <? radix then Some d else None
  | None => None
  end.

(** The longest prefix of [s] made of digits of the radix, as digit values. *)
Fixpoint takeDigits (radix : Z) (s : string) : list Z :=
  match s with
  | String c r =>
      match radixDigit radix c with
      | Some d => d :: takeDigits radix r
      | None => []
      end
  | EmptyString => []
  end.

Definition mathInt (radix : Z) (ds : list Z) : Z :=
  fold_left (fun acc d => acc * radix + d) ds 0.

(** The number the leading decimal digits of [s] spell, read after the
    digits that gave [a]. *)
Definition valueWith (a : Z) (s : string) : Z :=
  fold_left (fun acc d => acc * 10 + d) (takeDigits 10 s) a.

(** Whether the string starts with [0x] or [0X]. *)
Definition hexPrefix (s : string) : option string :=
  match s with
  | String "0" (String "x" r) => Some r
  | String "0" (String "X" r) => Some r
  | _ => None
  end.

(** [parseInt(string)] with no radix argument: leading white space is
    skipped, one sign is read, a [0x]/[0X] prefix selects radix 16, then
    the longest run of digits is read; no digit at all gives [NaN]. *)
Definition parseInt (input : string) : Number :=
  let s := trimStart input in
  let '(sign, s) :=
    match s with
    | String "-" r => (-1, r)
    | String "+" r => (1, r)
    | _ => (1, s)
    end in
  let '(radix, s) :=
    match hexPrefix s with
    | Some r => (16, r)
    | None => (10, s)
    end in
  match takeDigits radix s with
  | [] => None
  | ds => Some (sign * mathInt radix ds)
  end.

(** [Math.ceil(a / b)] on integers, for a divisor that is not zero. *)
Definition ceilDiv (a b : Z) : Z := - ((- a) / b).

(** [Math.ceil(a / b)] where [b] is a JavaScript number. *)
Definition Math_ceil_div (a : Z) (b : Number) : Number :=
  match b with
  | Some d => if d =? 0 then None else Some (ceilDiv a d)
  | None => None
  end.

(** *** Dates *)

Definition msPerSecond : Z := 1000.
Definition msPerMinute : Z := 60000.
Definition msPerHour : Z := 3600000.
Definition msPerDay : Z := 86400000.

(** [d.setHours(h, m, s, ms)] for a process whose local time is [tz]
    minutes east of UTC: the clock time of [d]'s local day is replaced.
    The offset is fixed; daylight-saving changes are not modelled. *)
Definition setHours (tz : Z) (d h m s ms : Z) : Z :=
  let local := d + tz * msPerMinute in
  let day := local / msPerDay in
  day * msPerDay + h * msPerHour + m * msPerMinute + s * msPerSecond + ms
  - tz * msPerMinute.

(** Decimal digits of a non-negative number, most significant first. *)
Definition digitChar (d : Z) : ascii := ascii_of_N (Z.to_N (48 + d)).

Fixpoint digitsOf (fuel : nat) (n : Z) (acc : string) : string :=
  match fuel with
  | O => acc
  | S f =>
      let acc' := String (digitChar (n mod 10)) acc in
      if n / 10 =? 0 then acc' else digitsOf f (n / 10) acc'
  end.

(** [String(n)] for a non-negative integer. *)
Definition Number_toString (n : Z) : string :=
  digitsOf (S (Z.to_nat n)) n "".

Fixpoint zeros (n : nat) : string :=
  match n with
  | O => EmptyString
  | S k => String "0" (zeros k)
  end.

(** [s.padStart(width, '0')]. *)
Definition padStart (width : nat) (s : string) : string :=
  (zeros (width - String.length s) ++ s)%string.

(** The civil date of a day number (days since 1970-01-01), proleptic
    Gregorian calendar. *)
Definition civilFromDays (z : Z) : Z * Z * Z :=
  let z := z + 719468 in
  let era := z / 146097 in
  let doe := z - era * 146097 in
  let yoe := (doe - doe / 1460 + doe / 36524 - doe / 146096) / 365 in
  let y := yoe + era * 400 in
  let doy := doe - (365 * yoe + yoe / 4 - yoe / 100) in
  let mp := (5 * doy + 2) / 153 in
  let d := doy - (153 * mp + 2) / 5 + 1 in
  let m := if mp <? 10 then mp + 3 else mp - 9 in
  (if m <=? 2 then y + 1 else y, m, d).

Definition daysFromCivil (y m d : Z) : Z :=
  let y := if m <=? 2 then y - 1 else y in
  let era := y / 400 in
  let yoe := y - era * 400 in
  let mp := if 2 <? m then m - 3 else m + 9 in
  let doy := (153 * mp + 2) / 5 + d - 1 in
  let doe := yoe * 365 + yoe / 4 - yoe / 100 + doy in
  era * 146097 + doe - 719468.

Definition pad (width : nat) (n : Z) : string :=
  padStart width (Number_toString n).

(** The year of an ISO string: four digits, or a sign and six digits
    outside 0..9999. *)
Definition isoYear (y : Z) : string :=
  if (0 <=? y) && (y <=? 9999) then pad 4 y
  else if y <? 0 then "-" ++ pad 6 (- y)
  else "+" ++ pad 6 y.

(** [d.toISOString()]: [YYYY-MM-DDTHH:mm:ss.sssZ], in UTC. *)
Definition toISOString (d : Z) : string :=
  let day := d / msPerDay in
  let t := d mod msPerDay in
  let '(y, m, dd) := civilFromDays day in
  isoYear y ++ "-" ++ pad 2 m ++ "-" ++ pad 2 dd ++ "T"
  ++ pad 2 (t / msPerHour) ++ ":"
  ++ pad 2 (t mod msPerHour / msPerMinute) ++ ":"
  ++ pad 2 (t mod msPerMinute / msPerSecond) ++ "."
  ++ pad 3 (t mod msPerSecond) ++ "Z".

(** [s.split('T')[0]]: the part of [s] before the first [T]. *)
Fixpoint beforeT (s : string) : string :=
  match s with
  | String c r => if Ascii.eqb c "T" then EmptyString else String c (beforeT r)
  | EmptyString => EmptyString
  end.

(** *** An instance of the date parser

    [new Date(string)] is a parameter of the handlers below.  This is the
    reading Node gives to the two forms [YYYY-MM-DD] and
    [YYYY-MM-DDTHH:mm:ss.sssZ] of the ECMAScript date-time string format
    (both UTC), used where a concrete runtime is needed: the month is 1 to
    12 and the day 1 to 31, a day past the end of the month counting on
    into the next month; the time of day goes up to [23:59:59.999], and
    [24:00:00.000] is the start of the next day.  Strings in other forms
    are left unread here. *)

Definition digits2 (a b : ascii) : option Z :=
  match radixDigit 10 a, radixDigit 10 b with
  | Some x, Some y => Some (10 * x + y)
  | _, _ => None
  end.

(** The length of a month of the calendar. *)
Definition isLeapYear (y : Z) : bool :=
  ((y mod 4 =? 0) && negb (y mod 100 =? 0)) || (y mod 400 =? 0).

Definition daysInMonth (y m : Z) : Z :=
  if m =? 2 then (if isLeapYear y then 29 else 28)
  else if (m =? 4) || (m =? 6) || (m =? 9) || (m =? 11) then 30
  else 31.

Definition isoClock (s : string) : option Z :=
  match s with
  | String "T" (String h1 (String h2 (String ":" (String m1 (String m2
      (String ":" (String s1 (String s2
        (String "." (String f1 (String f2 (String f3 "Z")))))))))))) =>
      match digits2 h1 h2, digits2 m1 m2, digits2 s1 s2,
            radixDigit 10 f1, digits2 f2 f3 with
      | Some h, Some m, Some sec, Some f, Some ff =>
          if ((h <? 24) && (m <? 60) && (sec <? 60))
             || ((h =? 24) && (m =? 0) && (sec =? 0) && (100 * f + ff =? 0))
          then Some (h * msPerHour + m * msPerMinute + sec * msPerSecond
                     + 100 * f + ff)
          else None
      | _, _, _, _, _ => None
      end
  | _ => None
  end.

Definition isoDateParse (s : string) : option Z :=
  match s with
  | String y1 (String y2 (String y3 (String y4 (String "-" (String m1
      (String m2 (String "-" (String d1 (String d2 rest))))))))) =>
      match digits2 y1 y2, digits2 y3 y4, digits2 m1 m2, digits2 d1 d2 with
      | Some yh, Some yl, Some m, Some d =>
          let y := 100 * yh + yl in
          if (1 <=? m) && (m <=? 12) && (1 <=? d) && (d <=? 31)
          then
            match rest with
            | EmptyString => Some (daysFromCivil y m d * msPerDay)
            | _ =>
                match isoClock rest with
                | Some t => Some (daysFromCivil y m d * msPerDay + t)
                | None => None
                end
            end
          else None
      | _, _, _, _ => None
      end
  | _ => None
  end.

End JS.


(** ** The data model *)

Module Ticket.
Record t := {
  id : Z;
  tripId : string;
  tripDate : Z;
  driverId : Z;
  reason : string;
  city : string;
  serviceType : string;
  customerPhone : string;
  agentName : string;
  createdAt : Z
}.
End Ticket.

(** Modelled from the spec: the database schema is not part of the
    sources.  The ticket table: [id] is the primary key, assigned by the
    store from a counter that never hands out a number twice, and
    [createdAt] is set by the store at insert time. *)
Record Store := {
  rows : list Ticket.t;
  nextId : Z
}.

Definition emptyStore : Store := {| rows := []; nextId := 1 |}.

(** ** Errors and the handler monad *)

Inductive Error :=
| HttpError (message : string) (statusCode : Z)
| ClientError (message : string).

(** A computation that reads and writes the store and may throw. *)
Definition M (A : Type) : Type := Store -> (Error + A) * Store.

Definition ret {A} (a : A) : M A := fun s => (inr a, s).
Definition throw {A} (e : Error) : M A := fun s => (inl e, s).
Definition bind {A B} (m : M A) (k : A -> M B) : M B :=
  fun s =>
    match m s with
    | (inr a, s') => k a s'
    | (inl e, s') => (inl e, s')
    end.

Declare Scope handler_scope.
Delimit Scope handler_scope with handler.
Notation "x <- m ;; k" := (bind m (fun x => k))
  (at level 61, m at next level, right associativity) : handler_scope.
Notation "m ;;; k" := (bind m (fun _ => k))
  (at level 61, right associativity) : handler_scope.

(** [createError(message, statusCode)]. *)
Definition createError (message : string) (statusCode : Z) : Error :=
  HttpError message statusCode.

(** ** The data access layer *)

Module Prisma.

(** A [Date] handed to the client: [None] is an invalid date. *)
Record DateRange := {
  gte : option Z;
  lte : option Z
}.

(** The [where] object the handlers build: each key is optional. *)
Record Where := {
  reason : option string;
  tripDate : option DateRange
}.

(** The client refuses a query that carries an invalid date. *)
Definition validWhere (w : Where) : bool :=
  match tripDate w with
  | None => true
  | Some r =>
      match gte r, lte r with
      | Some _, Some _ => true
      | _, _ => false
      end
  end.

Definition matches (w : Where) (t : Ticket.t) : bool :=
  match reason w with
  | None => true
  | Some r => String.eqb (Ticket.reason t) r
  end
  &&
  match tripDate w with
  | None => true
  | Some r =>
      match gte r, lte r with
      | Some lo, Some hi =>
          (lo <=? Ticket.tripDate t) && (Ticket.tripDate t <=? hi)
      | _, _ => false
      end
  end.

(** [orderBy: { createdAt: 'desc' }]: newest first; rows with the same
    [createdAt] stay in table order. *)
Fixpoint insertDesc (t : Ticket.t) (l : list Ticket.t) : list Ticket.t :=
  match l with
  | [] => [t]
  | h :: r =>
      if Ticket.createdAt h <=? Ticket.createdAt t then t :: l
      else h :: insertDesc t r
  end.

Fixpoint orderByCreatedAtDesc (l : list Ticket.t) : list Ticket.t :=
  match l with
  | [] => []
  | t :: r => insertDesc t (orderByCreatedAtDesc r)
  end.

Definition selected (w : Where) (s : Store) : list Ticket.t :=
  orderByCreatedAtDesc (filter (matches w) (rows s)).

Definition invalidDate : Error :=
  ClientError "Invalid value for argument: Provided Date object is invalid".
Definition invalidPagination : Error :=
  ClientError "Invalid value provided for skip or take".

(** [prisma.ticket.count({ where })]. *)
Definition count (w : Where) : M Z :=
  fun s =>
    if validWhere w
    then (inr (Z.of_nat (List.length (filter (matches w) (rows s)))), s)
    else (inl invalidDate, s).

(** The slice [skip]/[take] select: a negative [take] counts from the end
    of the ordering; a negative [skip] is refused. *)
Definition window (skip take : Z) (l : list Ticket.t) : list Ticket.t :=
  if 0 <=? take
  then firstn (Z.to_nat take) (skipn (Z.to_nat skip) l)
  else rev (firstn (Z.to_nat (- take)) (skipn (Z.to_nat skip) (rev l))).

(** [prisma.ticket.findMany({ where, skip, take, orderBy })]; the
    pagination arguments are absent in the export handler. *)
Definition findMany (w : Where) (paging : option (JS.Number * JS.Number))
  : M (list Ticket.t) :=
  fun s =>
    if validWhere w then
      match paging with
      | None => (inr (selected w s), s)
      | Some (Some skip, Some take) =>
          if skip <? 0 then (inl invalidPagination, s)
          else (inr (window skip take (selected w s)), s)
      | Some _ => (inl invalidPagination, s)
      end
    else (inl invalidDate, s).

(** [prisma.ticket.findUnique({ where: { id } })]. *)
Definition findUnique (id : Z) : M (option Ticket.t) :=
  fun s => (inr (find (fun t => Ticket.id t =? id) (rows s)), s).

(** [prisma.ticket.delete({ where: { id } })]: the row is removed; a
    missing row is an error of the client. *)
Definition delete (id : Z) : M unit :=
  fun s =>
    if existsb (fun t => Ticket.id t =? id) (rows s)
    then (inr tt,
          {| rows := filter (fun t => negb (Ticket.id t =? id)) (rows s);
             nextId := nextId s |})
    else (inl (ClientError "Record to delete does not exist."), s).

(** The columns of a new row the caller supplies. *)
Record CreateData := {
  data_tripId : string;
  data_tripDate : option Z;
  data_driverId : Z;
  data_reason : string;
  data_city : string;
  data_serviceType : string;
  data_customerPhone : string;
  data_agentName : string
}.

(** [prisma.ticket.create({ data })] at store time [now]. *)
Definition create (now : Z) (d : CreateData) : M Ticket.t :=
  fun s =>
    match data_tripDate d with
    | None => (inl invalidDate, s)
    | Some date =>
        let t := {| Ticket.id := nextId s;
                    Ticket.tripId := data_tripId d;
                    Ticket.tripDate := date;
                    Ticket.driverId := data_driverId d;
                    Ticket.reason := data_reason d;
                    Ticket.city := data_city d;
                    Ticket.serviceType := data_serviceType d;
                    Ticket.customerPhone := data_customerPhone d;
                    Ticket.agentName := data_agentName d;
                    Ticket.createdAt := now |} in
        (inr t, {| rows := rows s ++ [t]; nextId := nextId s + 1 |})
    end.

End Prisma.

(** ** Requests and responses *)

Module GetTicketsQuery.
Record t := {
  reason : option string;
  start_date : option string;
  end_date : option string;
  page : option string;
  limit : option string
}.
End GetTicketsQuery.

Module CreateTicketBody.
Record t := {
  tripId : string;
  tripDate : string;
  driverId : Z;
  reason : string;
  city : string;
  serviceType : string;
  customerPhone : string;
  agentName : string
}.
End CreateTicketBody.

(** A ticket as the list and export handlers render it. *)
Module TicketJson.
Record t := {
  id : Z;
  tripId : string;
  tripDate : string;
  driverId : Z;
  reason : string;
  city : string;
  serviceType : string;
  customerPhone : string;
  agentName : string;
  createdAt : string
}.
End TicketJson.

Inductive JsValue :=
| JsNumber (n : Z)
| JsString (s : string).

(** A plain object: its keys in insertion order. *)
Definition JsObject := list (string * JsValue).

Fixpoint getField (o : JsObject) (key : string) : option JsValue :=
  match o with
  | [] => None
  | (k, v) :: r => if String.eqb k key then Some v else getField r key
  end.

(** A CSV document: the header line and one record per data row. *)
Record Csv := {
  header : list string;
  records : list (list (option JsValue))
}.

(** [new Parser({ fields }).parse(data)]: the header is [fields], and each
    object gives one record, its cells picked by [fields] in order. *)
Definition Parser_parse (fields : list string) (data : list JsObject) : Csv :=
  {| header := fields;
     records := map (fun o => map (getField o) fields) data |}.

Record FieldError := {
  field : string;
  message : string
}.

Inductive Body :=
| Message (message : string)
| ValidationErrors (errors : list FieldError)
| Created (message : string) (ticketId : Z)
| TicketPage (page totalPages : JS.Number) (totalTickets : Z)
    (tickets : list TicketJson.t)
| Attachment (contentType filename : string) (csv : Csv).

Record Response := {
  status : Z;
  body : Body
}.

(** Modelled from the spec: the error-handling middleware is not part of
    the sources.  An error made by [createError] is answered with its
    status code and message, any other error with 500. *)
Definition errorHandler (e : Error) : Response :=
  match e with
  | HttpError message statusCode =>
      {| status := statusCode; body := Message message |}
  | ClientError _ =>
      {| status := 500; body := Message "Internal Server Error" |}
  end.

(** [try { ... } catch (error) { next(error) }] around a handler body. *)
Definition tryNext (m : M Response) (s : Store) : Response * Store :=
  match m s with
  | (inr r, s') => (r, s')
  | (inl e, s') => (errorHandler e, s')
  end.

(** ** The validation layer *)

Module Validation.

Definition isDecimalDigit (c : ascii) : bool :=
  match JS.radixDigit 10 c with Some _ => true | None => false end.

Fixpoint allDigits (s : string) : bool :=
  match s with
  | String c r => isDecimalDigit c && allDigits r
  | EmptyString => true
  end.

Definition isPositiveInteger (s : string) : bool :=
  allDigits s &&
  match JS.parseInt s with
  | Some n => 1 <=? n
  | None => false
  end.

Definition notEmpty (s : string) : bool := negb (String.eqb s "").

Definition checkOptional (name : string) (ok : string -> bool)
  (v : option string) : list FieldError :=
  match v with
  | None => []
  | Some s =>
      if ok s then [] else [{| field := name; message := "Invalid value" |}]
  end.

Definition check (name : string) (ok : bool) : list FieldError :=
  if ok then [] else [{| field := name; message := "Invalid value" |}].

Section Rules.

Variable Date_parse : string -> option Z.
Variable reasonCategories : list string.
Variable isPhoneNumber : string -> bool.

Definition isDate (s : string) : bool :=
  match Date_parse s with Some _ => true | None => false end.

(** Modelled from the spec: the validation middleware is not part of the
    sources.  The list-query check: if present, [start_date] and
    [end_date] are valid dates and [page] and [limit] are positive
    integers. *)
Definition validateGetTickets (q : GetTicketsQuery.t) : list FieldError :=
  (checkOptional "start_date" isDate (GetTicketsQuery.start_date q)
   ++ checkOptional "end_date" isDate (GetTicketsQuery.end_date q)
   ++ checkOptional "page" isPositiveInteger (GetTicketsQuery.page q)
   ++ checkOptional "limit" isPositiveInteger (GetTicketsQuery.limit q))%list.

(** Modelled from the spec: the validation middleware is not part of the
    sources.  The create check: every required field is present and not
    empty, [tripDate] is a valid date, [reason] is one of the recognised
    categories and [customerPhone] has the shape of a phone number. *)
Definition validateCreateTicket (b : CreateTicketBody.t) : list FieldError :=
  (check "tripId" (notEmpty (CreateTicketBody.tripId b))
   ++ check "tripDate" (isDate (CreateTicketBody.tripDate b))
   ++ check "reason"
        (existsb (String.eqb (CreateTicketBody.reason b)) reasonCategories)
   ++ check "city" (notEmpty (CreateTicketBody.city b))
   ++ check "serviceType" (notEmpty (CreateTicketBody.serviceType b))
   ++ check "customerPhone" (isPhoneNumber (CreateTicketBody.customerPhone b))
   ++ check "agentName" (notEmpty (CreateTicketBody.agentName b)))%list.

End Rules.

(** Modelled from the spec: the gate after the checks.  A violation ends
    the request with a 400 that carries the violations; otherwise the
    handler runs. *)
Definition checkValidationErrors (errors : list FieldError)
  (handler : Store -> Response * Store) (s : Store) : Response * Store :=
  match errors with
  | [] => handler s
  | _ :: _ => ({| status := 400; body := ValidationErrors errors |}, s)
  end.

End Validation.

(** ** The ticket router *)

Module Tickets.

Local Open Scope handler_scope.

(** The rendering both the list and the export handler apply to a row. *)
Definition render (ticket : Ticket.t) : TicketJson.t :=
  {| TicketJson.id := Ticket.id ticket;
     TicketJson.tripId := Ticket.tripId ticket;
     TicketJson.tripDate := JS.beforeT (JS.toISOString (Ticket.tripDate ticket));
     TicketJson.driverId := Ticket.driverId ticket;
     TicketJson.reason := Ticket.reason ticket;
     TicketJson.city := Ticket.city ticket;
     TicketJson.serviceType := Ticket.serviceType ticket;
     TicketJson.customerPhone := Ticket.customerPhone ticket;
     TicketJson.agentName := Ticket.agentName ticket;
     TicketJson.createdAt := JS.toISOString (Ticket.createdAt ticket) |}.

(** The object literal of the export handler, keys in source order. *)
Definition csvRow (ticket : Ticket.t) : JsObject :=
  let j := render ticket in
  [ ("id", JsNumber (TicketJson.id j));
    ("tripId", JsString (TicketJson.tripId j));
    ("tripDate", JsString (TicketJson.tripDate j));
    ("driverId", JsNumber (TicketJson.driverId j));
    ("reason", JsString (TicketJson.reason j));
    ("city", JsString (TicketJson.city j));
    ("serviceType", JsString (TicketJson.serviceType j));
    ("customerPhone", JsString (TicketJson.customerPhone j));
    ("agentName", JsString (TicketJson.agentName j));
    ("createdAt", JsString (TicketJson.createdAt j)) ].

Definition fields : list string :=
  [ "id"; "tripId"; "tripDate"; "driverId"; "reason"; "city";
    "serviceType"; "customerPhone"; "agentName"; "createdAt" ].

Section Runtime.

(** Local time is [tz] minutes east of UTC. *)
Variable tz : Z.
(** [new Date(string)]: the time value, or [None] for an invalid date. *)
Variable Date_parse : string -> option Z.

Definition Date_new (s : option string) : option Z :=
  match s with
  | Some str => Date_parse str
  | None => None
  end.

Definition Date_setHours (d : option Z) (h m s ms : Z) : option Z :=
  option_map (fun v => JS.setHours tz v h m s ms) d.

(** The [where] clause of [GET /api/tickets]. *)
Definition listWhere (q : GetTicketsQuery.t) : Prisma.Where :=
  let reason := GetTicketsQuery.reason q in
  let start_date := GetTicketsQuery.start_date q in
  let end_date := GetTicketsQuery.end_date q in
  {| Prisma.reason := if JS.truthy reason then reason else None;
     Prisma.tripDate :=
       if JS.truthy start_date && JS.truthy end_date then
         Some {| Prisma.gte := Date_new start_date;
                 Prisma.lte := Date_new end_date |}
       else if JS.truthy start_date then
         let startDate := Date_new start_date in
         let endOfDay := Date_setHours startDate 23 59 59 999 in
         Some {| Prisma.gte := startDate; Prisma.lte := endOfDay |}
       else if JS.truthy end_date then
         let endDate := Date_new end_date in
         let startOfDay := Date_setHours endDate 0 0 0 0 in
         Some {| Prisma.gte := startOfDay; Prisma.lte := endDate |}
       else None |}.

(** The [where] clause of [GET /api/tickets/export], written out again in
    the source. *)
Definition exportWhere (q : GetTicketsQuery.t) : Prisma.Where :=
  let reason := GetTicketsQuery.reason q in
  let start_date := GetTicketsQuery.start_date q in
  let end_date := GetTicketsQuery.end_date q in
  {| Prisma.reason := if JS.truthy reason then reason else None;
     Prisma.tripDate :=
       if JS.truthy start_date && JS.truthy end_date then
         Some {| Prisma.gte := Date_new start_date;
                 Prisma.lte := Date_new end_date |}
       else if JS.truthy start_date then
         let startDate := Date_new start_date in
         let endOfDay := Date_setHours startDate 23 59 59 999 in
         Some {| Prisma.gte := startDate; Prisma.lte := endOfDay |}
       else if JS.truthy end_date then
         let endDate := Date_new end_date in
         let startOfDay := Date_setHours endDate 0 0 0 0 in
         Some {| Prisma.gte := startOfDay; Prisma.lte := endDate |}
       else None |}.

(** [POST /api/tickets]: the handler body, at store time [now]. *)
Definition createTicket (now : Z) (b : CreateTicketBody.t) : M Response :=
  ticket <- Prisma.create now
    {| Prisma.data_tripId := CreateTicketBody.tripId b;
       Prisma.data_tripDate := Date_parse (CreateTicketBody.tripDate b);
       Prisma.data_driverId := CreateTicketBody.driverId b;
       Prisma.data_reason := CreateTicketBody.reason b;
       Prisma.data_city := CreateTicketBody.city b;
       Prisma.data_serviceType := CreateTicketBody.serviceType b;
       Prisma.data_customerPhone := CreateTicketBody.customerPhone b;
       Prisma.data_agentName := CreateTicketBody.agentName b |} ;;
  ret {| status := 201;
         body := Created "Ticket created successfully" (Ticket.id ticket) |}.

(** [GET /api/tickets]: the handler body. *)
Definition getTickets (q : GetTicketsQuery.t) : M Response :=
  let page := match GetTicketsQuery.page q with Some p => p | None => "1" end in
  let limit :=
    match GetTicketsQuery.limit q with Some l => l | None => "20" end in
  let pageNum := JS.parseInt page in
  let limitNum := JS.parseInt limit in
  let skip := JS.Number_mul (JS.Number_sub pageNum (Some 1)) limitNum in
  let where_ := listWhere q in
  totalTickets <- Prisma.count where_ ;;
  tickets <- Prisma.findMany where_ (Some (skip, limitNum)) ;;
  let totalPages := JS.Math_ceil_div totalTickets limitNum in
  if (List.length tickets =? 0)%nat then
    throw (createError "No tickets found for given filters" 404)
  else
    ret {| status := 200;
           body := TicketPage pageNum totalPages totalTickets
                     (map render tickets) |}.

(** [GET /api/tickets/export]: the handler body. *)
Definition exportTickets (q : GetTicketsQuery.t) : M Response :=
  let where_ := exportWhere q in
  tickets <- Prisma.findMany where_ None ;;
  if (List.length tickets =? 0)%nat then
    throw (createError "No tickets found for given filters" 404)
  else
    let csvData := map csvRow tickets in
    let csv := Parser_parse fields csvData in
    ret {| status := 200;
           body := Attachment "text/csv" "tickets.csv" csv |}.

(** [DELETE /api/tickets/:id]: the handler body. *)
Definition deleteTicket (id : string) : M Response :=
  let ticketId := JS.parseInt id in
  match ticketId with
  | None => throw (createError "Invalid ticket ID" 400)
  | Some ticketId =>
      ticket <- Prisma.findUnique ticketId ;;
      match ticket with
      | None => throw (createError "Ticket not found" 404)
      | Some _ =>
          Prisma.delete ticketId ;;;
          ret {| status := 200;
                 body := Message "Ticket deleted successfully" |}
      end
  end.

(** The routes: the validation chain, then the handler. *)
Section Routes.

Variable reasonCategories : list string.
Variable isPhoneNumber : string -> bool.

Definition postRoute (now : Z) (b : CreateTicketBody.t)
  : Store -> Response * Store :=
  Validation.checkValidationErrors
    (Validation.validateCreateTicket Date_parse reasonCategories
       isPhoneNumber b)
    (tryNext (createTicket now b)).

Definition listRoute (q : GetTicketsQuery.t) : Store -> Response * Store :=
  Validation.checkValidationErrors
    (Validation.validateGetTickets Date_parse q)
    (tryNext (getTickets q)).

Definition exportRoute (q : GetTicketsQuery.t) : Store -> Response * Store :=
  Validation.checkValidationErrors
    (Validation.validateGetTickets Date_parse q)
    (tryNext (exportTickets q)).

Definition deleteRoute (id : string) : Store -> Response * Store :=
  tryNext (deleteTicket id).

End Routes.

End Runtime.

End Tickets.

(** ** The HTTP server *)

Module Server.

Inductive Method := GET | HEAD | POST | PUT | PATCH | DELETE | OPTIONS.

Definition Method_eqb (a b : Method) : bool :=
  match a, b with
  | GET, GET | HEAD, HEAD | POST, POST | PUT, PUT | PATCH, PATCH
  | DELETE, DELETE | OPTIONS, OPTIONS => true
  | _, _ => false
  end.

(** A request, as far as routing looks at it. *)
Record Request := {
  method : Method;
  path : string
}.

(** The process environment and the files on disk. *)
Record Env := {
  now : Z;
  NODE_ENV : option string;
  isFile : string -> bool;
  isDirectory : string -> bool;
  rateLimited : Request -> bool
}.

Inductive Payload :=
| Empty
| JsonMessage (message : string)
| JsonHealth (status timestamp : string)
| JsonError (message : string) (error : option string)
| File (name : string)
| Redirect (location : string)
| Text (content : string)
| Routed (r : Response).

Record Reply := {
  code : Z;
  payload : Payload
}.

(** What a middleware does with a request: answer it, call [next()], call
    [next(err)], or return without doing either. *)
Inductive Outcome :=
| Respond (r : Reply)
| Next
| NextError (e : Error)
| Hang.

Definition Middleware := Env -> Request -> Outcome.
Definition ErrorMiddleware := Env -> Error -> Request -> Outcome.

Inductive Pattern :=
| Exact (p : string)
| Star.

Inductive Layer :=
| Use (mount : option string) (h : Middleware)
| Route (m : Method) (p : Pattern) (h : Middleware)
| UseError (h : ErrorMiddleware).

Definition lowerChar (c : ascii) : ascii :=
  let n := N_of_ascii c in
  if (N.leb 65 n && N.leb n 90)%bool then ascii_of_N (n + 32) else c.

Fixpoint toLowerCase (s : string) : string :=
  match s with
  | String c r => String (lowerChar c) (toLowerCase r)
  | EmptyString => EmptyString
  end.

(** [s.startsWith(p)]. *)
Definition startsWith (s p : string) : bool := String.prefix p s.

Fixpoint includes (s sub : string) : bool :=
  String.prefix sub s ||
  match s with
  | String _ r => includes r sub
  | EmptyString => false
  end.

(** A mount path without its trailing slash. *)
Fixpoint stripSlash (s : string) : string :=
  match s with
  | String "/" EmptyString => EmptyString
  | String c r => String c (stripSlash r)
  | EmptyString => EmptyString
  end.

(** [app.use(mount, ...)] runs for the mount path and everything under it;
    [*] and no mount path run for every request. *)
Definition underMount (mount : option string) (p : string) : bool :=
  match mount with
  | None => true
  | Some m =>
      if String.eqb m "*" then true
      else
        let m := toLowerCase (stripSlash m) in
        let p := toLowerCase p in
        String.eqb p m || String.prefix (m ++ "/") p
  end.

(** [app.get(path, ...)]: routing ignores case and one trailing slash. *)
Definition patternMatches (pat : Pattern) (p : string) : bool :=
  match pat with
  | Star => true
  | Exact e =>
      let p := toLowerCase p in
      let e := toLowerCase e in
      String.eqb p e || String.eqb p (e ++ "/")
  end.

(** A [GET] route also answers [HEAD]. *)
Definition methodMatches (route m : Method) : bool :=
  Method_eqb route m ||
  match route, m with GET, HEAD => true | _, _ => false end.

Definition finalHandler (err : option Error) (req : Request) : Reply :=
  match err with
  | None => {| code := 404; payload := Text ("Cannot " ++ path req) |}
  | Some (HttpError m st) => {| code := st; payload := Text m |}
  | Some (ClientError m) => {| code := 500; payload := Text m |}
  end.

(** The walk of the layer stack; [None] is a request that is never
    answered.  Two answers the framework gives by itself are left out: the
    one to an [OPTIONS] request for a path that a route of another method
    matches, and the one to a path with a malformed percent escape. *)
Fixpoint dispatch (env : Env) (stack : list Layer) (err : option Error)
  (req : Request) : option Reply :=
  match stack with
  | [] => Some (finalHandler err req)
  | layer :: rest =>
      let continue (o : Outcome) :=
        match o with
        | Respond r => Some r
        | Next => dispatch env rest err req
        | NextError e => dispatch env rest (Some e) req
        | Hang => None
        end in
      match err, layer with
      | None, Use mount h =>
          if underMount mount (path req) then continue (h env req)
          else continue Next
      | None, Route m p h =>
          if methodMatches m (method req) && patternMatches p (path req)
          then continue (h env req)
          else continue Next
      | Some e, UseError h => continue (h env e req)
      | _, _ => continue Next
      end
  end.

(** *** Middleware *)

(** [helmet()], [morgan('combined')], [express.json], [express.urlencoded]:
    headers, logging and body parsing, then [next()]. *)
Definition passThrough : Middleware := fun _ _ => Next.

(** [cors(...)]: a preflight request is answered, every other one goes on. *)
Definition cors : Middleware :=
  fun _ req =>
    match method req with
    | OPTIONS => Respond {| code := 204; payload := Empty |}
    | _ => Next
    end.

(** [rateLimit({ windowMs, max, message })]. *)
Definition limiter : Middleware :=
  fun env req =>
    if rateLimited env req
    then Respond {| code := 429;
                    payload := Text "Too many requests from this IP, please try again later." |}
    else Next.

(** [s.split(sep)]. *)
Fixpoint split (sep : ascii) (s : string) : list string :=
  match s with
  | EmptyString => [EmptyString]
  | String c r =>
      if Ascii.eqb c sep then EmptyString :: split sep r
      else
        match split sep r with
        | part :: parts => String c part :: parts
        | [] => [String c EmptyString]
        end
  end.

(** The test [express.static] makes on the segments of the path: a segment
    of more than one character that begins with a dot names a dotfile. *)
Definition containsDotFile (parts : list string) : bool :=
  existsb (fun part =>
             (1 <? Z.of_nat (String.length part)) && startsWith part ".")
          parts.

Definition hasTrailingSlash (p : string) : bool :=
  negb (String.eqb (stripSlash p) p).

(** [express.static(root)] with its default options: a [GET] or [HEAD] for
    a file under [root] is answered with the file, one for a directory with
    a redirect to its slash form or with its [index.html]; a path with a
    dotfile segment is ignored, and whatever is not found is passed on.
    The path is taken as it is routed, without percent escapes; requests
    are told apart by method and path, so conditional and range requests
    are not modelled. *)
Definition static (root : string) : Middleware :=
  fun env req =>
    match method req with
    | GET | HEAD =>
        if containsDotFile (split "/" (path req)) then Next
        else
          let target := root ++ path req in
          if isFile env target then
            Respond {| code := 200; payload := File target |}
          else if isDirectory env target then
            if negb (hasTrailingSlash (path req))
            then Respond {| code := 301;
                            payload := Redirect (path req ++ "/") |}
            else if isFile env (target ++ "index.html")
            then Respond {| code := 200;
                            payload := File (target ++ "index.html") |}
            else Next
          else Next
    | _ => Next
    end.

(** [res.sendFile(name)]: a missing file goes to [next(err)]. *)
Definition sendFile (name : string) : Middleware :=
  fun env _ =>
    if isFile env name then Respond {| code := 200; payload := File name |}
    else NextError (HttpError "ENOENT: no such file or directory" 404).

Definition rootRoute : Middleware :=
  fun _ _ =>
    Respond {| code := 200; payload := JsonMessage "Backend API is running" |}.

(** [res.json({ status: 'OK', timestamp: new Date().toISOString() })]. *)
Definition health : Middleware :=
  fun env _ =>
    Respond {| code := 200;
               payload := JsonHealth "OK" (JS.toISOString (now env)) |}.

(** The error-handling middleware of both variants. *)
Definition errorMiddleware : ErrorMiddleware :=
  fun env err _ =>
    let message :=
      match err with HttpError m _ => m | ClientError m => m end in
    if includes message "Can't reach database server" then
      Respond {| code := 503;
                 payload := JsonError
                   "Database connection error. Please try again later."
                   (match NODE_ENV env with
                    | Some e => if String.eqb e "development"
                                then Some message else None
                    | None => None
                    end) |}
    else
      let r := errorHandler err in
      Respond {| code := status r; payload := Routed r |}.

Definition notFound : Middleware :=
  fun _ _ => Respond {| code := 404; payload := JsonMessage "Route not found" |}.

(** The catch-all of the second variant. *)
Definition spaFallback (frontendPath : string) : Middleware :=
  fun env req =>
    if negb (startsWith (path req) "/api")
    then sendFile (frontendPath ++ "/index.html") env req
    else Hang.

Section Apps.

(** The ticket router mounted under [/api/tickets]. *)
Variable ticketRoutes : Middleware.

(** The first variant of the server. *)
Definition app1 : list Layer :=
  [ Use None passThrough;            (* helmet *)
    Use None cors;
    Use None passThrough;            (* morgan *)
    Use None passThrough;            (* express.json *)
    Use None passThrough;            (* express.urlencoded *)
    Use (Some "/api/") limiter;
    Use None (static "dist");
    Use (Some "/api/tickets") ticketRoutes;
    Route GET (Exact "/") rootRoute;
    Route GET (Exact "/health") health;
    UseError errorMiddleware;
    Use (Some "*") notFound ].

Definition frontendPath : string := "../frontend/dist".

(** The second variant of the server. *)
Definition app2 : list Layer :=
  [ Use None passThrough;            (* helmet *)
    Use None cors;
    Use None passThrough;            (* morgan *)
    Use None passThrough;            (* express.json *)
    Use None passThrough;            (* express.urlencoded *)
    Use (Some "/api/") limiter;
    Use None (static frontendPath);
    Use (Some "/api/tickets") ticketRoutes;
    Route GET Star (spaFallback frontendPath);
    Route GET (Exact "/health") health;
    UseError errorMiddleware;
    Use (Some "*") notFound ].

Definition serve (app : list Layer) (env : Env) (req : Request)
  : option Reply :=
  dispatch env app None req.

End Apps.

(** The static servers ([src/backend/server.js] and the one in
    [src/unnamed/part_001]): the build directory, then the entry document
    of the single-page application for every [GET]. *)
Definition staticServer (dist : string) : list Layer :=
  [ Use None (static dist);
    Route GET Star (sendFile (dist ++ "/index.html")) ].

Definition backendStaticServer : list Layer := staticServer "frontend/dist".
Definition siblingStaticServer : list Layer := staticServer "../frontend/dist".



End Server.

(** ** The vocabulary of the properties *)

Module Spec.

(** The local day of a time value, for a zone [tz] minutes east of UTC,
    and its first and last millisecond. *)
Definition localDay (tz d : Z) : Z := (d + tz * 60000) / 86400000.
Definition startOfDay (tz d : Z) : Z := localDay tz d * 86400000 - tz * 60000.
Definition endOfDay (tz d : Z) : Z := startOfDay tz d + 86399999.

(** The last full second of the local day: [23:59:59]. *)
Definition lastSecondOfDay (tz d : Z) : Z := startOfDay tz d + 86399000.

Definition inRange (lo hi x : Z) : Prop := lo <= x /\ x <= hi.

(** A query parameter counts as supplied when it is present and not empty. *)
Definition supplied (v : option string) : Prop := JS.truthy v = true.

Definition reasonOk (q : GetTicketsQuery.t) (t : Ticket.t) : Prop :=
  forall r, GetTicketsQuery.reason q = Some r -> r <> "" ->
            Ticket.reason t = r.

(** The page and limit of a list request, with their defaults. *)
Definition pageNum (q : GetTicketsQuery.t) : JS.Number :=
  JS.parseInt
    (match GetTicketsQuery.page q with Some p => p | None => "1" end).
Definition limitNum (q : GetTicketsQuery.t) : JS.Number :=
  JS.parseInt
    (match GetTicketsQuery.limit q with Some l => l | None => "20" end).

(** Two requests carry the same filter. *)
Definition sameFilter (q q' : GetTicketsQuery.t) : Prop :=
  GetTicketsQuery.reason q = GetTicketsQuery.reason q' /\
  GetTicketsQuery.start_date q = GetTicketsQuery.start_date q' /\
  GetTicketsQuery.end_date q = GetTicketsQuery.end_date q'.

(** Newest first. *)
Definition newestFirst (l : list Ticket.t) : Prop :=
  StronglySorted
    (fun a b => Ticket.createdAt b <= Ticket.createdAt a) l.

(** The decimal number a string starts with, if it starts with a decimal
    digit: the reading of an identifier as its leading integer. *)
Definition leadingInteger (s : string) : option Z :=
  match JS.takeDigits 10 s with
  | [] => None
  | ds => Some (JS.mathInt 10 ds)
  end.

(** No row of the store carries the identifier. *)
Definition absent (n : Z) (s : Store) : Prop :=
  forall t, In t (rows s) -> Ticket.id t <> n.

(** Every identifier in use came from the counter, once. *)
Definition wellFormed (s : Store) : Prop :=
  1 <= nextId s /\
  (forall t, In t (rows s) -> 1 <= Ticket.id t < nextId s) /\
  NoDup (map Ticket.id (rows s)).

(** The answer of the list and export routes that find nothing. *)
Definition notFoundResponse : Response :=
  {| status := 404; body := Message "No tickets found for given filters" |}.

(** An identifier the counter has passed and no row carries. *)
Definition gone (n : Z) (s : Store) : Prop :=
  absent n s /\ n < nextId s.

(** The tickets a response shows, and their identifiers. *)
Definition shownTickets (r : Response) : list TicketJson.t :=
  match body r with
  | TicketPage _ _ _ tickets => tickets
  | _ => []
  end.
Definition shownIds (r : Response) : list Z :=
  map TicketJson.id (shownTickets r).

(** The answers of the delete route. *)
Definition invalidId : Response :=
  {| status := 400; body := Message "Invalid ticket ID" |}.
Definition ticketNotFound : Response :=
  {| status := 404; body := Message "Ticket not found" |}.
Definition deleted : Response :=
  {| status := 200; body := Message "Ticket deleted successfully" |}.

(** The store without the rows that carry identifier [n]. *)
Definition without (n : Z) (s : Store) : Store :=
  {| rows := filter (fun t => negb (Ticket.id t =? n)) (rows s);
     nextId := nextId s |}.

(** A delete request is treated as one for the number [n]: the record
    with that identifier is removed if it exists, and the request is
    answered 404 otherwise. *)
Definition deletes (id : string) (n : Z) (s : Store) : Prop :=
  ((exists t, In t (rows s) /\ Ticket.id t = n) ->
   Tickets.deleteRoute id s = (deleted, without n s)) /\
  (absent n s -> Tickets.deleteRoute id s = (ticketNotFound, s)).

(** The row a create request with body [b] adds at store time [now], its
    [tripDate] being the time value [date]. *)
Definition newRow (s : Store) (now date : Z) (b : CreateTicketBody.t)
  : Ticket.t :=
  {| Ticket.id := nextId s;
     Ticket.tripId := CreateTicketBody.tripId b;
     Ticket.tripDate := date;
     Ticket.driverId := CreateTicketBody.driverId b;
     Ticket.reason := CreateTicketBody.reason b;
     Ticket.city := CreateTicketBody.city b;
     Ticket.serviceType := CreateTicketBody.serviceType b;
     Ticket.customerPhone := CreateTicketBody.customerPhone b;
     Ticket.agentName := CreateTicketBody.agentName b;
     Ticket.createdAt := now |}.

Definition created (id : Z) : Response :=
  {| status := 201; body := Created "Ticket created successfully" id |}.

(** The entry a list response is to show for the record a create request
    with body [b] made: the identifier [id] of the 201 answer, the columns
    of the body as they were sent, [tripDate] as the date part of the ISO
    form of the time value [date], [createdAt] as the ISO form of the store
    time [now]. *)
Definition listedTicket (id now date : Z) (b : CreateTicketBody.t)
  : TicketJson.t :=
  {| TicketJson.id := id;
     TicketJson.tripId := CreateTicketBody.tripId b;
     TicketJson.tripDate := JS.beforeT (JS.toISOString date);
     TicketJson.driverId := CreateTicketBody.driverId b;
     TicketJson.reason := CreateTicketBody.reason b;
     TicketJson.city := CreateTicketBody.city b;
     TicketJson.serviceType := CreateTicketBody.serviceType b;
     TicketJson.customerPhone := CreateTicketBody.customerPhone b;
     TicketJson.agentName := CreateTicketBody.agentName b;
     TicketJson.createdAt := JS.toISOString now |}.

(** The store with one more row, the counter moved on. *)
Definition withRow (t : Ticket.t) (s : Store) : Store :=
  {| rows := rows s ++ [t]; nextId := nextId s + 1 |}.

(** The health check request and the payload it is to be answered with. *)
Definition getHealth : Server.Request :=
  {| Server.method := Server.GET; Server.path := "/health" |}.

Definition healthReply (env : Server.Env) : Server.Reply :=
  {| Server.code := 200;
     Server.payload :=
       Server.JsonHealth "OK" (JS.toISOString (Server.now env)) |}.

Section Runtime.

Variable tz : Z.
Variable Date_parse : string -> option Z.
Variable reasonCategories : list string.
Variable isPhoneNumber : string -> bool.

(** The rows a request's filter matches, in table order and newest first. *)
Definition matching (q : GetTicketsQuery.t) (s : Store) : list Ticket.t :=
  filter (Prisma.matches (Tickets.listWhere tz Date_parse q)) (rows s).
Definition ordered (q : GetTicketsQuery.t) (s : Store) : list Ticket.t :=
  Prisma.orderByCreatedAtDesc (matching q s).

(** The page of rows a list request with page [p] and limit [l] selects. *)
Definition pageRows (q : GetTicketsQuery.t) (p l : Z) (s : Store)
  : list Ticket.t :=
  Prisma.window ((p - 1) * l) l (ordered q s).

Definition validQuery (q : GetTicketsQuery.t) : Prop :=
  Validation.validateGetTickets Date_parse q = [].

Definition validBody (b : CreateTicketBody.t) : Prop :=
  Validation.validateCreateTicket Date_parse reasonCategories isPhoneNumber b
  = [].

(** The requests that reach the ticket router. *)
Inductive Op :=
| Create (now : Z) (b : CreateTicketBody.t)
| List (q : GetTicketsQuery.t)
| Export (q : GetTicketsQuery.t)
| Delete (id : string).

Definition step (o : Op) : Store -> Response * Store :=
  match o with
  | Create now b =>
      Tickets.postRoute Date_parse reasonCategories isPhoneNumber now b
  | List q => Tickets.listRoute tz Date_parse q
  | Export q => Tickets.exportRoute tz Date_parse q
  | Delete id => Tickets.deleteRoute id
  end.

Fixpoint run (ops : list Op) (s : Store) : Store :=
  match ops with
  | [] => s
  | o :: r => run r (snd (step o s))
  end.

End Runtime.

End Spec.


(** ** Concrete stores and requests *)

Module Fixtures.

Definition ticket (id tripDate createdAt : Z) (reason : string) : Ticket.t :=
  {| Ticket.id := id;
     Ticket.tripId := "TRIP-" ++ JS.Number_toString id;
     Ticket.tripDate := tripDate;
     Ticket.driverId := 7;
     Ticket.reason := reason;
     Ticket.city := "Baghdad";
     Ticket.serviceType := "Economy";
     Ticket.customerPhone := "07700000000";
     Ticket.agentName := "Agent";
     Ticket.createdAt := createdAt |}.

(** 2024-01-01T00:00:00.000Z and noon of the same day. *)
Definition jan1 : Z := 1704067200000.
Definition jan1_noon : Z := 1704110400000.

Definition query (reason start_date end_date page limit : option string)
  : GetTicketsQuery.t :=
  {| GetTicketsQuery.reason := reason;
     GetTicketsQuery.start_date := start_date;
     GetTicketsQuery.end_date := end_date;
     GetTicketsQuery.page := page;
     GetTicketsQuery.limit := limit |}.

Definition noParams : GetTicketsQuery.t := query None None None None None.

(** One ticket, for a trip at noon of 2024-01-01. *)
Definition oneTicket : Store :=
  {| rows := [ticket 1 jan1_noon 1704200000000 "Late arrival"];
     nextId := 2 |}.

(** Fifteen tickets, created one second apart. *)
Definition fifteenTickets : Store :=
  {| rows := map (fun i => ticket (Z.of_nat i) jan1_noon
                             (1704200000000 + 1000 * Z.of_nat i)
                             "Late arrival")
                 (seq 1 15);
     nextId := 16 |}.

Definition body : CreateTicketBody.t :=
  {| CreateTicketBody.tripId := "TRIP-9";
     CreateTicketBody.tripDate := "2024-01-01";
     CreateTicketBody.driverId := 7;
     CreateTicketBody.reason := "Late arrival";
     CreateTicketBody.city := "Baghdad";
     CreateTicketBody.serviceType := "Economy";
     CreateTicketBody.customerPhone := "07700000000";
     CreateTicketBody.agentName := "Agent" |}.

(** The same body for a trip on another date. *)
Definition bodyOn (tripDate : string) : CreateTicketBody.t :=
  {| CreateTicketBody.tripId := "TRIP-9";
     CreateTicketBody.tripDate := tripDate;
     CreateTicketBody.driverId := 7;
     CreateTicketBody.reason := "Late arrival";
     CreateTicketBody.city := "Baghdad";
     CreateTicketBody.serviceType := "Economy";
     CreateTicketBody.customerPhone := "07700000000";
     CreateTicketBody.agentName := "Agent" |}.

Definition reasonCategories : list string :=
  ["Late arrival"; "Cancellation"].

Definition isPhoneNumber (s : string) : bool :=
  Validation.allDigits s && negb (String.eqb s "").

(** A production host with an empty disk and an idle rate limiter. *)
Definition emptyDisk : Server.Env :=
  {| Server.now := 1704110400123;
     Server.NODE_ENV := Some "production";
     Server.isFile := fun _ => false;
     Server.isDirectory := fun _ => false;
     Server.rateLimited := fun _ => false |}.

(** A host whose build directory [dist] holds the entry document, a
    script and a dotfile. *)
Definition builtDisk : Server.Env :=
  {| Server.now := 1704110400123;
     Server.NODE_ENV := Some "production";
     Server.isFile := fun name =>
       existsb (String.eqb name)
         ["dist/index.html"; "dist/assets/app.js"; "dist/.env"];
     Server.isDirectory := fun name =>
       existsb (String.eqb name) ["dist"; "dist/"; "dist/assets";
                                  "dist/assets/"];
     Server.rateLimited := fun _ => false |}.

Definition request (m : Server.Method) (p : string) : Server.Request :=
  {| Server.method := m; Server.path := p |}.

(** A ticket router that finds no route, and one whose database is down. *)
Definition noRoute : Server.Middleware := fun _ _ => Server.Next.
Definition databaseDown : Server.Middleware :=
  fun _ _ =>
    Server.NextError
      (ClientError "Can't reach database server at db:5432").

End Fixtures.

(** ** Further vocabulary *)

Module Terms.

(** The cells of the CSV record of a row, in header order. *)
Definition cells (t : Ticket.t) : list (option JsValue) :=
  [ Some (JsNumber (Ticket.id t));
    Some (JsString (Ticket.tripId t));
    Some (JsString (JS.beforeT (JS.toISOString (Ticket.tripDate t))));
    Some (JsNumber (Ticket.driverId t));
    Some (JsString (Ticket.reason t));
    Some (JsString (Ticket.city t));
    Some (JsString (Ticket.serviceType t));
    Some (JsString (Ticket.customerPhone t));
    Some (JsString (Ticket.agentName t));
    Some (JsString (JS.toISOString (Ticket.createdAt t))) ].

(** The request [q] asked for page [p]. *)
Definition withPage (q : GetTicketsQuery.t) (p : Z) : GetTicketsQuery.t :=
  {| GetTicketsQuery.reason := GetTicketsQuery.reason q;
     GetTicketsQuery.start_date := GetTicketsQuery.start_date q;
     GetTicketsQuery.end_date := GetTicketsQuery.end_date q;
     GetTicketsQuery.page := Some (JS.Number_toString p);
     GetTicketsQuery.limit := GetTicketsQuery.limit q |}.

(** The page numbers 1 to [k]. *)
Definition pagesUpTo (k : Z) : list Z :=
  map (fun i => Z.of_nat i + 1) (seq 0 (Z.to_nat k)).

(** The records of the CSV a response carries. *)
Definition exportedRecords (r : Response) : list (list (option JsValue)) :=
  match body r with
  | Attachment _ _ csv => records csv
  | _ => []
  end.

(** A list cut into consecutive pieces of [n] elements. *)
Definition chunks {A} (n k : nat) (l : list A) : list (list A) :=
  map (fun i => firstn n (skipn (i * n) l)) (seq 0 k).

(** A layer mounted at [mount] lets the request through. *)
Definition passes (mount : option string) (h : Server.Middleware)
  (env : Server.Env) (req : Server.Request) : Prop :=
  Server.underMount mount (Server.path req) = true ->
  h env req = Server.Next.


(** The environment with another state of the rate limiter. *)
Definition withRateLimited (f : Server.Request -> bool) (env : Server.Env)
  : Server.Env :=
  {| Server.now := Server.now env;
     Server.NODE_ENV := Server.NODE_ENV env;
     Server.isFile := Server.isFile env;
     Server.isDirectory := Server.isDirectory env;
     Server.rateLimited := f |}.

Definition errorMessage (e : Error) : string :=
  match e with HttpError m _ => m | ClientError m => m end.


Definition development (env : Server.Env) : bool :=
  match Server.NODE_ENV env with
  | Some e => String.eqb e "development"
  | None => false
  end.

(** The answer to an error that says the database cannot be reached. *)
Definition databaseUnavailable (env : Server.Env) (e : Error)
  : Server.Reply :=
  {| Server.code := 503;
     Server.payload :=
       Server.JsonError "Database connection error. Please try again later."
         (if development env then Some (errorMessage e) else None) |}.





(** A string that names a day of the calendar, alone or with a time of
    that day: [YYYY-MM-DD] or [YYYY-MM-DDTHH:mm:ss.sssZ], the day no later
    than the last of its month and the hour before 24. *)
Definition calendarDate (s : string) : bool :=
  match s with
  | String y1 (String y2 (String y3 (String y4 (String "-" (String m1
      (String m2 (String "-" (String d1 (String d2 rest))))))))) =>
      match JS.digits2 y1 y2, JS.digits2 y3 y4,
            JS.digits2 m1 m2, JS.digits2 d1 d2 with
      | Some yh, Some yl, Some m, Some d =>
          (1 <=? m) && (m <=? 12) && (1 <=? d)
          && (d <=? JS.daysInMonth (100 * yh + yl) m)
          && match rest with
             | EmptyString => true
             | _ =>
                 match JS.isoClock rest with
                 | Some t => t <? JS.msPerDay
                 | None => false
                 end
             end
      | _, _, _, _ => false
      end
  | _ => false
  end.

(** The numbers 0 to [n - 1]. *)
Definition range (n : nat) : list Z := map Z.of_nat (seq 0 n).

(** The intermediate values of [civilFromDays]: the 400-year era of a day
    number, the day of the era, and from it the year of the era, the day of
    the year (from 1 March) and the month (from March). *)
Definition eraOf (z : Z) : Z := (z + 719468) / 146097.
Definition doeOf (z : Z) : Z := z + 719468 - eraOf z * 146097.
Definition yoeOf (doe : Z) : Z :=
  (doe - doe / 1460 + doe / 36524 - doe / 146096) / 365.
Definition doyOf (doe : Z) : Z :=
  doe - (365 * yoeOf doe + yoeOf doe / 4 - yoeOf doe / 100).
Definition mpOf (doy : Z) : Z := (5 * doy + 2) / 153.

Definition sameDate (a b : Z * Z * Z) : bool :=
  let '(y, m, d) := a in
  let '(y', m', d') := b in
  (y =? y') && (m =? m') && (d =? d').

(** Whether the first and the last day of month [m] of year [y] are found
    again from their day numbers, in the same era, year and month. *)
Definition monthCheck (y m : Z) : bool :=
  let last := JS.daysInMonth y m in
  let z1 := JS.daysFromCivil y m 1 in
  let z2 := JS.daysFromCivil y m last in
  sameDate (JS.civilFromDays z1) (y, m, 1)
  && sameDate (JS.civilFromDays z2) (y, m, last)
  && (eraOf z1 =? eraOf z2)
  && (yoeOf (doeOf z1) =? yoeOf (doeOf z2))
  && (mpOf (doyOf (doeOf z1)) =? mpOf (doyOf (doeOf z2))).

Definition civilCheck (y : Z) : bool :=
  forallb (monthCheck y) (map (Z.add 1) (range 12)).

End Terms.
(** * Facts about the runtime functions *)

(** Splits a conjunction into all its parts. *)
Ltac split_all := repeat match goal with |- _ /\ _ => split end.

Module JSFacts.
Import JS.

Lemma setHours_startOfDay tz d :
  setHours tz d 0 0 0 0 = Spec.startOfDay tz d.
Proof.
  unfold setHours, Spec.startOfDay, Spec.localDay, msPerDay, msPerHour,
    msPerMinute, msPerSecond.
  lia.
Qed.

Lemma setHours_endOfDay tz d :
  setHours tz d 23 59 59 999 = Spec.endOfDay tz d.
Proof.
  unfold setHours, Spec.endOfDay, Spec.startOfDay, Spec.localDay, msPerDay,
    msPerHour, msPerMinute, msPerSecond.
  lia.
Qed.

(** The start and the end of a day frame every instant of that day. *)
Lemma day_frames tz d :
  Spec.startOfDay tz d <= d <= Spec.endOfDay tz d.
Proof.
  unfold Spec.endOfDay, Spec.startOfDay, Spec.localDay.
  pose proof (Z.div_mod (d + tz * 60000) 86400000 ltac:(lia)) as E.
  pose proof (Z.mod_pos_bound (d + tz * 60000) 86400000 ltac:(lia)) as B.
  lia.
Qed.

(** [ceilDiv a b] is the least number of pages of size [b] that hold [a]. *)
Lemma ceilDiv_spec a b :
  0 < b -> (ceilDiv a b - 1) * b < a <= ceilDiv a b * b.
Proof.
  intros Hb. unfold ceilDiv.
  pose proof (Z.div_mod (- a) b ltac:(lia)) as E.
  pose proof (Z.mod_pos_bound (- a) b Hb) as B.
  nia.
Qed.

Lemma ceilDiv_unique a b k :
  0 < b -> (k - 1) * b < a <= k * b -> ceilDiv a b = k.
Proof.
  intros Hb Hk. pose proof (ceilDiv_spec a b Hb) as H. nia.
Qed.

Lemma digitChar_radixDigit d :
  0 <= d < 10 -> radixDigit 10 (digitChar d) = Some d.
Proof.
  intros H.
  assert (d = 0 \/ d = 1 \/ d = 2 \/ d = 3 \/ d = 4 \/ d = 5 \/ d = 6 \/
          d = 7 \/ d = 8 \/ d = 9) as C by lia.
  repeat (destruct C as [-> | C]; [reflexivity |]). subst. reflexivity.
Qed.

Lemma valueWith_cons a d r :
  0 <= d < 10 ->
  valueWith a (String (digitChar d) r) = valueWith (a * 10 + d) r.
Proof.
  intros H. unfold valueWith. cbn [takeDigits].
  rewrite (digitChar_radixDigit d H). reflexivity.
Qed.

Lemma digitsOf_value fuel :
  forall n acc,
    0 <= n -> (Z.to_nat n < fuel)%nat ->
    valueWith 0 (digitsOf fuel n acc) = valueWith n acc.
Proof.
  induction fuel as [| f IH]; intros n acc Hn Hf; [lia |].
  cbn [digitsOf].
  pose proof (Z.div_mod n 10 ltac:(lia)) as E.
  pose proof (Z.mod_pos_bound n 10 ltac:(lia)) as B.
  destruct (n / 10 =? 0) eqn:Q.
  - apply Z.eqb_eq in Q. rewrite valueWith_cons by lia.
    f_equal. lia.
  - apply Z.eqb_neq in Q.
    rewrite IH.
    + rewrite valueWith_cons by lia. f_equal. lia.
    + apply Z.div_pos; lia.
    + assert (n / 10 < n) by (apply Z.div_lt; lia).
      assert (0 <= n / 10) by (apply Z.div_pos; lia). lia.
Qed.

Lemma allDigits_digitsOf fuel :
  forall n acc,
    0 <= n -> Validation.allDigits acc = true ->
    Validation.allDigits (digitsOf fuel n acc) = true.
Proof.
  induction fuel as [| f IH]; intros n acc Hn Hacc; [exact Hacc |].
  cbn [digitsOf].
  pose proof (Z.mod_pos_bound n 10 ltac:(lia)) as B.
  assert (Validation.allDigits (String (digitChar (n mod 10)) acc) = true) as A.
  { cbn [Validation.allDigits]. unfold Validation.isDecimalDigit.
    rewrite (digitChar_radixDigit _ B). exact Hacc. }
  destruct (n / 10 =? 0); [exact A |].
  apply IH; [apply Z.div_pos; lia | exact A].
Qed.

Lemma digitsOf_nonempty fuel :
  forall n c r, digitsOf fuel n (String c r) <> EmptyString.
Proof.
  induction fuel as [| f IH]; intros n c r; cbn [digitsOf]; [discriminate |].
  destruct (n / 10 =? 0); [discriminate | apply IH].
Qed.

Lemma Number_toString_nonempty n : Number_toString n <> EmptyString.
Proof.
  unfold Number_toString. cbn [digitsOf].
  destruct (n / 10 =? 0); [discriminate | apply digitsOf_nonempty].
Qed.

Lemma isDecimalDigit_cases c :
  Validation.isDecimalDigit c = true ->
  c = "0"%char \/ c = "1"%char \/ c = "2"%char \/ c = "3"%char \/
  c = "4"%char \/ c = "5"%char \/ c = "6"%char \/ c = "7"%char \/
  c = "8"%char \/ c = "9"%char.
Proof.
  destruct c as [[] [] [] [] [] [] [] []]; intros H;
    try discriminate H; tauto.
Qed.

(** Case analysis on a character known to be a decimal digit. *)
Ltac by_digit c H :=
  destruct (isDecimalDigit_cases c H) as
    [-> | [-> | [-> | [-> | [-> | [-> | [-> | [-> | [-> | ->]]]]]]]]].

(** On a string that starts with a decimal digit and has no hexadecimal
    prefix, [parseInt] reads the leading decimal number. *)
Lemma parseInt_leading_digit c r :
  Validation.isDecimalDigit c = true ->
  hexPrefix (String c r) = None ->
  parseInt (String c r) = Some (valueWith 0 (String c r)).
Proof.
  intros Hc Hx.
  unfold parseInt, valueWith.
  assert (trimStart (String c r) = String c r) as ->.
  { by_digit c Hc;
      reflexivity. }
  assert ((match String c r with
           | String "-" r0 => (-1, r0)
           | String "+" r0 => (1, r0)
           | _ => (1, String c r)
           end) = (1, String c r)) as ->.
  { by_digit c Hc;
      reflexivity. }
  rewrite Hx.
  unfold Validation.isDecimalDigit in Hc.
  destruct (radixDigit 10 c) as [d |] eqn:Hd; [| discriminate].
  cbn [takeDigits]. rewrite Hd.
  unfold mathInt. f_equal. lia.
Qed.

(** On a string of decimal digits [parseInt] reads the whole string. *)
Lemma parseInt_allDigits s :
  Validation.allDigits s = true -> s <> EmptyString ->
  parseInt s = Some (valueWith 0 s).
Proof.
  destruct s as [| c r]; [congruence |]. intros H _.
  cbn [Validation.allDigits] in H. apply andb_prop in H as [Hc Hr].
  apply parseInt_leading_digit; [exact Hc |].
  destruct r as [| c2 r2].
  - by_digit c Hc;
      reflexivity.
  - cbn [Validation.allDigits] in Hr. apply andb_prop in Hr as [Hc2 _].
    by_digit c Hc;
      try reflexivity.
    by_digit c2 Hc2;
      reflexivity.
Qed.

(** The leading integer of an identifier is what [parseInt] reads, unless
    the identifier starts with a hexadecimal prefix. *)
Lemma parseInt_leadingInteger s n :
  Spec.leadingInteger s = Some n -> hexPrefix s = None ->
  parseInt s = Some n.
Proof.
  unfold Spec.leadingInteger. intros L Hx.
  destruct s as [| c r]; [discriminate L |].
  assert (Validation.isDecimalDigit c = true) as Hc.
  { unfold Validation.isDecimalDigit. cbn [takeDigits] in L.
    destruct (radixDigit 10 c); [reflexivity | discriminate L]. }
  rewrite (parseInt_leading_digit c r Hc Hx). unfold valueWith.
  destruct (takeDigits 10 (String c r)); [discriminate L |].
  inversion L. reflexivity.
Qed.

(** [parseInt(String(n)) = n] for a non-negative integer. *)
Lemma parseInt_Number_toString n :
  0 <= n -> parseInt (Number_toString n) = Some n.
Proof.
  intros Hn.
  rewrite parseInt_allDigits.
  - unfold Number_toString. rewrite digitsOf_value by lia.
    reflexivity.
  - apply allDigits_digitsOf; [exact Hn | reflexivity].
  - apply Number_toString_nonempty.
Qed.

Lemma isPositiveInteger_Number_toString n :
  1 <= n -> Validation.isPositiveInteger (Number_toString n) = true.
Proof.
  intros Hn. unfold Validation.isPositiveInteger.
  rewrite parseInt_Number_toString by lia.
  assert (Validation.allDigits (Number_toString n) = true) as ->
    by (apply allDigits_digitsOf; [lia | reflexivity]).
  apply Z.leb_le in Hn. now rewrite Hn.
Qed.

(** What the validation of [page] and [limit] gives the handler. *)
Lemma isPositiveInteger_parseInt s :
  Validation.isPositiveInteger s = true ->
  exists n, parseInt s = Some n /\ 1 <= n.
Proof.
  unfold Validation.isPositiveInteger. intros H.
  apply andb_prop in H as [_ H].
  destruct (parseInt s) as [n |]; [| discriminate].
  exists n. split; [reflexivity | now apply Z.leb_le].
Qed.

End JSFacts.

(** * Facts about the data access layer *)

Module PrismaFacts.
Import Prisma.

Lemma insertDesc_perm t l : Permutation (t :: l) (insertDesc t l).
Proof.
  induction l as [| h r IH]; cbn [insertDesc]; [apply Permutation_refl |].
  destruct (Ticket.createdAt h <=? Ticket.createdAt t).
  - apply Permutation_refl.
  - eapply perm_trans; [apply perm_swap | apply perm_skip, IH].
Qed.

Lemma orderBy_perm l : Permutation l (orderByCreatedAtDesc l).
Proof.
  induction l as [| t r IH]; cbn [orderByCreatedAtDesc]; [constructor |].
  eapply perm_trans; [apply perm_skip, IH | apply insertDesc_perm].
Qed.

Lemma orderBy_In t l : In t (orderByCreatedAtDesc l) <-> In t l.
Proof.
  split; intros H.
  - eapply Permutation_in; [apply Permutation_sym, orderBy_perm | exact H].
  - eapply Permutation_in; [apply orderBy_perm | exact H].
Qed.

Lemma orderBy_length l :
  List.length (orderByCreatedAtDesc l) = List.length l.
Proof. symmetry. apply Permutation_length, orderBy_perm. Qed.

Lemma insertDesc_sorted t l :
  Spec.newestFirst l -> Spec.newestFirst (insertDesc t l).
Proof.
  unfold Spec.newestFirst.
  induction l as [| h r IH]; intros S; cbn [insertDesc].
  - constructor; constructor.
  - destruct (Ticket.createdAt h <=? Ticket.createdAt t) eqn:Q.
    + apply Z.leb_le in Q. constructor; [exact S |].
      constructor; [exact Q |].
      apply StronglySorted_inv in S as [_ F].
      eapply Forall_impl; [| exact F]. cbn. intros a Ha. lia.
    + apply Z.leb_gt in Q.
      apply StronglySorted_inv in S as [S F].
      constructor; [apply IH, S |].
      apply Forall_forall. intros x Hx.
      apply (Permutation_in x (Permutation_sym (insertDesc_perm t r))) in Hx.
      destruct Hx as [<- | Hx]; [lia |].
      rewrite Forall_forall in F. now apply F.
Qed.

Lemma orderBy_sorted l : Spec.newestFirst (orderByCreatedAtDesc l).
Proof.
  induction l as [| t r IH]; cbn [orderByCreatedAtDesc].
  - constructor.
  - apply insertDesc_sorted, IH.
Qed.

Lemma orderBy_nil l : orderByCreatedAtDesc l = [] <-> l = [].
Proof.
  split; intros H.
  - apply length_zero_iff_nil. rewrite <- orderBy_length, H. reflexivity.
  - subst. reflexivity.
Qed.

Lemma In_firstn {A} (x : A) n l : In x (firstn n l) -> In x l.
Proof.
  revert l. induction n as [| n IH]; intros [| h r]; cbn; try tauto.
  intros [E | H]; [now left | right; now apply IH].
Qed.

Lemma In_skipn {A} (x : A) n l : In x (skipn n l) -> In x l.
Proof.
  revert l. induction n as [| n IH]; intros [| h r]; cbn; try tauto.
  intros H. right. now apply IH.
Qed.

(** The slice of a page with a non-negative offset and size. *)
Lemma window_nth skip take l i :
  0 <= skip -> 0 <= take ->
  nth_error (window skip take l) i =
  (if (i <? Z.to_nat take)%nat
   then nth_error l (Z.to_nat skip + i)
   else None).
Proof.
  intros Hs Ht. unfold window.
  assert ((0 <=? take) = true) as -> by now apply Z.leb_le.
  rewrite nth_error_firstn, nth_error_skipn. reflexivity.
Qed.

Lemma window_length skip take l :
  0 <= skip -> 0 <= take ->
  Z.of_nat (List.length (window skip take l)) =
  Z.max 0 (Z.min take (Z.of_nat (List.length l) - skip)).
Proof.
  intros Hs Ht. unfold window.
  assert ((0 <=? take) = true) as -> by now apply Z.leb_le.
  rewrite length_firstn, length_skipn. lia.
Qed.

Lemma window_empty skip take l :
  0 <= skip -> 1 <= take ->
  window skip take l = [] <-> Z.of_nat (List.length l) <= skip.
Proof.
  intros Hs Ht.
  rewrite <- length_zero_iff_nil.
  pose proof (window_length skip take l Hs ltac:(lia)) as L.
  lia.
Qed.

Lemma window_incl skip take l t :
  In t (window skip take l) -> In t l.
Proof.
  unfold window. destruct (0 <=? take); intros H.
  - apply In_firstn, In_skipn in H. exact H.
  - apply in_rev, In_firstn, In_skipn, in_rev in H. exact H.
Qed.

Lemma find_id_none n l :
  find (fun t => Ticket.id t =? n) l = None <->
  (forall t, In t l -> Ticket.id t <> n).
Proof.
  split.
  - intros H t Ht E.
    apply (find_none _ _ H) in Ht. cbn in Ht.
    apply Z.eqb_neq in Ht. contradiction.
  - intros H. induction l as [| h r IH]; [reflexivity |].
    cbn [find]. destruct (Ticket.id h =? n) eqn:Q.
    + apply Z.eqb_eq in Q. exfalso. apply (H h); [now left | exact Q].
    + apply IH. intros t Ht. apply H. now right.
Qed.

Lemma find_id_some n l t :
  find (fun t => Ticket.id t =? n) l = Some t -> In t l /\ Ticket.id t = n.
Proof.
  intros H. apply find_some in H as [Hin Q].
  split; [exact Hin | now apply Z.eqb_eq].
Qed.

Lemma existsb_id n l :
  existsb (fun t => Ticket.id t =? n) l = true <->
  exists t, In t l /\ Ticket.id t = n.
Proof.
  rewrite existsb_exists. split; intros [t [Hin Q]]; exists t; split;
    try exact Hin; now apply Z.eqb_eq.
Qed.

End PrismaFacts.

(** * Facts about the ticket router *)

Module TicketsFacts.
Import Tickets.

Lemma checkOptional_nil name ok v :
  Validation.checkOptional name ok v = [] ->
  v = None \/ exists s, v = Some s /\ ok s = true.
Proof.
  unfold Validation.checkOptional. destruct v as [s |]; [| now left].
  destruct (ok s) eqn:Q; [| discriminate].
  intros _. right. now exists s.
Qed.

Lemma check_nil name ok : Validation.check name ok = [] -> ok = true.
Proof. unfold Validation.check. destruct ok; [reflexivity | discriminate]. Qed.

Section Runtime.

Variable tz : Z.
Variable Date_parse : string -> option Z.

Abbreviation validQuery := (Spec.validQuery Date_parse).
Abbreviation listWhere := (Tickets.listWhere tz Date_parse).
Abbreviation exportWhere := (Tickets.exportWhere tz Date_parse).
Abbreviation ordered := (Spec.ordered tz Date_parse).
Abbreviation matching := (Spec.matching tz Date_parse).
Abbreviation listRoute := (Tickets.listRoute tz Date_parse).
Abbreviation exportRoute := (Tickets.exportRoute tz Date_parse).

(** The export handler builds the filter the list handler builds. *)
Lemma exportWhere_listWhere q : exportWhere q = listWhere q.
Proof. reflexivity. Qed.

Lemma validQuery_inv q :
  validQuery q ->
  (forall s, GetTicketsQuery.start_date q = Some s ->
             exists d, Date_parse s = Some d) /\
  (forall s, GetTicketsQuery.end_date q = Some s ->
             exists d, Date_parse s = Some d) /\
  (forall s, GetTicketsQuery.page q = Some s ->
             Validation.isPositiveInteger s = true) /\
  (forall s, GetTicketsQuery.limit q = Some s ->
             Validation.isPositiveInteger s = true).
Proof.
  unfold Spec.validQuery, Validation.validateGetTickets. intros H.
  apply app_eq_nil in H as [H1 H].
  apply app_eq_nil in H as [H2 H].
  apply app_eq_nil in H as [H3 H4].
  apply checkOptional_nil in H1, H2, H3, H4.
  repeat split; intros s E.
  - destruct H1 as [H1 | [s' [H1 Q]]]; [congruence |].
    assert (s' = s) by congruence. subst.
    unfold Validation.isDate in Q.
    destruct (Date_parse s) as [d |]; [now exists d | discriminate].
  - destruct H2 as [H2 | [s' [H2 Q]]]; [congruence |].
    assert (s' = s) by congruence. subst.
    unfold Validation.isDate in Q.
    destruct (Date_parse s) as [d |]; [now exists d | discriminate].
  - destruct H3 as [H3 | [s' [H3 Q]]]; congruence.
  - destruct H4 as [H4 | [s' [H4 Q]]]; congruence.
Qed.

Lemma truthy_Some v : JS.truthy v = true -> exists s, v = Some s /\ s <> "".
Proof.
  destruct v as [s |]; cbn; [| discriminate].
  intros H. exists s. split; [reflexivity |].
  intros ->. discriminate.
Qed.

Lemma valid_start q :
  validQuery q -> JS.truthy (GetTicketsQuery.start_date q) = true ->
  exists d, Tickets.Date_new Date_parse (GetTicketsQuery.start_date q) = Some d.
Proof.
  intros V T. destruct (validQuery_inv q V) as (Hs & _).
  apply truthy_Some in T as [s [Es _]]. rewrite Es. cbn. now apply Hs.
Qed.

Lemma valid_end q :
  validQuery q -> JS.truthy (GetTicketsQuery.end_date q) = true ->
  exists d, Tickets.Date_new Date_parse (GetTicketsQuery.end_date q) = Some d.
Proof.
  intros V T. destruct (validQuery_inv q V) as (_ & He & _).
  apply truthy_Some in T as [s [Es _]]. rewrite Es. cbn. now apply He.
Qed.

Lemma valid_where q : validQuery q -> Prisma.validWhere (listWhere q) = true.
Proof.
  intros V.
  unfold Tickets.listWhere, Prisma.validWhere. cbn.
  destruct (JS.truthy (GetTicketsQuery.start_date q)) eqn:Ts;
    destruct (JS.truthy (GetTicketsQuery.end_date q)) eqn:Te; cbn.
  - destruct (valid_start q V Ts) as [a ->].
    destruct (valid_end q V Te) as [b ->]. reflexivity.
  - destruct (valid_start q V Ts) as [a ->]. reflexivity.
  - destruct (valid_end q V Te) as [b ->]. reflexivity.
  - reflexivity.
Qed.

Lemma valid_paging q :
  validQuery q ->
  exists p l, Spec.pageNum q = Some p /\ Spec.limitNum q = Some l /\
              1 <= p /\ 1 <= l.
Proof.
  intros V. destruct (validQuery_inv q V) as (_ & _ & Hp & Hl).
  unfold Spec.pageNum, Spec.limitNum.
  destruct (GetTicketsQuery.page q) as [ps |] eqn:Ep;
    destruct (GetTicketsQuery.limit q) as [ls |] eqn:El.
  - destruct (JSFacts.isPositiveInteger_parseInt ps (Hp ps eq_refl))
      as [p [-> Bp]].
    destruct (JSFacts.isPositiveInteger_parseInt ls (Hl ls eq_refl))
      as [l [-> Bl]].
    now exists p, l.
  - destruct (JSFacts.isPositiveInteger_parseInt ps (Hp ps eq_refl))
      as [p [-> Bp]].
    exists p, 20. repeat split; try reflexivity; lia.
  - destruct (JSFacts.isPositiveInteger_parseInt ls (Hl ls eq_refl))
      as [l [-> Bl]].
    exists 1, l. repeat split; try reflexivity; lia.
  - exists 1, 20. repeat split; try reflexivity; lia.
Qed.

Abbreviation pageRows := (Spec.pageRows tz Date_parse).

(** What the list route answers to a valid request. *)
Lemma listRoute_valid q p l s :
  validQuery q -> Spec.pageNum q = Some p -> Spec.limitNum q = Some l ->
  listRoute q s =
  (match pageRows q p l s with
   | [] => Spec.notFoundResponse
   | _ :: _ =>
       {| status := 200;
          body := TicketPage (Some p) (JS.Math_ceil_div
                                         (Z.of_nat (List.length (matching q s)))
                                         (Some l))
                    (Z.of_nat (List.length (matching q s)))
                    (map render (pageRows q p l s)) |}
   end, s).
Proof.
  intros V Hp Hl.
  destruct (valid_paging q V) as (p' & l' & Hp' & Hl' & Bp & Bl).
  assert (p' = p) by congruence. assert (l' = l) by congruence. subst.
  unfold Tickets.listRoute, Validation.checkValidationErrors.
  unfold Spec.validQuery in V. rewrite V.
  unfold tryNext, getTickets, bind.
  unfold Spec.pageNum in Hp. unfold Spec.limitNum in Hl.
  rewrite Hp, Hl.
  unfold Prisma.count, Prisma.findMany.
  rewrite (valid_where q V). cbn [JS.Number_sub JS.Number_mul].
  assert (((p - 1) * l <? 0) = false) as -> by (apply Z.ltb_ge; nia).
  unfold Spec.pageRows, Spec.ordered, Spec.matching, Prisma.selected.
  destruct (Prisma.window ((p - 1) * l) l
              (Prisma.orderByCreatedAtDesc
                 (filter (Prisma.matches (listWhere q)) (rows s))));
    reflexivity.
Qed.

(** What the export route answers to a valid request. *)
Lemma exportRoute_valid q s :
  validQuery q ->
  exportRoute q s =
  (match ordered q s with
   | [] => Spec.notFoundResponse
   | _ :: _ =>
       {| status := 200;
          body := Attachment "text/csv" "tickets.csv"
                    (Parser_parse fields (map csvRow (ordered q s))) |}
   end, s).
Proof.
  intros V.
  unfold Tickets.exportRoute, Validation.checkValidationErrors.
  pose proof V as V'. unfold Spec.validQuery in V'. rewrite V'.
  unfold tryNext, exportTickets, bind, Prisma.findMany.
  rewrite exportWhere_listWhere, (valid_where q V).
  unfold Spec.ordered, Spec.matching, Prisma.selected.
  destruct (Prisma.orderByCreatedAtDesc
              (filter (Prisma.matches (listWhere q)) (rows s)));
    reflexivity.
Qed.

Lemma pageRows_empty q p l s :
  1 <= p -> 1 <= l ->
  pageRows q p l s = [] <->
  Z.of_nat (List.length (matching q s)) <= (p - 1) * l.
Proof.
  intros Bp Bl. unfold Spec.pageRows.
  rewrite PrismaFacts.window_empty by nia.
  unfold Spec.ordered. rewrite PrismaFacts.orderBy_length. reflexivity.
Qed.

End Runtime.

End TicketsFacts.

(** * The properties of the ticket API *)

Module Claims.
Import TicketsFacts.

(** C1, as amended.  For a request that passes validation, the list route
    answers 404 exactly when the requested page of the matching records is
    empty, that is when the number of matching records is at most
    [(page - 1) * limit]; the export route answers 404 exactly when no
    record matches.  With no matching record both answer 404, and neither
    ever returns an empty page or a CSV without data rows. *)
Theorem not_found_iff_nothing_to_return
  (tz : Z) (Date_parse : string -> option Z)
  (q : GetTicketsQuery.t) (s : Store) :
  Spec.validQuery Date_parse q ->
  let total := Z.of_nat (List.length (Spec.matching tz Date_parse q s)) in
  let listed := fst (Tickets.listRoute tz Date_parse q s) in
  let exported := fst (Tickets.exportRoute tz Date_parse q s) in
  exists p l,
    Spec.pageNum q = Some p /\ Spec.limitNum q = Some l /\
    (status listed = 404 <-> total <= (p - 1) * l) /\
    (status exported = 404 <-> total = 0) /\
    (total = 0 -> listed = Spec.notFoundResponse /\
                  exported = Spec.notFoundResponse) /\
    (forall pg tp tt tickets,
        body listed = TicketPage pg tp tt tickets -> tickets <> []) /\
    (forall ct name csv,
        body exported = Attachment ct name csv -> records csv <> []).
Proof.
  intros V total listed exported.
  destruct (valid_paging Date_parse q V) as (p & l & Hp & Hl & Bp & Bl).
  exists p, l. split; [exact Hp |]. split; [exact Hl |].
  pose proof (listRoute_valid tz Date_parse q p l s V Hp Hl) as L.
  pose proof (exportRoute_valid tz Date_parse q s V) as E.
  pose proof (pageRows_empty tz Date_parse q p l s Bp Bl) as W.
  assert (Spec.ordered tz Date_parse q s = [] <-> total = 0) as O.
  { unfold Spec.ordered. rewrite PrismaFacts.orderBy_nil.
    rewrite <- length_zero_iff_nil. subst total. lia. }
  subst listed exported. rewrite L, E. cbn [fst].
  fold total in W.
  split_all.
  - rewrite <- W.
    destruct (Spec.pageRows tz Date_parse q p l s); cbn;
      split; intros H; try reflexivity; discriminate H.
  - rewrite <- O.
    destruct (Spec.ordered tz Date_parse q s); cbn;
      split; intros H; try reflexivity; discriminate H.
  - intros T.
    assert (Spec.ordered tz Date_parse q s = []) as -> by now apply O.
    assert (Spec.pageRows tz Date_parse q p l s = []) as ->
      by (apply W; nia).
    split; reflexivity.
  - intros pg tp tt tickets.
    destruct (Spec.pageRows tz Date_parse q p l s); cbn; intros H;
      [discriminate H | inversion H; discriminate].
  - intros ct name csv.
    destruct (Spec.ordered tz Date_parse q s); cbn; intros H;
      [discriminate H | inversion H; discriminate].
Qed.

(** C1 at a concrete request: page 2 of a store with one ticket. *)
Lemma not_found_iff_nothing_to_return_witness :
  let q := Fixtures.query None None None (Some "2") None in
  let total :=
    Z.of_nat (List.length
                (Spec.matching 0 JS.isoDateParse q Fixtures.oneTicket)) in
  let listed :=
    fst (Tickets.listRoute 0 JS.isoDateParse q Fixtures.oneTicket) in
  let exported :=
    fst (Tickets.exportRoute 0 JS.isoDateParse q Fixtures.oneTicket) in
  exists p l,
    Spec.pageNum q = Some p /\ Spec.limitNum q = Some l /\
    (status listed = 404 <-> total <= (p - 1) * l) /\
    (status exported = 404 <-> total = 0) /\
    (total = 0 -> listed = Spec.notFoundResponse /\
                  exported = Spec.notFoundResponse) /\
    (forall pg tp tt tickets,
        body listed = TicketPage pg tp tt tickets -> tickets <> []) /\
    (forall ct name csv,
        body exported = Attachment ct name csv -> records csv <> []).
Proof.
  apply (not_found_iff_nothing_to_return 0 JS.isoDateParse
           (Fixtures.query None None None (Some "2") None)
           Fixtures.oneTicket).
  reflexivity.
Defined.

(** C1 as stated fails: page 2 of a store with one ticket is answered 404
    although the (empty) filter matches a record. *)
Lemma list_not_found_although_a_record_matches :
  let q := Fixtures.query None None None (Some "2") None in
  ~ (status (fst (Tickets.listRoute 0 JS.isoDateParse q Fixtures.oneTicket))
     = 404
     <-> Spec.matching 0 JS.isoDateParse q Fixtures.oneTicket = []).
Proof.
  intros q [H _]. specialize (H eq_refl). discriminate H.
Qed.

(** C9.  A list request that passes validation and whose page holds no
    record is answered 404, the store untouched, also when [totalTickets]
    is positive: with a non-empty result, every page above
    [ceil(totalTickets / limit)], the last page that is not empty, is
    answered 404 and not with an empty page and the totals. *)
Theorem page_past_the_end_is_not_found
  (tz : Z) (Date_parse : string -> option Z)
  (q : GetTicketsQuery.t) (s : Store) (p l : Z) :
  Spec.validQuery Date_parse q ->
  Spec.pageNum q = Some p -> Spec.limitNum q = Some l ->
  let totalTickets :=
    Z.of_nat (List.length (Spec.matching tz Date_parse q s)) in
  (Spec.pageRows tz Date_parse q p l s = [] ->
   Tickets.listRoute tz Date_parse q s = (Spec.notFoundResponse, s)) /\
  (0 < totalTickets ->
   Spec.pageRows tz Date_parse q (JS.ceilDiv totalTickets l) l s <> [] /\
   (JS.ceilDiv totalTickets l < p ->
    Spec.pageRows tz Date_parse q p l s = [] /\
    Tickets.listRoute tz Date_parse q s = (Spec.notFoundResponse, s))).
Proof.
  intros V Hp Hl total.
  destruct (valid_paging Date_parse q V) as (p' & l' & Hp' & Hl' & Bp & Bl).
  assert (p' = p) by congruence. assert (l' = l) by congruence. subst p' l'.
  pose proof (listRoute_valid tz Date_parse q p l s V Hp Hl) as L.
  assert (Spec.pageRows tz Date_parse q p l s = [] ->
          Tickets.listRoute tz Date_parse q s = (Spec.notFoundResponse, s))
    as E by (intros W; now rewrite L, W).
  split; [exact E |].
  intros Pos.
  pose proof (JSFacts.ceilDiv_spec total l ltac:(lia)) as C.
  split.
  - assert (1 <= JS.ceilDiv total l) as Bc by nia.
    intros W.
    apply (pageRows_empty tz Date_parse q _ l s Bc Bl) in W.
    fold total in W. lia.
  - intros Past.
    assert (Spec.pageRows tz Date_parse q p l s = []) as W.
    { apply pageRows_empty; try assumption. fold total. nia. }
    split; [exact W | now apply E].
Qed.

(** C9 at a concrete request: page 2 of a store with one ticket. *)
Lemma page_past_the_end_is_not_found_witness :
  let q := Fixtures.query None None None (Some "2") None in
  Spec.pageRows 0 JS.isoDateParse q 2 20 Fixtures.oneTicket = [] /\
  Tickets.listRoute 0 JS.isoDateParse q Fixtures.oneTicket
  = (Spec.notFoundResponse, Fixtures.oneTicket).
Proof.
  apply (page_past_the_end_is_not_found 0 JS.isoDateParse
           (Fixtures.query None None None (Some "2") None)
           Fixtures.oneTicket 2 20);
    reflexivity.
Defined.

Lemma matches_iff (w : Prisma.Where) (t : Ticket.t) :
  Prisma.matches w t = true <->
  (forall r, Prisma.reason w = Some r -> Ticket.reason t = r) /\
  (forall d, Prisma.tripDate w = Some d ->
     exists lo hi, Prisma.gte d = Some lo /\ Prisma.lte d = Some hi /\
                   Spec.inRange lo hi (Ticket.tripDate t)).
Proof.
  unfold Prisma.matches, Spec.inRange. rewrite andb_true_iff. split.
  - intros [R D]. split.
    + intros r E. rewrite E in R. now apply String.eqb_eq.
    + intros d E. rewrite E in D.
      destruct (Prisma.gte d) as [lo |]; [| discriminate].
      destruct (Prisma.lte d) as [hi |]; [| discriminate].
      exists lo, hi. apply andb_prop in D as [D1 D2].
      apply Z.leb_le in D1, D2. auto.
  - intros [R D]. split.
    + destruct (Prisma.reason w) as [r |]; [| reflexivity].
      apply String.eqb_eq. now apply R.
    + destruct (Prisma.tripDate w) as [d |]; [| reflexivity].
      destruct (D d eq_refl) as (lo & hi & -> & -> & H1 & H2).
      apply andb_true_intro. split; now apply Z.leb_le.
Qed.

Lemma listWhere_reason tz Date_parse q t :
  (forall r, Prisma.reason (Tickets.listWhere tz Date_parse q) = Some r ->
             Ticket.reason t = r)
  <-> Spec.reasonOk q t.
Proof.
  unfold Spec.reasonOk. cbn.
  destruct (GetTicketsQuery.reason q) as [r |] eqn:E; cbn.
  - destruct (String.eqb_spec r ""); cbn.
    + split; [| discriminate]. intros _ r' Er' N. congruence.
    + split.
      * intros H r' Er' _. apply H. exact Er'.
      * intros H r' Er'. apply H; [exact Er' | congruence].
  - split; discriminate.
Qed.

(** C2, as amended.  For a list or export request that passes validation
    (both build the same filter), a record matches iff its reason is the
    requested one, if any, and its [tripDate] lies inclusively in: with both
    dates supplied, from [start_date] to [end_date], each as supplied; with
    only [start_date], from [start_date] as supplied to the last
    millisecond (23:59:59.999) of its local day; with only [end_date], from
    the first millisecond (00:00:00.000) of its local day to [end_date] as
    supplied; with neither, any [tripDate]. *)
Theorem tripDate_filter_range
  (tz : Z) (Date_parse : string -> option Z)
  (q : GetTicketsQuery.t) (t : Ticket.t) :
  Spec.validQuery Date_parse q ->
  let start_date := GetTicketsQuery.start_date q in
  let end_date := GetTicketsQuery.end_date q in
  let selected :=
    Prisma.matches (Tickets.listWhere tz Date_parse q) t = true in
  Tickets.exportWhere tz Date_parse q = Tickets.listWhere tz Date_parse q /\
  (Spec.supplied start_date -> Spec.supplied end_date ->
   exists a b,
     Tickets.Date_new Date_parse start_date = Some a /\
     Tickets.Date_new Date_parse end_date = Some b /\
     (selected <->
      Spec.reasonOk q t /\ Spec.inRange a b (Ticket.tripDate t))) /\
  (Spec.supplied start_date -> ~ Spec.supplied end_date ->
   exists a,
     Tickets.Date_new Date_parse start_date = Some a /\
     (selected <->
      Spec.reasonOk q t /\
      Spec.inRange a (Spec.endOfDay tz a) (Ticket.tripDate t))) /\
  (~ Spec.supplied start_date -> Spec.supplied end_date ->
   exists b,
     Tickets.Date_new Date_parse end_date = Some b /\
     (selected <->
      Spec.reasonOk q t /\
      Spec.inRange (Spec.startOfDay tz b) b (Ticket.tripDate t))) /\
  (~ Spec.supplied start_date -> ~ Spec.supplied end_date ->
   (selected <-> Spec.reasonOk q t)).
Proof.
  intros V start_date end_date selected. subst selected.
  split; [reflexivity |].
  unfold Spec.supplied. subst start_date end_date.
  split_all.
  - intros Ts Te.
    destruct (valid_start Date_parse q V Ts) as [a Ha].
    destruct (valid_end Date_parse q V Te) as [b Hb].
    exists a, b. split; [exact Ha |]. split; [exact Hb |].
    rewrite matches_iff, listWhere_reason.
    unfold Tickets.listWhere; cbn. rewrite Ts, Te; cbn.
    split; intros [R D]; (split; [exact R |]).
    + destruct (D _ eq_refl) as (lo & hi & El & Eh & I). cbn in El, Eh.
      congruence.
    + intros d Ed. inversion Ed; subst d. exists a, b. cbn. auto.
  - intros Ts Te. apply not_true_is_false in Te.
    destruct (valid_start Date_parse q V Ts) as [a Ha].
    exists a. split; [exact Ha |].
    rewrite matches_iff, listWhere_reason.
    unfold Tickets.listWhere; cbn. rewrite Ts, Te; cbn.
    unfold Tickets.Date_setHours. rewrite Ha; cbn.
    rewrite JSFacts.setHours_endOfDay.
    split; intros [R D]; (split; [exact R |]).
    + destruct (D _ eq_refl) as (lo & hi & El & Eh & I). cbn in El, Eh.
      congruence.
    + intros d Ed. inversion Ed; subst d.
      exists a, (Spec.endOfDay tz a). cbn. auto.
  - intros Ts Te. apply not_true_is_false in Ts.
    destruct (valid_end Date_parse q V Te) as [b Hb].
    exists b. split; [exact Hb |].
    rewrite matches_iff, listWhere_reason.
    unfold Tickets.listWhere; cbn. rewrite Ts, Te; cbn.
    unfold Tickets.Date_setHours. rewrite Hb; cbn.
    rewrite JSFacts.setHours_startOfDay.
    split; intros [R D]; (split; [exact R |]).
    + destruct (D _ eq_refl) as (lo & hi & El & Eh & I). cbn in El, Eh.
      congruence.
    + intros d Ed. inversion Ed; subst d.
      exists (Spec.startOfDay tz b), b. cbn. auto.
  - intros Ts Te. apply not_true_is_false in Ts, Te.
    rewrite matches_iff, listWhere_reason.
    unfold Tickets.listWhere; cbn. rewrite Ts, Te; cbn.
    split; [tauto |]. intros R. split; [exact R | discriminate].
Qed.

(** C2 at a concrete request: only [start_date=2024-01-01], in UTC; the
    range runs from midnight to 23:59:59.999 of that day. *)
Lemma tripDate_filter_range_witness :
  let q := Fixtures.query None (Some "2024-01-01") None None None in
  let t := Fixtures.ticket 1 Fixtures.jan1_noon 0 "Late arrival" in
  Spec.validQuery JS.isoDateParse q /\
  (Prisma.matches (Tickets.listWhere 0 JS.isoDateParse q) t = true <->
   Spec.reasonOk q t /\
   Spec.inRange 1704067200000 1704153599999 (Ticket.tripDate t)).
Proof.
  intros q t. split; [reflexivity |].
  destruct (tripDate_filter_range 0 JS.isoDateParse q t eq_refl)
    as (_ & _ & H & _).
  destruct (H eq_refl ltac:(discriminate)) as (a & Ha & Hiff).
  vm_compute in Ha. inversion Ha; subst a. exact Hiff.
Defined.

(** C2 as stated fails: with only [end_date=2024-01-01] supplied (UTC), a
    trip at noon of that day lies between 00:00:00 and 23:59:59 of
    [end_date] and is not selected; the upper bound is [end_date] as
    supplied, which is midnight. *)
Lemma end_date_alone_is_not_the_whole_day :
  let q := Fixtures.query None None (Some "2024-01-01") None None in
  let t := Fixtures.ticket 1 Fixtures.jan1_noon 0 "Late arrival" in
  JS.isoDateParse "2024-01-01" = Some Fixtures.jan1 /\
  ~ (Prisma.matches (Tickets.listWhere 0 JS.isoDateParse q) t = true <->
     Spec.inRange (Spec.startOfDay 0 Fixtures.jan1)
                  (Spec.lastSecondOfDay 0 Fixtures.jan1)
                  (Ticket.tripDate t)).
Proof.
  intros q t. split; [reflexivity |].
  intros [_ H].
  assert (Spec.inRange (Spec.startOfDay 0 Fixtures.jan1)
            (Spec.lastSecondOfDay 0 Fixtures.jan1) (Ticket.tripDate t)) as I.
  { split; vm_compute; discriminate. }
  specialize (H I). vm_compute in H. discriminate H.
Qed.

Lemma sameFilter_where tz Date_parse q q' :
  Spec.sameFilter q q' ->
  Tickets.listWhere tz Date_parse q' = Tickets.listWhere tz Date_parse q.
Proof.
  intros (R & S & E). unfold Tickets.listWhere. now rewrite R, S, E.
Qed.

Lemma sameFilter_matching tz Date_parse q q' s :
  Spec.sameFilter q q' ->
  Spec.matching tz Date_parse q' s = Spec.matching tz Date_parse q s.
Proof.
  intros F. unfold Spec.matching. now rewrite (sameFilter_where _ _ q q' F).
Qed.

(** A valid list request is answered with a page exactly when the number
    of matching records exceeds its offset, and the page then carries the
    total. *)
Lemma listRoute_page tz Date_parse q s pg tp tt tickets :
  Spec.validQuery Date_parse q ->
  body (fst (Tickets.listRoute tz Date_parse q s))
  = TicketPage pg tp tt tickets ->
  exists p l,
    Spec.pageNum q = Some p /\ Spec.limitNum q = Some l /\
    1 <= p /\ 1 <= l /\
    pg = Some p /\
    tp = Some (JS.ceilDiv tt l) /\
    tt = Z.of_nat (List.length (Spec.matching tz Date_parse q s)) /\
    tickets = map Tickets.render (Spec.pageRows tz Date_parse q p l s).
Proof.
  intros V H.
  destruct (valid_paging Date_parse q V) as (p & l & Hp & Hl & Bp & Bl).
  exists p, l.
  rewrite (listRoute_valid tz Date_parse q p l s V Hp Hl) in H. cbn [fst] in H.
  destruct (Spec.pageRows tz Date_parse q p l s) as [| r rs] eqn:Pg;
    [discriminate H |].
  cbn in H. inversion H; subst.
  assert ((l =? 0) = false) as -> by (apply Z.eqb_neq; lia).
  repeat split; auto.
Qed.

(** C3.  For an export request that passes validation and whose filter
    matches at least one record, the answer is a CSV attachment whose
    header is exactly the ten columns in order and whose number of data
    rows is the [totalTickets] every list request with the same filter
    reports; the list request with that filter and default paging does
    report it. *)
Theorem export_rows_equal_list_total
  (tz : Z) (Date_parse : string -> option Z)
  (q : GetTicketsQuery.t) (s : Store) :
  Spec.validQuery Date_parse q ->
  Spec.matching tz Date_parse q s <> [] ->
  exists csv,
    Tickets.exportRoute tz Date_parse q s
    = ({| status := 200;
          body := Attachment "text/csv" "tickets.csv" csv |}, s) /\
    header csv = [ "id"; "tripId"; "tripDate"; "driverId"; "reason"; "city";
                   "serviceType"; "customerPhone"; "agentName"; "createdAt" ]
    /\
    (forall q' pg tp tt tickets,
        Spec.sameFilter q q' -> Spec.validQuery Date_parse q' ->
        body (fst (Tickets.listRoute tz Date_parse q' s))
        = TicketPage pg tp tt tickets ->
        Z.of_nat (List.length (records csv)) = tt) /\
    (exists tp tickets,
        Tickets.listRoute tz Date_parse
          {| GetTicketsQuery.reason := GetTicketsQuery.reason q;
             GetTicketsQuery.start_date := GetTicketsQuery.start_date q;
             GetTicketsQuery.end_date := GetTicketsQuery.end_date q;
             GetTicketsQuery.page := None;
             GetTicketsQuery.limit := None |} s
        = ({| status := 200;
              body := TicketPage (Some 1) tp
                        (Z.of_nat (List.length (records csv))) tickets |}, s)).
Proof.
  intros V N.
  assert (List.length (Spec.ordered tz Date_parse q s)
          = List.length (Spec.matching tz Date_parse q s)) as Len
    by apply PrismaFacts.orderBy_length.
  exists (Parser_parse Tickets.fields
            (map Tickets.csvRow (Spec.ordered tz Date_parse q s))).
  assert (List.length
            (records (Parser_parse Tickets.fields
                        (map Tickets.csvRow (Spec.ordered tz Date_parse q s))))
          = List.length (Spec.matching tz Date_parse q s)) as Rows.
  { cbn [records Parser_parse]. now rewrite !length_map. }
  split_all.
  - rewrite (exportRoute_valid tz Date_parse q s V).
    destruct (Spec.ordered tz Date_parse q s) as [| o os] eqn:Od;
      [| reflexivity].
    unfold Spec.ordered in Od.
    apply (proj1 (PrismaFacts.orderBy_nil _)) in Od. elim (N Od).
  - reflexivity.
  - intros q' pg tp tt tickets F V' H.
    destruct (listRoute_page tz Date_parse q' s pg tp tt tickets V' H)
      as (p & l & _ & _ & _ & _ & _ & _ & T & _).
    rewrite Rows, T, (sameFilter_matching tz Date_parse q q' s F).
    reflexivity.
  - set (q0 := {| GetTicketsQuery.reason := GetTicketsQuery.reason q;
                  GetTicketsQuery.start_date := GetTicketsQuery.start_date q;
                  GetTicketsQuery.end_date := GetTicketsQuery.end_date q;
                  GetTicketsQuery.page := None;
                  GetTicketsQuery.limit := None |}).
    assert (Spec.sameFilter q q0) as F by (repeat split).
    assert (Spec.validQuery Date_parse q0) as V0.
    { unfold Spec.validQuery, Validation.validateGetTickets in *.
      apply app_eq_nil in V as [V1 V].
      apply app_eq_nil in V as [V2 _].
      cbn. now rewrite V1, V2. }
    rewrite (listRoute_valid tz Date_parse q0 1 20 s V0 eq_refl eq_refl).
    rewrite Rows, (sameFilter_matching tz Date_parse q q0 s F).
    destruct (Spec.pageRows tz Date_parse q0 1 20 s) as [| r rs] eqn:Pg.
    + apply pageRows_empty in Pg; try lia.
      rewrite (sameFilter_matching tz Date_parse q q0 s F) in Pg.
      destruct (Spec.matching tz Date_parse q s); [contradiction |].
      cbn [List.length] in Pg. lia.
    + eexists _, _. reflexivity.
Qed.

(** C3 at a concrete request: the export of a store with one ticket. *)
Lemma export_rows_equal_list_total_witness :
  exists csv,
    Tickets.exportRoute 0 JS.isoDateParse Fixtures.noParams Fixtures.oneTicket
    = ({| status := 200;
          body := Attachment "text/csv" "tickets.csv" csv |},
       Fixtures.oneTicket) /\
    header csv = Tickets.fields /\
    List.length (records csv) = 1%nat.
Proof.
  destruct (export_rows_equal_list_total 0 JS.isoDateParse Fixtures.noParams
              Fixtures.oneTicket eq_refl ltac:(discriminate))
    as (csv & E & H & _ & _).
  exists csv. split; [exact E |]. split; [exact H |].
  vm_compute in E. inversion E. reflexivity.
Defined.

(** C4.  For a list request that passes validation, [page] defaults to 1
    and [limit] to 20; the matching records are ordered by [createdAt],
    newest first; a page that is returned holds, in order, the records at
    offsets [(page-1)*limit] to [(page-1)*limit + limit - 1] of that
    ordering (as many of them as exist), reports the number of matching
    records as [totalTickets], and as [totalPages] the least [k] with
    [totalTickets <= k * limit]; it is returned whenever the first of
    these offsets exists.  In particular [page=2&limit=10] over 15 matching
    records returns the records 11 to 15 and [totalPages = 2]. *)
Theorem list_pagination
  (tz : Z) (Date_parse : string -> option Z)
  (q : GetTicketsQuery.t) (s : Store) :
  Spec.validQuery Date_parse q ->
  let all := Spec.ordered tz Date_parse q s in
  let total := Z.of_nat (List.length (Spec.matching tz Date_parse q s)) in
  let answer := Tickets.listRoute tz Date_parse q s in
  exists p l,
    Spec.pageNum q = Some p /\ Spec.limitNum q = Some l /\
    1 <= p /\ 1 <= l /\
    (GetTicketsQuery.page q = None -> p = 1) /\
    (GetTicketsQuery.limit q = None -> l = 20) /\
    Permutation (Spec.matching tz Date_parse q s) all /\
    Spec.newestFirst all /\
    ((p - 1) * l < total ->
     exists tp tickets,
       answer = ({| status := 200;
                    body := TicketPage (Some p) tp total tickets |}, s)) /\
    (forall pg tp tt tickets,
        body (fst answer) = TicketPage pg tp tt tickets ->
        pg = Some p /\ tt = total /\
        (exists k, tp = Some k /\ (k - 1) * l < total <= k * l) /\
        Z.of_nat (List.length tickets) = Z.min l (total - (p - 1) * l) /\
        (forall i, (i < Z.to_nat l)%nat ->
           nth_error tickets i =
           option_map Tickets.render
             (nth_error all (Z.to_nat ((p - 1) * l) + i)))) /\
    (GetTicketsQuery.page q = Some "2" ->
     GetTicketsQuery.limit q = Some "10" ->
     total = 15 ->
     answer = ({| status := 200;
                  body := TicketPage (Some 2) (Some 2) 15
                            (map Tickets.render (skipn 10 all)) |}, s)).
Proof.
  intros V all total answer.
  destruct (valid_paging Date_parse q V) as (p & l & Hp & Hl & Bp & Bl).
  exists p, l.
  pose proof (listRoute_valid tz Date_parse q p l s V Hp Hl) as L.
  fold answer in L. fold total in L.
  assert (Z.of_nat (List.length all) = total) as Len.
  { subst all total. unfold Spec.ordered.
    now rewrite PrismaFacts.orderBy_length. }
  split_all; auto.
  - intros E. unfold Spec.pageNum in Hp. rewrite E in Hp.
    cbn in Hp. congruence.
  - intros E. unfold Spec.limitNum in Hl. rewrite E in Hl.
    cbn in Hl. congruence.
  - apply PrismaFacts.orderBy_perm.
  - apply PrismaFacts.orderBy_sorted.
  - intros Lt. rewrite L.
    destruct (Spec.pageRows tz Date_parse q p l s) as [| r rs] eqn:Pg.
    + apply pageRows_empty in Pg; try assumption. fold total in Pg. lia.
    + eexists _, _. reflexivity.
  - intros pg tp tt tickets H.
    destruct (listRoute_page tz Date_parse q s pg tp tt tickets V H)
      as (p' & l' & Hp' & Hl' & _ & _ & Epg & Etp & Ett & Ets).
    assert (p' = p) by congruence. assert (l' = l) by congruence.
    subst p' l'. fold total in Ett.
    assert ((p - 1) * l < total) as Lt.
    { destruct (Z.lt_ge_cases ((p - 1) * l) total) as [? | Ge]; [assumption |].
      apply (pageRows_empty tz Date_parse q p l s Bp Bl) in Ge.
      rewrite L, Ge in H. discriminate H. }
    split_all; auto.
    + exists (JS.ceilDiv tt l). split; [exact Etp |].
      rewrite <- Ett. apply JSFacts.ceilDiv_spec. lia.
    + rewrite Ets, length_map. unfold Spec.pageRows.
      rewrite PrismaFacts.window_length by nia.
      fold all. rewrite Len. lia.
    + intros i Hi. rewrite Ets, nth_error_map. f_equal.
      unfold Spec.pageRows. rewrite PrismaFacts.window_nth by nia.
      apply Nat.ltb_lt in Hi. rewrite Hi. reflexivity.
  - intros Ep El T.
    unfold Spec.pageNum in Hp. rewrite Ep in Hp.
    unfold Spec.limitNum in Hl. rewrite El in Hl.
    assert (p = 2) by (cbn in Hp; congruence).
    assert (l = 10) by (cbn in Hl; congruence). subst p l.
    rewrite L, T.
    assert (Spec.pageRows tz Date_parse q 2 10 s = skipn 10 all) as ->.
    { unfold Spec.pageRows, Prisma.window. fold all.
      change ((2 - 1) * 10) with 10. change (0 <=? 10) with true.
      change (Z.to_nat 10) with 10%nat. cbv iota.
      apply firstn_all2. rewrite length_skipn. lia. }
    destruct (skipn 10 all) as [| r rs] eqn:Sk; [| reflexivity].
    assert (List.length (skipn 10 all) = 0%nat) as Z by now rewrite Sk.
    rewrite length_skipn in Z. lia.
Qed.

(** C4 at a concrete request: page 2 with limit 10 of fifteen tickets
    created one second apart shows the five oldest, newest first. *)
Lemma list_pagination_witness :
  let q := Fixtures.query None None None (Some "2") (Some "10") in
  Spec.validQuery JS.isoDateParse q /\
  map Ticket.id (Spec.ordered 0 JS.isoDateParse q Fixtures.fifteenTickets)
  = [15; 14; 13; 12; 11; 10; 9; 8; 7; 6; 5; 4; 3; 2; 1] /\
  Spec.shownIds
    (fst (Tickets.listRoute 0 JS.isoDateParse q Fixtures.fifteenTickets))
  = [5; 4; 3; 2; 1] /\
  exists tickets,
    Tickets.listRoute 0 JS.isoDateParse q Fixtures.fifteenTickets
    = ({| status := 200;
          body := TicketPage (Some 2) (Some 2) 15 tickets |},
       Fixtures.fifteenTickets).
Proof.
  intros q. split; [reflexivity |]. split; [reflexivity |].
  destruct (list_pagination 0 JS.isoDateParse q Fixtures.fifteenTickets
              eq_refl)
    as (p & l & _ & _ & _ & _ & _ & _ & _ & _ & _ & _ & H).
  specialize (H eq_refl eq_refl eq_refl).
  split.
  - rewrite H. reflexivity.
  - eexists. exact H.
Defined.

(** ** Delete *)

Lemma find_existsb n l :
  existsb (fun t => Ticket.id t =? n) l = true <->
  exists t, find (fun t => Ticket.id t =? n) l = Some t.
Proof.
  induction l as [| h r IH]; cbn.
  - split; [discriminate | intros [t H]; discriminate H].
  - destruct (Ticket.id h =? n); cbn.
    + split; [intros _; now exists h | reflexivity].
    + exact IH.
Qed.

(** What the delete route does, by the identifier [parseInt] reads. *)
Lemma deleteRoute_spec id s :
  Tickets.deleteRoute id s =
  match JS.parseInt id with
  | None => (Spec.invalidId, s)
  | Some n =>
      if existsb (fun t => Ticket.id t =? n) (rows s)
      then (Spec.deleted, Spec.without n s)
      else (Spec.ticketNotFound, s)
  end.
Proof.
  unfold Tickets.deleteRoute, tryNext, Tickets.deleteTicket.
  destruct (JS.parseInt id) as [n |]; [| reflexivity].
  unfold bind, Prisma.findUnique, Prisma.delete.
  destruct (existsb (fun t => Ticket.id t =? n) (rows s)) eqn:Ex.
  - destruct (proj1 (find_existsb n (rows s)) Ex) as [t ->].
    rewrite Ex. reflexivity.
  - destruct (find (fun t => Ticket.id t =? n) (rows s)) as [t |] eqn:F;
      [| reflexivity].
    assert (existsb (fun t => Ticket.id t =? n) (rows s) = true)
      by (apply find_existsb; now exists t).
    congruence.
Qed.

Lemma existsb_absent n s :
  existsb (fun t => Ticket.id t =? n) (rows s) = false <-> Spec.absent n s.
Proof.
  unfold Spec.absent. split.
  - intros H t Ht E.
    assert (existsb (fun t => Ticket.id t =? n) (rows s) = true).
    { apply PrismaFacts.existsb_id. now exists t. }
    congruence.
  - intros H. apply not_true_is_false. intros Ex.
    apply PrismaFacts.existsb_id in Ex as [t [Ht E]]. now apply (H t).
Qed.

(** C5.  A delete request whose identifier [parseInt] cannot read as an
    integer is answered 400; one whose identifier reads as an integer that
    no record carries is answered 404; the store is unchanged in both
    cases. *)
Theorem delete_rejects_bad_and_unknown_ids (id : string) (s : Store) :
  (JS.isNaN (JS.parseInt id) = true ->
   Tickets.deleteRoute id s = (Spec.invalidId, s)) /\
  (forall n, JS.parseInt id = Some n -> Spec.absent n s ->
             Tickets.deleteRoute id s = (Spec.ticketNotFound, s)).
Proof.
  rewrite deleteRoute_spec. split.
  - destruct (JS.parseInt id); [discriminate | reflexivity].
  - intros n -> A. apply existsb_absent in A. now rewrite A.
Qed.

(** C5 at concrete requests: [abc] is not a number, and no ticket 99
    exists. *)
Lemma delete_rejects_bad_and_unknown_ids_witness :
  Tickets.deleteRoute "abc" Fixtures.oneTicket
  = (Spec.invalidId, Fixtures.oneTicket) /\
  Tickets.deleteRoute "99" Fixtures.oneTicket
  = (Spec.ticketNotFound, Fixtures.oneTicket).
Proof.
  split.
  - apply (proj1 (delete_rejects_bad_and_unknown_ids "abc"
                    Fixtures.oneTicket)).
    reflexivity.
  - apply (proj2 (delete_rejects_bad_and_unknown_ids "99"
                    Fixtures.oneTicket) 99 eq_refl).
    intros t [<- | []]. discriminate.
Defined.

(** C10, as amended.  A delete request whose identifier starts with
    decimal digits and does not start with [0x] or [0X] is treated as the
    number those leading digits spell, whatever follows them: the record
    with that identifier is removed and 200 answered if it exists, and 404
    answered otherwise; the 400 answer is given only to identifiers that
    do not start with a decimal digit or that start with [0x] or [0X]. *)
Theorem delete_reads_leading_integer (id : string) (s : Store) :
  (forall n,
      Spec.leadingInteger id = Some n -> JS.hexPrefix id = None ->
      JS.parseInt id = Some n /\ Spec.deletes id n s /\
      Spec.absent n (Spec.without n s)) /\
  (status (fst (Tickets.deleteRoute id s)) = 400 ->
   Spec.leadingInteger id = None \/ JS.hexPrefix id <> None).
Proof.
  split.
  - intros n L Hx.
    pose proof (JSFacts.parseInt_leadingInteger id n L Hx) as P.
    split; [exact P |]. split.
    + unfold Spec.deletes. rewrite deleteRoute_spec, P. split.
      * intros Ex. apply PrismaFacts.existsb_id in Ex. now rewrite Ex.
      * intros A. apply existsb_absent in A. now rewrite A.
    + intros t Ht E. cbn in Ht. apply filter_In in Ht as [_ Ht].
      apply negb_true_iff, Z.eqb_neq in Ht. contradiction.
  - intros H.
    destruct (Spec.leadingInteger id) as [n |] eqn:L; [| now left].
    right. intros Hx.
    rewrite deleteRoute_spec in H.
    rewrite (JSFacts.parseInt_leadingInteger id n L Hx) in H.
    destruct (existsb (fun t => Ticket.id t =? n) (rows s));
      discriminate H.
Qed.

(** C10 at concrete requests: [12abc] removes ticket 12, and [7.9] is
    a request for ticket 7, which does not exist. *)
Lemma delete_reads_leading_integer_witness :
  let s := {| rows := [Fixtures.ticket 12 Fixtures.jan1 0 "Late arrival"];
              nextId := 13 |} in
  Tickets.deleteRoute "12abc" s
  = (Spec.deleted, {| rows := []; nextId := 13 |}) /\
  Tickets.deleteRoute "7.9" s = (Spec.ticketNotFound, s).
Proof.
  cbv zeta. split.
  - destruct (proj1 (delete_reads_leading_integer "12abc"
                       {| rows := [Fixtures.ticket 12 Fixtures.jan1 0
                                     "Late arrival"];
                          nextId := 13 |}) 12 eq_refl eq_refl)
      as (_ & [D _] & _).
    apply D. eexists. split; [left; reflexivity | reflexivity].
  - destruct (proj1 (delete_reads_leading_integer "7.9"
                       {| rows := [Fixtures.ticket 12 Fixtures.jan1 0
                                     "Late arrival"];
                          nextId := 13 |}) 7 eq_refl eq_refl)
      as (_ & [_ A] & _).
    apply A. intros t [<- | []]. discriminate.
Defined.

(** C10 as stated fails: [0x10] starts with the decimal digit [0] followed
    by a character that is not a digit, but it is read as 16, not as its
    leading integer 0: in a store that holds ticket 16 and no ticket 0 the
    request removes ticket 16 instead of answering 404.  [0xg] starts the
    same way and is answered 400. *)
Lemma hex_identifier_is_not_its_leading_integer :
  let s := {| rows := [Fixtures.ticket 16 Fixtures.jan1 0 "Late arrival"];
              nextId := 17 |} in
  Spec.leadingInteger "0x10" = Some 0 /\
  ~ Spec.deletes "0x10" 0 s /\
  Tickets.deleteRoute "0x10" s
  = (Spec.deleted, {| rows := []; nextId := 17 |}) /\
  Spec.leadingInteger "0xg" = Some 0 /\
  Tickets.deleteRoute "0xg" s = (Spec.invalidId, s).
Proof.
  cbv zeta. repeat split.
  intros [_ H].
  assert (Spec.absent 0
            {| rows := [Fixtures.ticket 16 Fixtures.jan1 0 "Late arrival"];
               nextId := 17 |}) as A.
  { intros t [<- | []]. discriminate. }
  specialize (H A). discriminate H.
Qed.

(** ** Create, and the life of a record *)

Section Life.

Variable tz : Z.
Variable Date_parse : string -> option Z.
Variable reasonCategories : list string.
Variable isPhoneNumber : string -> bool.

Abbreviation postRoute :=
  (Tickets.postRoute Date_parse reasonCategories isPhoneNumber).
Abbreviation validBody :=
  (Spec.validBody Date_parse reasonCategories isPhoneNumber).
Abbreviation step :=
  (Spec.step tz Date_parse reasonCategories isPhoneNumber).
Abbreviation run :=
  (Spec.run tz Date_parse reasonCategories isPhoneNumber).

Lemma validBody_date b :
  validBody b -> exists d, Date_parse (CreateTicketBody.tripDate b) = Some d.
Proof.
  unfold Spec.validBody, Validation.validateCreateTicket. intros H.
  apply app_eq_nil in H as [_ H].
  apply app_eq_nil in H as [H _].
  apply check_nil in H. unfold Validation.isDate in H.
  destruct (Date_parse (CreateTicketBody.tripDate b)) as [d |];
    [now exists d | discriminate].
Qed.

(** What the create route does with a valid body. *)
Lemma postRoute_valid now b s d :
  validBody b -> Date_parse (CreateTicketBody.tripDate b) = Some d ->
  postRoute now b s
  = (Spec.created (nextId s), Spec.withRow (Spec.newRow s now d b) s).
Proof.
  intros V D. unfold Tickets.postRoute, Validation.checkValidationErrors.
  unfold Spec.validBody in V. rewrite V.
  unfold tryNext, Tickets.createTicket, bind, Prisma.create. cbn.
  rewrite D. reflexivity.
Qed.

(** The create route leaves the store alone or adds one row with the next
    identifier. *)
Lemma postRoute_store now b s :
  snd (postRoute now b s) = s \/
  exists d, snd (postRoute now b s) = Spec.withRow (Spec.newRow s now d b) s.
Proof.
  unfold Tickets.postRoute, Validation.checkValidationErrors.
  destruct (Validation.validateCreateTicket Date_parse reasonCategories
              isPhoneNumber b); [| now left].
  unfold tryNext, Tickets.createTicket, bind, Prisma.create. cbn.
  destruct (Date_parse (CreateTicketBody.tripDate b)) as [d |];
    [right; now exists d | now left].
Qed.

Lemma listRoute_store q s : snd (Tickets.listRoute tz Date_parse q s) = s.
Proof.
  unfold Tickets.listRoute, Validation.checkValidationErrors.
  destruct (Validation.validateGetTickets Date_parse q); [| reflexivity].
  unfold tryNext, Tickets.getTickets, bind, Prisma.count, Prisma.findMany.
  destruct (Prisma.validWhere (Tickets.listWhere tz Date_parse q));
    [| reflexivity].
  destruct (JS.Number_mul _ _) as [skip |]; [| reflexivity].
  destruct (JS.parseInt
              match GetTicketsQuery.limit q with
              | Some l => l
              | None => "20"
              end) as [take |]; [| reflexivity].
  destruct (skip <? 0); [reflexivity |].
  destruct (Prisma.window skip take _); reflexivity.
Qed.

Lemma exportRoute_store q s : snd (Tickets.exportRoute tz Date_parse q s) = s.
Proof.
  unfold Tickets.exportRoute, Validation.checkValidationErrors.
  destruct (Validation.validateGetTickets Date_parse q); [| reflexivity].
  unfold tryNext, Tickets.exportTickets, bind, Prisma.findMany.
  destruct (Prisma.validWhere (Tickets.exportWhere tz Date_parse q));
    [| reflexivity].
  destruct (Prisma.selected _ s); reflexivity.
Qed.

(** Whatever a list request shows is the rendering of a row of the
    store. *)
Lemma listRoute_shows_rows q s j :
  In j (Spec.shownTickets (fst (Tickets.listRoute tz Date_parse q s))) ->
  exists t, In t (rows s) /\ j = Tickets.render t.
Proof.
  unfold Tickets.listRoute, Validation.checkValidationErrors.
  destruct (Validation.validateGetTickets Date_parse q); [| intros []].
  unfold tryNext, Tickets.getTickets, bind, Prisma.count, Prisma.findMany.
  destruct (Prisma.validWhere (Tickets.listWhere tz Date_parse q));
    [| intros []].
  destruct (JS.Number_mul _ _) as [skip |]; [| intros []].
  destruct (JS.parseInt
              match GetTicketsQuery.limit q with
              | Some l => l
              | None => "20"
              end) as [take |]; [| intros []].
  destruct (skip <? 0); [intros [] |].
  destruct (List.length (Prisma.window skip take _) =? 0)%nat;
    [intros [] |].
  unfold Spec.shownTickets. cbn [fst body ret].
  intros H. apply in_map_iff in H as [t [<- Ht]].
  exists t. split; [| reflexivity].
  apply PrismaFacts.window_incl in Ht.
  unfold Prisma.selected in Ht.
  apply (proj1 (PrismaFacts.orderBy_In _ _)) in Ht.
  apply filter_In in Ht. tauto.
Qed.

Lemma deleteRoute_store id s :
  snd (Tickets.deleteRoute id s) = s \/
  exists n, snd (Tickets.deleteRoute id s) = Spec.without n s.
Proof.
  rewrite deleteRoute_spec.
  destruct (JS.parseInt id) as [n |]; [| now left].
  destruct (existsb _ _); [right; now exists n | now left].
Qed.

(** Identifiers come from the counter: no request breaks that. *)
Lemma withRow_wellFormed s t :
  Spec.wellFormed s -> Ticket.id t = nextId s ->
  Spec.wellFormed (Spec.withRow t s).
Proof.
  intros (N & B & D) E. unfold Spec.wellFormed, Spec.withRow. cbn.
  split; [lia |]. split.
  - intros x Hx. apply in_app_or in Hx as [Hx | [<- | []]].
    + specialize (B x Hx). lia.
    + lia.
  - rewrite map_app. cbn.
    apply NoDup_app_remove_l with (l := []). cbn.
    apply Permutation_NoDup with (l := Ticket.id t :: map Ticket.id (rows s)).
    + apply Permutation_cons_append.
    + constructor; [| exact D].
      intros Hin. apply in_map_iff in Hin as [x [Ex Hx]].
      specialize (B x Hx). lia.
Qed.

Lemma without_wellFormed s n :
  Spec.wellFormed s -> Spec.wellFormed (Spec.without n s).
Proof.
  intros (N & B & D). unfold Spec.wellFormed, Spec.without. cbn.
  split; [exact N |]. split.
  - intros x Hx. apply filter_In in Hx as [Hx _]. now apply B.
  - clear B. induction (rows s) as [| h r IH]; cbn; [constructor |].
    inversion D as [| ? ? Hn D']; subst.
    destruct (negb (Ticket.id h =? n)); cbn; [| now apply IH].
    constructor; [| now apply IH].
    intros Hin. apply Hn. apply in_map_iff in Hin as [x [Ex Hx]].
    apply filter_In in Hx as [Hx _]. apply in_map_iff. now exists x.
Qed.

Lemma step_wellFormed o s :
  Spec.wellFormed s -> Spec.wellFormed (snd (step o s)).
Proof.
  intros W. destruct o as [now b | q | q | id]; cbn [Spec.step].
  - destruct (postRoute_store now b s) as [-> | [d ->]]; [exact W |].
    now apply withRow_wellFormed.
  - now rewrite listRoute_store.
  - now rewrite exportRoute_store.
  - destruct (deleteRoute_store id s) as [-> | [n ->]]; [exact W |].
    now apply without_wellFormed.
Qed.

(** An identifier the counter has passed and no row carries stays out of
    the store. *)
Lemma step_gone n o s : Spec.gone n s -> Spec.gone n (snd (step o s)).
Proof.
  intros [A B]. destruct o as [now b | q | q | id]; cbn [Spec.step].
  - destruct (postRoute_store now b s) as [-> | [d ->]]; [now split |].
    split; cbn; [| lia].
    intros t Ht. cbn in Ht. apply in_app_or in Ht as [Ht | [<- | []]].
    + now apply A.
    + cbn. lia.
  - rewrite listRoute_store. now split.
  - rewrite exportRoute_store. now split.
  - destruct (deleteRoute_store id s) as [-> | [m ->]]; [now split |].
    split; cbn; [| exact B].
    intros t Ht. cbn in Ht. apply filter_In in Ht as [Ht _]. now apply A.
Qed.

Lemma run_gone n ops : forall s, Spec.gone n s -> Spec.gone n (run ops s).
Proof.
  induction ops as [| o r IH]; intros s G; cbn [Spec.run]; [exact G |].
  apply IH, step_gone, G.
Qed.

Lemma run_wellFormed ops :
  forall s, Spec.wellFormed s -> Spec.wellFormed (run ops s).
Proof.
  induction ops as [| o r IH]; intros s W; cbn [Spec.run]; [exact W |].
  apply IH, step_wellFormed, W.
Qed.

Lemma emptyStore_wellFormed : Spec.wellFormed emptyStore.
Proof.
  split; [cbn; lia |]. split; [intros t [] | constructor].
Qed.

(** Every store the requests can produce from the empty table is well
    formed. *)
Lemma reachable_wellFormed ops : Spec.wellFormed (run ops emptyStore).
Proof. apply run_wellFormed, emptyStore_wellFormed. Qed.

Lemma filter_all {A} (f : A -> bool) l :
  (forall x, f x = true) -> filter f l = l.
Proof.
  intros H. induction l as [| h r IH]; cbn; [reflexivity |].
  now rewrite H, IH.
Qed.

(** Every row of the store is on some page of the unfiltered list. *)
Lemma listed_somewhere s t :
  In t (rows s) ->
  exists q,
    Spec.validQuery Date_parse q /\
    In (Tickets.render t)
       (Spec.shownTickets (fst (Tickets.listRoute tz Date_parse q s))).
Proof.
  intros Ht.
  set (all := Prisma.orderByCreatedAtDesc (rows s)).
  assert (In t all) as Ha by now apply PrismaFacts.orderBy_In.
  apply In_nth_error in Ha as [i Hi].
  set (p := Z.of_nat (i / 20) + 1).
  set (q := Fixtures.query None None None (Some (JS.Number_toString p)) None).
  assert (1 <= p) as Bp by lia.
  assert (Spec.validQuery Date_parse q) as V.
  { unfold Spec.validQuery, Validation.validateGetTickets, q, Fixtures.query.
    cbn [GetTicketsQuery.start_date GetTicketsQuery.end_date
         GetTicketsQuery.page GetTicketsQuery.limit
         Validation.checkOptional app].
    now rewrite (JSFacts.isPositiveInteger_Number_toString p Bp). }
  assert (Spec.pageNum q = Some p) as Hp.
  { unfold Spec.pageNum, q, Fixtures.query. cbn [GetTicketsQuery.page].
    apply JSFacts.parseInt_Number_toString. lia. }
  assert (Spec.limitNum q = Some 20) as Hl by reflexivity.
  assert (Spec.ordered tz Date_parse q s = all) as Ho.
  { unfold Spec.ordered, Spec.matching. subst all. f_equal.
    apply filter_all. reflexivity. }
  assert (nth_error (Spec.pageRows tz Date_parse q p 20 s) (i mod 20)
          = Some t) as Hn.
  { unfold Spec.pageRows. rewrite Ho.
    rewrite PrismaFacts.window_nth by lia.
    assert ((i mod 20 <? Z.to_nat 20)%nat = true) as ->.
    { apply Nat.ltb_lt. change (Z.to_nat 20) with 20%nat.
      apply Nat.mod_upper_bound. discriminate. }
    rewrite <- Hi. f_equal.
    pose proof (Nat.div_mod_eq i 20). subst p. lia. }
  exists q. split; [exact V |].
  rewrite (listRoute_valid tz Date_parse q p 20 s V Hp Hl). cbn [fst].
  destruct (Spec.pageRows tz Date_parse q p 20 s) as [| r rs] eqn:Pg.
  - destruct (i mod 20)%nat; discriminate Hn.
  - unfold Spec.shownTickets. cbn [body].
    apply in_map. eapply nth_error_In. exact Hn.
Qed.

(** C7.  A create request whose body passes validation adds exactly one
    row to the store, with an identifier and a creation time the store
    assigns (the identifier positive and carried by no other row), and is
    answered 201 with that identifier; nothing else changes.  The same
    request sent again adds a second row with a different identifier.
    The created record is on some page of the list: a valid list request
    shows an entry with the identifier of the 201 answer, the columns of
    the body as they were sent, the date part of [tripDate] and the
    creation time. *)
Theorem create_adds_one_record (s : Store) (now now' : Z)
  (b : CreateTicketBody.t) :
  Spec.wellFormed s -> validBody b ->
  exists d,
    Date_parse (CreateTicketBody.tripDate b) = Some d /\
    let t := Spec.newRow s now d b in
    let s1 := Spec.withRow t s in
    let t' := Spec.newRow s1 now' d b in
    let s2 := Spec.withRow t' s1 in
    postRoute now b s = (Spec.created (Ticket.id t), s1) /\
    1 <= Ticket.id t /\ Spec.absent (Ticket.id t) s /\
    Ticket.createdAt t = now /\
    rows s1 = (rows s ++ [t])%list /\
    Spec.wellFormed s1 /\
    postRoute now' b s1 = (Spec.created (Ticket.id t'), s2) /\
    Ticket.id t' <> Ticket.id t /\
    rows s2 = (rows s ++ [t; t'])%list /\
    exists q,
      Spec.validQuery Date_parse q /\
      In (Spec.listedTicket (Ticket.id t) now d b)
         (Spec.shownTickets (fst (Tickets.listRoute tz Date_parse q s1))).
Proof.
  intros W V. destruct (validBody_date b V) as [d D].
  exists d. split; [exact D |]. cbv zeta.
  pose proof W as (N & B & _).
  split_all.
  - apply postRoute_valid; assumption.
  - cbn. exact N.
  - intros x Hx. cbn. specialize (B x Hx). lia.
  - reflexivity.
  - reflexivity.
  - now apply withRow_wellFormed.
  - apply postRoute_valid; assumption.
  - cbn. lia.
  - cbn. rewrite <- app_assoc. reflexivity.
  - change (Spec.listedTicket (Ticket.id (Spec.newRow s now d b)) now d b)
      with (Tickets.render (Spec.newRow s now d b)).
    apply listed_somewhere. cbn. apply in_or_app. right. now left.
Qed.

(** C6.  A delete request for an identifier that a record carries is
    answered 200 and removes that record and nothing else; after any
    further requests the identifier is still carried by no record, no list
    request shows it, and deleting it again is answered 404. *)
Theorem delete_is_permanent (id : string) (n : Z) (s : Store) :
  Spec.wellFormed s -> JS.parseInt id = Some n ->
  (exists t, In t (rows s) /\ Ticket.id t = n) ->
  Tickets.deleteRoute id s = (Spec.deleted, Spec.without n s) /\
  (forall t, In t (rows (Spec.without n s)) <->
             In t (rows s) /\ Ticket.id t <> n) /\
  forall ops,
    let later := run ops (Spec.without n s) in
    Spec.absent n later /\
    (forall q,
        ~ In n (Spec.shownIds (fst (Tickets.listRoute tz Date_parse q later))))
    /\
    Tickets.deleteRoute id later = (Spec.ticketNotFound, later).
Proof.
  intros W P Ex.
  assert (Spec.gone n (Spec.without n s)) as G.
  { destruct Ex as [t [Ht E]]. destruct W as (_ & B & _).
    specialize (B t Ht). split; [| cbn; lia].
    intros x Hx. cbn in Hx. apply filter_In in Hx as [_ Hx].
    now apply negb_true_iff, Z.eqb_neq in Hx. }
  split; [| split].
  - rewrite deleteRoute_spec, P.
    apply PrismaFacts.existsb_id in Ex. now rewrite Ex.
  - intros t. cbn. rewrite filter_In, negb_true_iff, Z.eqb_neq. tauto.
  - intros ops later.
    destruct (run_gone n ops _ G) as [A _]. fold later in A.
    split; [exact A |]. split.
    + intros q Hin. unfold Spec.shownIds in Hin.
      apply in_map_iff in Hin as [j [Ej Hj]].
      apply listRoute_shows_rows in Hj as [t [Ht ->]].
      now apply (A t).
    + rewrite deleteRoute_spec, P.
      apply existsb_absent in A. now rewrite A.
Qed.

End Life.

(** C7 at a concrete request: a valid body posted to a store with one
    ticket is answered 201 with identifier 2, and twice gives 2 and 3; a
    list of the store after the first request shows ticket 2 with the
    columns of the body. *)
Lemma create_adds_one_record_witness :
  Spec.wellFormed Fixtures.oneTicket /\
  Spec.validBody JS.isoDateParse Fixtures.reasonCategories
    Fixtures.isPhoneNumber Fixtures.body /\
  exists s1 s2,
    Tickets.postRoute JS.isoDateParse Fixtures.reasonCategories
      Fixtures.isPhoneNumber 1704300000000 Fixtures.body Fixtures.oneTicket
    = (Spec.created 2, s1) /\
    Tickets.postRoute JS.isoDateParse Fixtures.reasonCategories
      Fixtures.isPhoneNumber 1704300000000 Fixtures.body s1
    = (Spec.created 3, s2) /\
    map Ticket.id (rows s2) = [1; 2; 3] /\
    exists q,
      In {| TicketJson.id := 2;
            TicketJson.tripId := "TRIP-9";
            TicketJson.tripDate := "2024-01-01";
            TicketJson.driverId := 7;
            TicketJson.reason := "Late arrival";
            TicketJson.city := "Baghdad";
            TicketJson.serviceType := "Economy";
            TicketJson.customerPhone := "07700000000";
            TicketJson.agentName := "Agent";
            TicketJson.createdAt := "2024-01-03T16:40:00.000Z" |}
         (Spec.shownTickets
            (fst (Tickets.listRoute 0 JS.isoDateParse q s1))).
Proof.
  assert (Spec.wellFormed Fixtures.oneTicket) as W.
  { split; [cbn; lia |]. split.
    - intros t [<- | []]. cbn. lia.
    - cbn. constructor; [intros [] | constructor]. }
  split; [exact W |]. split; [reflexivity |].
  destruct (create_adds_one_record 0 JS.isoDateParse
              Fixtures.reasonCategories Fixtures.isPhoneNumber
              Fixtures.oneTicket 1704300000000 1704300000000 Fixtures.body
              W eq_refl)
    as (d & D & H1 & _ & _ & _ & _ & _ & H2 & _ & R & q & _ & L).
  eexists _, _. split; [exact H1 |]. split; [exact H2 |].
  split; [rewrite R; reflexivity |].
  exists q.
  assert (d = Fixtures.jan1) as ->
    by (vm_compute in D; injection D as <-; reflexivity).
  exact L.
Defined.

(** C6 at a concrete request: the only ticket of a store is deleted. *)
Lemma delete_is_permanent_witness :
  Tickets.deleteRoute "1" Fixtures.oneTicket
  = (Spec.deleted, {| rows := []; nextId := 2 |}) /\
  Tickets.deleteRoute "1" {| rows := []; nextId := 2 |}
  = (Spec.ticketNotFound, {| rows := []; nextId := 2 |}).
Proof.
  assert (Spec.wellFormed Fixtures.oneTicket) as W.
  { split; [cbn; lia |]. split.
    - intros t [<- | []]. cbn. lia.
    - cbn. constructor; [intros [] | constructor]. }
  destruct (delete_is_permanent 0 JS.isoDateParse Fixtures.reasonCategories
              Fixtures.isPhoneNumber "1" 1 Fixtures.oneTicket W eq_refl
              (ex_intro _ _ (conj (or_introl eq_refl) eq_refl)))
    as (H & _ & L).
  split; [exact H |].
  destruct (L []) as (_ & _ & R). exact R.
Defined.

(** ** The health check *)

(** In the first variant [GET /health] reaches the health route, unless
    the static directory has an entry of that name. *)
Lemma health_first_variant (ticketRoutes : Server.Middleware)
  (env : Server.Env) :
  Server.isFile env "dist/health" = false ->
  Server.isDirectory env "dist/health" = false ->
  Server.serve (Server.app1 ticketRoutes) env Spec.getHealth
  = Some (Spec.healthReply env).
Proof.
  intros F D. unfold Server.serve, Server.app1, Spec.getHealth, Spec.healthReply.
  cbn -[JS.toISOString]. rewrite F, D. reflexivity.
Qed.

(** C8 fails on the second variant.  There the catch-all [GET *] route is
    registered before [GET /health] and answers every path outside
    [/api]: [GET /health] is answered with a static file, with the
    single-page application's [index.html], or with the error of the
    missing [index.html], and never with the health payload. *)
Theorem health_is_shadowed_in_second_variant
  (ticketRoutes : Server.Middleware) (env : Server.Env) :
  let answer := Server.serve (Server.app2 ticketRoutes) env Spec.getHealth in
  (answer = Some {| Server.code := 200;
                    Server.payload := Server.File "../frontend/dist/health" |}
   \/ answer = Some {| Server.code := 301;
                       Server.payload := Server.Redirect "/health/" |}
   \/ answer = Some {| Server.code := 200;
                       Server.payload :=
                         Server.File "../frontend/dist/index.html" |}
   \/ answer = Some {| Server.code := 404;
                       Server.payload :=
                         Server.Routed
                           {| status := 404;
                              body := Message
                                "ENOENT: no such file or directory" |} |})
  /\ (forall status timestamp,
        answer <> Some {| Server.code := 200;
                          Server.payload :=
                            Server.JsonHealth status timestamp |}).
Proof.
  unfold Server.serve, Server.app2, Spec.getHealth.
  cbn -[JS.toISOString].
  destruct (Server.isFile env "../frontend/dist/health");
    [split; [tauto | discriminate] |].
  destruct (Server.isDirectory env "../frontend/dist/health");
    [split; [tauto | discriminate] |].
  unfold Server.sendFile.
  destruct (Server.isFile env "../frontend/dist/index.html");
    cbn -[JS.toISOString]; (split; [tauto | discriminate]).
Qed.

End Claims.

(** * Further properties of the ticket router *)

Module Extras.
Import TicketsFacts.

Section Router.

Variable tz : Z.
Variable Date_parse : string -> option Z.
Variable reasonCategories : list string.
Variable isPhoneNumber : string -> bool.

Abbreviation listRoute := (Tickets.listRoute tz Date_parse).
Abbreviation exportRoute := (Tickets.exportRoute tz Date_parse).
Abbreviation matching := (Spec.matching tz Date_parse).
Abbreviation ordered := (Spec.ordered tz Date_parse).
Abbreviation validQuery := (Spec.validQuery Date_parse).

(** Whatever a list request shows is the rendering of a row its filter
    matches. *)
Lemma listRoute_shows_matching q s j :
  In j (Spec.shownTickets (fst (listRoute q s))) ->
  exists t, In t (matching q s) /\ j = Tickets.render t.
Proof.
  unfold Tickets.listRoute, Validation.checkValidationErrors.
  destruct (Validation.validateGetTickets Date_parse q); [| intros []].
  unfold tryNext, Tickets.getTickets, bind, Prisma.count, Prisma.findMany.
  destruct (Prisma.validWhere (Tickets.listWhere tz Date_parse q));
    [| intros []].
  destruct (JS.Number_mul _ _) as [skip |]; [| intros []].
  destruct (JS.parseInt
              match GetTicketsQuery.limit q with
              | Some l => l
              | None => "20"
              end) as [take |]; [| intros []].
  destruct (skip <? 0); [intros [] |].
  destruct (List.length (Prisma.window skip take _) =? 0)%nat;
    [intros [] |].
  unfold Spec.shownTickets. cbn [fst body ret].
  intros H. apply in_map_iff in H as [t [<- Ht]].
  exists t. split; [| reflexivity].
  apply PrismaFacts.window_incl in Ht.
  unfold Prisma.selected in Ht.
  now apply (proj1 (PrismaFacts.orderBy_In _ _)) in Ht.
Qed.

(** The records of an export are the cells of the rows its filter
    matches, newest first. *)
Lemma exportRoute_records q s :
  Terms.exportedRecords (fst (exportRoute q s)) = [] \/
  Terms.exportedRecords (fst (exportRoute q s))
  = map Terms.cells (ordered q s).
Proof.
  unfold Tickets.exportRoute, Validation.checkValidationErrors.
  destruct (Validation.validateGetTickets Date_parse q); [| now left].
  unfold tryNext, Tickets.exportTickets, bind, Prisma.findMany.
  rewrite exportWhere_listWhere.
  destruct (Prisma.validWhere (Tickets.listWhere tz Date_parse q));
    [| now left].
  destruct (List.length (Prisma.selected _ s) =? 0)%nat; [now left |].
  right. unfold Terms.exportedRecords. cbn [fst body ret records Parser_parse].
  rewrite map_map. reflexivity.
Qed.

Lemma matching_reason q s t r :
  GetTicketsQuery.reason q = Some r -> r <> "" ->
  In t (matching q s) -> Ticket.reason t = r.
Proof.
  intros E N H. apply filter_In in H as [_ H].
  apply Claims.matches_iff in H as [H _].
  apply (proj1 (Claims.listWhere_reason tz Date_parse q t)) in H.
  now apply H.
Qed.

(** X1.  With [reason] supplied, every ticket a list request shows and
    every record an export carries has exactly that reason; and when no
    date is supplied, a valid export carries the record of every row of
    the store that has that reason. *)
Theorem reason_filter_is_exact (q : GetTicketsQuery.t) (s : Store)
  (r : string) :
  GetTicketsQuery.reason q = Some r -> r <> "" ->
  (forall j, In j (Spec.shownTickets (fst (listRoute q s))) ->
             TicketJson.reason j = r) /\
  (forall row, In row (Terms.exportedRecords (fst (exportRoute q s))) ->
               nth_error row 4 = Some (Some (JsString r))) /\
  (validQuery q ->
   JS.truthy (GetTicketsQuery.start_date q) = false ->
   JS.truthy (GetTicketsQuery.end_date q) = false ->
   forall t, In t (rows s) -> Ticket.reason t = r ->
             In (Terms.cells t)
                (Terms.exportedRecords (fst (exportRoute q s)))).
Proof.
  intros E N. split; [| split].
  - intros j H. apply listRoute_shows_matching in H as [t [Ht ->]].
    cbn. now apply (matching_reason q s t r).
  - intros row H.
    destruct (exportRoute_records q s) as [R | R]; rewrite R in H;
      [destruct H |].
    apply in_map_iff in H as [t [<- Ht]].
    apply (proj1 (PrismaFacts.orderBy_In _ _)) in Ht.
    cbn. now rewrite (matching_reason q s t r E N Ht).
  - intros V Ts Te t Ht Er.
    assert (In t (ordered q s)) as Ho.
    { apply PrismaFacts.orderBy_In. apply filter_In. split; [exact Ht |].
      apply Claims.matches_iff. split.
      - apply Claims.listWhere_reason. intros r' E' _. congruence.
      - unfold Tickets.listWhere. cbn. rewrite Ts, Te. cbn. discriminate. }
    rewrite (exportRoute_valid tz Date_parse q s V). cbn [fst].
    destruct (ordered q s) as [| o os] eqn:Od; [destruct Ho |].
    unfold Terms.exportedRecords. cbn [body records Parser_parse].
    rewrite map_map.
    change (fun x => map (getField (Tickets.csvRow x)) Tickets.fields)
      with Terms.cells.
    now apply in_map.
Qed.

Lemma both_supplied_range q t a b :
  JS.truthy (GetTicketsQuery.start_date q) = true ->
  JS.truthy (GetTicketsQuery.end_date q) = true ->
  Tickets.Date_new Date_parse (GetTicketsQuery.start_date q) = Some a ->
  Tickets.Date_new Date_parse (GetTicketsQuery.end_date q) = Some b ->
  (Prisma.matches (Tickets.listWhere tz Date_parse q) t = true <->
   Spec.reasonOk q t /\ a <= Ticket.tripDate t <= b).
Proof.
  intros Ts Te Ha Hb.
  rewrite Claims.matches_iff, Claims.listWhere_reason.
  unfold Tickets.listWhere; cbn. rewrite Ts, Te; cbn.
  split; intros [R D]; (split; [exact R |]).
  - destruct (D _ eq_refl) as (lo & hi & El & Eh & I). cbn in El, Eh.
    unfold Spec.inRange in I. assert (lo = a) by congruence.
    assert (hi = b) by congruence. subst. exact I.
  - intros d Ed. inversion Ed; subst d. exists a, b. cbn. auto.
Qed.

(** X2.  With both dates supplied the bounds are not put in order: when
    [start_date] is later than [end_date] no record matches and a valid
    list or export request is answered 404; when both are the same
    instant, a record matches only if its [tripDate] is exactly that
    instant. *)
Theorem dates_are_taken_as_given (q : GetTicketsQuery.t) (s : Store)
  (a b : Z) :
  validQuery q ->
  Spec.supplied (GetTicketsQuery.start_date q) ->
  Spec.supplied (GetTicketsQuery.end_date q) ->
  Tickets.Date_new Date_parse (GetTicketsQuery.start_date q) = Some a ->
  Tickets.Date_new Date_parse (GetTicketsQuery.end_date q) = Some b ->
  (b < a ->
   matching q s = [] /\
   listRoute q s = (Spec.notFoundResponse, s) /\
   exportRoute q s = (Spec.notFoundResponse, s)) /\
  (a = b ->
   forall t, In t (matching q s) -> Ticket.tripDate t = a).
Proof.
  intros V Ts Te Ha Hb. split.
  - intros Lt.
    assert (matching q s = []) as M.
    { unfold Spec.matching.
      destruct (filter _ (rows s)) as [| t r] eqn:F; [reflexivity |].
      assert (In t (filter (Prisma.matches (Tickets.listWhere tz Date_parse q))
                      (rows s))) as Hin by (rewrite F; now left).
      apply filter_In in Hin as [_ Hm].
      apply (both_supplied_range q t a b Ts Te Ha Hb) in Hm as [_ I]. lia. }
    split; [exact M |].
    destruct (valid_paging Date_parse q V) as (p & l & Hp & Hl & Bp & Bl).
    split.
    + rewrite (listRoute_valid tz Date_parse q p l s V Hp Hl).
      unfold Spec.pageRows, Spec.ordered. rewrite M. cbn.
      unfold Prisma.window.
      destruct (0 <=? l); rewrite ?skipn_nil, ?firstn_nil; reflexivity.
    + rewrite (exportRoute_valid tz Date_parse q s V).
      unfold Spec.ordered. rewrite M. reflexivity.
  - intros -> t Ht. apply filter_In in Ht as [_ Hm].
    apply (both_supplied_range q t b b Ts Te Ha Hb) in Hm as [_ I]. lia.
Qed.

(** Cutting a list into enough pieces of [n] elements loses nothing. *)
Lemma concat_chunks {A} (n : nat) :
  forall k (l : list A),
    (List.length l <= k * n)%nat -> List.concat (Terms.chunks n k l) = l.
Proof.
  unfold Terms.chunks.
  induction k as [| k IH]; intros l Hl.
  - destruct l; [reflexivity | cbn in Hl; lia].
  - cbn [seq map List.concat]. rewrite <- seq_shift, map_map.
    change (0 * n)%nat with 0%nat. cbn [skipn].
    transitivity (firstn n l ++ skipn n l)%list; [| apply firstn_skipn].
    f_equal.
    rewrite <- (IH (skipn n l)) by (rewrite length_skipn; lia).
    f_equal. apply map_ext. intros i.
    rewrite skipn_skipn. f_equal. f_equal. lia.
Qed.

Lemma withPage_valid q p :
  validQuery q -> 1 <= p -> validQuery (Terms.withPage q p).
Proof.
  unfold Spec.validQuery, Validation.validateGetTickets, Terms.withPage.
  intros V Bp.
  apply app_eq_nil in V as [V1 V].
  apply app_eq_nil in V as [V2 V].
  apply app_eq_nil in V as [_ V4].
  cbn [GetTicketsQuery.start_date GetTicketsQuery.end_date
       GetTicketsQuery.page GetTicketsQuery.limit].
  rewrite V1, V2, V4. cbn [Validation.checkOptional app].
  now rewrite (JSFacts.isPositiveInteger_Number_toString p Bp).
Qed.

Lemma withPage_page q p s l :
  validQuery q -> Spec.limitNum q = Some l -> 1 <= p ->
  listRoute (Terms.withPage q p) s =
  (match Spec.pageRows tz Date_parse q p l s with
   | [] => Spec.notFoundResponse
   | _ :: _ =>
       {| status := 200;
          body := TicketPage (Some p)
                    (JS.Math_ceil_div
                       (Z.of_nat (List.length (matching q s))) (Some l))
                    (Z.of_nat (List.length (matching q s)))
                    (map Tickets.render (Spec.pageRows tz Date_parse q p l s))
       |}
   end, s).
Proof.
  intros V Hl Bp.
  assert (Spec.sameFilter q (Terms.withPage q p)) as F by (repeat split).
  rewrite (listRoute_valid tz Date_parse (Terms.withPage q p) p l s
             (withPage_valid q p V Bp)).
  - unfold Spec.pageRows, Spec.ordered.
    rewrite (Claims.sameFilter_matching tz Date_parse q _ s F). reflexivity.
  - unfold Spec.pageNum, Terms.withPage. cbn [GetTicketsQuery.page].
    apply JSFacts.parseInt_Number_toString. lia.
  - exact Hl.
Qed.

(** Records with pairwise distinct creation times have one newest-first
    order only. *)
Lemma newestFirst_unique (l1 : list Ticket.t) :
  forall l2,
    NoDup (map Ticket.createdAt l1) -> Permutation l1 l2 ->
    Spec.newestFirst l1 -> Spec.newestFirst l2 -> l1 = l2.
Proof.
  unfold Spec.newestFirst.
  induction l1 as [| a r1 IH]; intros l2 D P S1 S2.
  - apply Permutation_nil in P. now subst.
  - destruct l2 as [| b r2].
    { apply Permutation_sym, Permutation_nil in P. discriminate P. }
    apply StronglySorted_inv in S1 as [S1 F1].
    apply StronglySorted_inv in S2 as [S2 F2].
    cbn [map] in D. apply NoDup_cons_iff in D as [Da D].
    assert (a = b) as E.
    { assert (In a (b :: r2)) as Ia
        by (eapply Permutation_in; [exact P | now left]).
      assert (In b (a :: r1)) as Ib
        by (eapply Permutation_in; [apply Permutation_sym, P | now left]).
      destruct Ia as [Ia | Ia]; [now symmetry |].
      destruct Ib as [Ib | Ib]; [exact Ib |].
      rewrite Forall_forall in F1, F2.
      specialize (F1 b Ib). specialize (F2 a Ia). cbn beta in F1, F2.
      elim Da. replace (Ticket.createdAt a) with (Ticket.createdAt b) by lia.
      now apply in_map. }
    subst b. f_equal.
    apply IH; try assumption.
    eapply Permutation_cons_inv. exact P.
Qed.

(** X3.  When the matching records have pairwise distinct creation times
    they have exactly one newest-first order, and paging through the filter
    with a fixed [limit], from page 1 to the last page
    [ceil(totalTickets / limit)], every page is answered 200 and the pages
    put one after the other are the matching records in that order: each
    record is shown once, none is left out.  (Records created at the same
    instant are left out of the statement: the source orders by
    [createdAt] alone and fetches each page with a query of its own, so
    their places are not fixed.) *)
Theorem pages_cover_the_result (q : GetTicketsQuery.t) (s : Store) (l : Z) :
  validQuery q -> Spec.limitNum q = Some l ->
  NoDup (map Ticket.createdAt (matching q s)) ->
  let total := Z.of_nat (List.length (matching q s)) in
  let pages := Terms.pagesUpTo (JS.ceilDiv total l) in
  (forall p, In p pages ->
             status (fst (listRoute (Terms.withPage q p) s)) = 200) /\
  exists newest,
    Permutation newest (matching q s) /\ Spec.newestFirst newest /\
    (forall other,
        Permutation other (matching q s) -> Spec.newestFirst other ->
        other = newest) /\
    List.concat (map (fun p => Spec.shownTickets
                            (fst (listRoute (Terms.withPage q p) s))) pages)
    = map Tickets.render newest.
Proof.
  intros V Hl Distinct total pages.
  destruct (valid_paging Date_parse q V) as (p0 & l' & _ & Hl' & _ & Bl).
  assert (l' = l) by congruence. subst l'.
  pose proof (JSFacts.ceilDiv_spec total l ltac:(lia)) as C.
  assert (0 <= JS.ceilDiv total l) as K by (subst total; nia).
  assert (forall p, In p pages ->
            1 <= p <= JS.ceilDiv total l) as Range.
  { intros p Hp. subst pages. unfold Terms.pagesUpTo in Hp.
    apply in_map_iff in Hp as [i [<- Hi]]. apply in_seq in Hi. lia. }
  assert (forall p, In p pages ->
            Spec.pageRows tz Date_parse q p l s <> []) as NonEmpty.
  { intros p Hp W. apply Range in Hp.
    apply pageRows_empty in W; try lia. fold total in W. nia. }
  split.
  { intros p Hp. rewrite (withPage_page q p s l V Hl) by (apply Range in Hp; lia).
    cbn [fst].
    destruct (Spec.pageRows tz Date_parse q p l s) eqn:Pg; [| reflexivity].
    now elim (NonEmpty p Hp). }
  exists (ordered q s). split_all.
  - apply Permutation_sym, PrismaFacts.orderBy_perm.
  - apply PrismaFacts.orderBy_sorted.
  - intros other P S.
    apply newestFirst_unique; try assumption.
    + eapply Permutation_NoDup; [| exact Distinct].
      apply Permutation_map, Permutation_sym, P.
    + eapply perm_trans; [exact P | apply PrismaFacts.orderBy_perm].
    + apply PrismaFacts.orderBy_sorted.
  - transitivity
      (List.concat (map (fun p => map Tickets.render
                               (Spec.pageRows tz Date_parse q p l s)) pages)).
    { f_equal. apply map_ext_in. intros p Hp.
      rewrite (withPage_page q p s l V Hl) by (apply Range in Hp; lia).
      cbn [fst].
      destruct (Spec.pageRows tz Date_parse q p l s) eqn:Pg; reflexivity. }
    rewrite <- (map_map (fun p => Spec.pageRows tz Date_parse q p l s)
                  (map Tickets.render)).
    rewrite <- concat_map. f_equal.
    subst pages. unfold Terms.pagesUpTo. rewrite map_map.
    transitivity
      (List.concat (Terms.chunks (Z.to_nat l)
                      (Z.to_nat (JS.ceilDiv total l)) (ordered q s))).
    + unfold Terms.chunks. f_equal. apply map_ext. intros i.
      unfold Spec.pageRows, Prisma.window.
      assert ((0 <=? l) = true) as -> by (apply Z.leb_le; lia).
      f_equal. f_equal. nia.
    + apply concat_chunks.
      unfold Spec.ordered. rewrite PrismaFacts.orderBy_length.
      fold (matching q s). subst total. nia.
Qed.

(** X4.  An export that is answered with a CSV carries one record for each
    matching row, newest first; every record has its ten cells, in the
    order of the header, none of them missing: the identifier and driver as
    numbers, [tripDate] as the date part of its ISO form, [createdAt] as
    its full ISO form, the other columns as stored. *)
Theorem export_records_are_complete (q : GetTicketsQuery.t) (s : Store) :
  validQuery q -> matching q s <> [] ->
  let answer := fst (exportRoute q s) in
  status answer = 200 /\
  Terms.exportedRecords answer = map Terms.cells (ordered q s) /\
  Spec.newestFirst (ordered q s) /\
  Permutation (matching q s) (ordered q s) /\
  (forall row, In row (Terms.exportedRecords answer) ->
     List.length row = 10%nat /\
     forall i, (i < 10)%nat -> exists v, nth_error row i = Some (Some v)).
Proof.
  intros V N answer. subst answer.
  rewrite (exportRoute_valid tz Date_parse q s V). cbn [fst].
  destruct (ordered q s) as [| o os] eqn:Od.
  { unfold Spec.ordered in Od.
    apply (proj1 (PrismaFacts.orderBy_nil _)) in Od. elim (N Od). }
  rewrite <- Od.
  assert (Terms.exportedRecords
            {| status := 200;
               body := Attachment "text/csv" "tickets.csv"
                         (Parser_parse Tickets.fields
                            (map Tickets.csvRow (ordered q s))) |}
          = map Terms.cells (ordered q s)) as R.
  { unfold Terms.exportedRecords. cbn [body records Parser_parse].
    rewrite map_map. reflexivity. }
  split; [reflexivity |]. split; [exact R |].
  split; [apply PrismaFacts.orderBy_sorted |].
  split; [apply PrismaFacts.orderBy_perm |].
  intros row H. rewrite R in H. apply in_map_iff in H as [t [<- _]].
  split; [reflexivity |].
  intros i Hi.
  do 10 (destruct i as [| i]; [cbn; eexists; reflexivity |]). lia.
Qed.

Lemma filter_all_in {A} (f : A -> bool) l :
  (forall x, In x l -> f x = true) -> filter f l = l.
Proof.
  induction l as [| h r IH]; intros H; cbn; [reflexivity |].
  rewrite (H h (or_introl eq_refl)), IH; [reflexivity |].
  intros x Hx. apply H. now right.
Qed.

Abbreviation postRoute :=
  (Tickets.postRoute Date_parse reasonCategories isPhoneNumber).
Abbreviation step :=
  (Spec.step tz Date_parse reasonCategories isPhoneNumber).

(** X5.  A request changes the store only when it succeeds: a create
    answered 201 adds one row that carries the next identifier, a delete
    answered 200 removes the rows that carry the identifier it names, and
    every other request, in particular every one answered with an error
    status and every list and export, leaves the store as it was. *)
Theorem only_success_changes_the_store
  (o : Spec.Op) (s : Store) :
  let answer := fst (step o s) in
  let after := snd (step o s) in
  (after = s \/
   (exists now b d,
       o = Spec.Create now b /\ status answer = 201 /\
       after = Spec.withRow (Spec.newRow s now d b) s) \/
   (exists id n,
       o = Spec.Delete id /\ status answer = 200 /\
       JS.parseInt id = Some n /\ after = Spec.without n s)) /\
  (400 <= status answer -> after = s) /\
  (forall q, o = Spec.List q \/ o = Spec.Export q ->
             after = s).
Proof.
  destruct o as [now b | q | q | id]; cbn [Spec.step]; cbv zeta.
  - assert (snd (postRoute now b s) = s /\
            (400 <= status (fst (postRoute now b s)) ->
             snd (postRoute now b s) = s) \/
            exists d,
              status (fst (postRoute now b s)) = 201 /\
              snd (postRoute now b s)
              = Spec.withRow (Spec.newRow s now d b) s) as H.
    { unfold Tickets.postRoute, Validation.checkValidationErrors.
      destruct (Validation.validateCreateTicket Date_parse reasonCategories
                  isPhoneNumber b); [| left; now split].
      unfold tryNext, Tickets.createTicket, bind, Prisma.create. cbn.
      destruct (Date_parse (CreateTicketBody.tripDate b)) as [d |];
        [right; now exists d | left; now split]. }
    destruct H as [[H1 H2] | [d [H1 H2]]].
    + split; [now left |]. split; [exact H2 |]. intros q [E | E]; discriminate E.
    + split; [right; left; now exists now, b, d |].
      split; [rewrite H1; lia |]. intros q [E | E]; discriminate E.
  - rewrite (Claims.listRoute_store tz Date_parse q s).
    split; [now left |]. split; reflexivity.
  - rewrite (Claims.exportRoute_store tz Date_parse q s).
    split; [now left |]. split; reflexivity.
  - rewrite Claims.deleteRoute_spec.
    destruct (JS.parseInt id) as [n |] eqn:P; cbn [fst snd].
    + destruct (existsb (fun t => Ticket.id t =? n) (rows s)); cbn [fst snd].
      * split; [right; right; now exists id, n |].
        split; [cbn; lia |]. intros q [E | E]; discriminate E.
      * split; [now left |]. split; [reflexivity |].
        intros q [E | E]; discriminate E.
    + split; [now left |]. split; [reflexivity |].
      intros q [E | E]; discriminate E.
Qed.

(** X6.  The identifier a create request is answered with names the
    created record: sent as the path of a delete request, it removes that
    record and no other, so that the rows of the store are again what they
    were before the create; the identifier itself stays used up. *)
Theorem delete_undoes_create (s : Store) (now : Z) (b : CreateTicketBody.t) :
  Spec.wellFormed s ->
  Spec.validBody Date_parse reasonCategories isPhoneNumber b ->
  exists ticketId,
    fst (postRoute now b s) = Spec.created ticketId /\
    Tickets.deleteRoute (JS.Number_toString ticketId)
      (snd (postRoute now b s))
    = (Spec.deleted, {| rows := rows s; nextId := nextId s + 1 |}).
Proof.
  intros W V.
  destruct (Claims.validBody_date Date_parse reasonCategories isPhoneNumber
              b V) as [d D].
  exists (nextId s).
  rewrite (Claims.postRoute_valid Date_parse reasonCategories isPhoneNumber
             now b s d V D).
  cbn [fst snd]. split; [reflexivity |].
  destruct W as (N & B & _).
  rewrite Claims.deleteRoute_spec, JSFacts.parseInt_Number_toString by lia.
  assert (existsb (fun t => Ticket.id t =? nextId s)
            (rows (Spec.withRow (Spec.newRow s now d b) s)) = true) as ->.
  { apply PrismaFacts.existsb_id. exists (Spec.newRow s now d b).
    split; [| reflexivity]. cbn. apply in_or_app. right. now left. }
  f_equal. unfold Spec.without, Spec.withRow. cbn [rows nextId]. f_equal.
  rewrite filter_app. cbn [filter Spec.newRow Ticket.id].
  rewrite Z.eqb_refl. cbn [negb]. rewrite app_nil_r.
  apply filter_all_in.
  intros t Ht. specialize (B t Ht).
  apply negb_true_iff, Z.eqb_neq. lia.
Qed.

End Router.

(** X1 at a concrete request: the export for [reason=Late arrival] of the
    store with one such ticket carries its record. *)
Lemma reason_filter_is_exact_witness :
  In (Terms.cells (Fixtures.ticket 1 Fixtures.jan1_noon 1704200000000
                     "Late arrival"))
     (Terms.exportedRecords
        (fst (Tickets.exportRoute 0 JS.isoDateParse
                (Fixtures.query (Some "Late arrival") None None None None)
                Fixtures.oneTicket))).
Proof.
  apply (proj2 (proj2
           (reason_filter_is_exact 0 JS.isoDateParse
              (Fixtures.query (Some "Late arrival") None None None None)
              Fixtures.oneTicket "Late arrival" eq_refl
              ltac:(discriminate)))
           eq_refl eq_refl eq_refl).
  - left. reflexivity.
  - reflexivity.
Defined.

(** X2 at a concrete request: from 2 January back to 1 January. *)
Lemma dates_are_taken_as_given_witness :
  Tickets.listRoute 0 JS.isoDateParse
    (Fixtures.query None (Some "2024-01-02") (Some "2024-01-01") None None)
    Fixtures.oneTicket
  = (Spec.notFoundResponse, Fixtures.oneTicket).
Proof.
  apply (dates_are_taken_as_given 0 JS.isoDateParse
           (Fixtures.query None (Some "2024-01-02") (Some "2024-01-01")
              None None)
           Fixtures.oneTicket 1704153600000 1704067200000
           eq_refl eq_refl eq_refl eq_refl eq_refl).
  reflexivity.
Defined.

(** X3 at a concrete request: fifteen tickets created one second apart,
    in pages of ten, come in the reverse of the order they were created
    in. *)
Lemma pages_cover_the_result_witness :
  List.concat
    (map (fun p =>
            Spec.shownTickets
              (fst (Tickets.listRoute 0 JS.isoDateParse
                      (Terms.withPage
                         (Fixtures.query None None None None (Some "10")) p)
                      Fixtures.fifteenTickets)))
         (Terms.pagesUpTo 2))
  = map Tickets.render (rev (rows Fixtures.fifteenTickets)).
Proof.
  assert (Spec.matching 0 JS.isoDateParse
            (Fixtures.query None None None None (Some "10"))
            Fixtures.fifteenTickets
          = rows Fixtures.fifteenTickets) as M by reflexivity.
  assert (NoDup (map Ticket.createdAt (rows Fixtures.fifteenTickets))) as D.
  { cbn.
    repeat (constructor;
            [intros H; repeat (destruct H as [H | H]; [discriminate H |]);
             exact H |]).
    constructor. }
  rewrite <- M in D.
  destruct (pages_cover_the_result 0 JS.isoDateParse
              (Fixtures.query None None None None (Some "10"))
              Fixtures.fifteenTickets 10 eq_refl eq_refl D)
    as (_ & newest & _ & _ & U & E).
  transitivity (map Tickets.render newest); [exact E |].
  f_equal. symmetry. apply U.
  - rewrite M. apply Permutation_sym, Permutation_rev.
  - unfold Spec.newestFirst. cbn.
    repeat first [ apply SSorted_nil | apply SSorted_cons
                 | apply Forall_nil | apply Forall_cons; [cbn; lia |] ].
Defined.

(** X4 at a concrete request: the export of the store with one ticket. *)
Lemma export_records_are_complete_witness :
  Terms.exportedRecords
    (fst (Tickets.exportRoute 0 JS.isoDateParse Fixtures.noParams
            Fixtures.oneTicket))
  = [ Terms.cells (Fixtures.ticket 1 Fixtures.jan1_noon 1704200000000
                     "Late arrival") ].
Proof.
  exact (proj1 (proj2
           (export_records_are_complete 0 JS.isoDateParse Fixtures.noParams
              Fixtures.oneTicket eq_refl ltac:(discriminate)))).
Defined.

(** X6 at a concrete request: a ticket is created in the store with one
    ticket and deleted again. *)
Lemma delete_undoes_create_witness :
  exists ticketId,
    fst (Tickets.postRoute JS.isoDateParse Fixtures.reasonCategories
           Fixtures.isPhoneNumber 1704300000000 Fixtures.body
           Fixtures.oneTicket)
    = Spec.created ticketId /\
    Tickets.deleteRoute (JS.Number_toString ticketId)
      (snd (Tickets.postRoute JS.isoDateParse Fixtures.reasonCategories
              Fixtures.isPhoneNumber 1704300000000 Fixtures.body
              Fixtures.oneTicket))
    = (Spec.deleted, {| rows := rows Fixtures.oneTicket; nextId := 3 |}).
Proof.
  apply (delete_undoes_create JS.isoDateParse Fixtures.reasonCategories
           Fixtures.isPhoneNumber Fixtures.oneTicket 1704300000000
           Fixtures.body).
  - split; [cbn; lia |]. split.
    + intros t [<- | []]. cbn. lia.
    + cbn. constructor; [intros [] | constructor].
  - reflexivity.
Defined.

(** * Further properties of the servers *)

Section Servers.

Import Server.

Variable ticketRoutes : Middleware.

Lemma dispatch_passes env mount h rest req :
  Terms.passes mount h env req ->
  dispatch env (Use mount h :: rest) None req = dispatch env rest None req.
Proof.
  unfold Terms.passes. intros P. cbn [dispatch].
  destruct (underMount mount (path req)); [| reflexivity].
  now rewrite P.
Qed.

Lemma dispatch_route_miss env m p h rest req :
  methodMatches m (method req) && patternMatches p (path req) = false ->
  dispatch env (Route m p h :: rest) None req = dispatch env rest None req.
Proof. intros H. cbn [dispatch]. now rewrite H. Qed.

Lemma passes_passThrough mount env req :
  Terms.passes mount passThrough env req.
Proof. intros _. reflexivity. Qed.

Lemma passes_cors mount env req :
  method req <> OPTIONS -> Terms.passes mount cors env req.
Proof. intros N _. unfold cors. destruct (method req); congruence. Qed.






Lemma prefix_app a b p :
  String.prefix (a ++ b) p = true -> String.prefix a p = true.
Proof.
  revert p. induction a as [| c a IH]; intros p H; [now destruct p |].
  destruct p as [| d p]; [discriminate H |].
  cbn in H |- *. destruct (Ascii.ascii_dec c d); [| discriminate H].
  now apply IH.
Qed.

(** The ticket router is mounted under the path the limiter guards. *)
Lemma tickets_under_api p :
  underMount (Some "/api/tickets") p = true ->
  underMount (Some "/api/") p = true.
Proof.
  unfold underMount. cbn [String.eqb Ascii.eqb Bool.eqb].
  change (toLowerCase (stripSlash "/api/tickets")) with "/api/tickets".
  change (toLowerCase (stripSlash "/api/")) with "/api".
  generalize (toLowerCase p). clear p. intros p H.
  apply orb_true_iff in H as [H | H]; apply orb_true_iff; right.
  - apply String.eqb_eq in H. subst p. reflexivity.
  - apply (prefix_app "/api/" "tickets/"). exact H.
Qed.

(** X9.  The rate limiter guards [/api] only: for a request whose path is
    not under [/api], the answer of either API server does not depend on
    the state of the limiter. *)
Theorem limiter_guards_api_only (env : Env) (f : Request -> bool)
  (req : Request) :
  underMount (Some "/api/") (path req) = false ->
  serve (app1 ticketRoutes) (Terms.withRateLimited f env) req
  = serve (app1 ticketRoutes) env req /\
  serve (app2 ticketRoutes) (Terms.withRateLimited f env) req
  = serve (app2 ticketRoutes) env req.
Proof.
  intros A.
  assert (underMount (Some "/api/tickets") (path req) = false) as T.
  { destruct (underMount (Some "/api/tickets") (path req)) eqn:E;
      [| reflexivity].
    apply tickets_under_api in E. congruence. }
  unfold serve, app1, app2.
  split;
    do 5 (cbn [dispatch]; change (underMount None (path req)) with true;
          cbv iota);
    cbn [passThrough cors];
    (destruct (method req) eqn:M;
     cbn [dispatch]; rewrite ?A, ?T;
     change (underMount None (path req)) with true; cbv iota;
     unfold static, spaFallback, sendFile; rewrite ?M;
     cbn [Terms.withRateLimited isFile isDirectory now NODE_ENV];
     reflexivity).
Qed.

(** X10.  An error the ticket router passes on is answered by the error
    middleware of either API server, the remaining routes, the catch-all
    included, being skipped: if its message says that the database server
    cannot be reached, with 503 and a fixed message, the text of the error
    being added only when [NODE_ENV] is [development]; otherwise by the
    error handler. *)
Theorem router_errors_reach_the_error_middleware
  (env : Env) (req : Request) (e : Error) :
  method req <> OPTIONS ->
  underMount (Some "/api/tickets") (path req) = true ->
  rateLimited env req = false ->
  ticketRoutes env req = NextError e ->
  let answer :=
    Some (if includes (Terms.errorMessage e) "Can't reach database server"
          then Terms.databaseUnavailable env e
          else {| code := status (errorHandler e);
                  payload := Routed (errorHandler e) |}) in
  (Terms.passes None (static "dist") env req ->
   serve (app1 ticketRoutes) env req = answer) /\
  (Terms.passes None (static frontendPath) env req ->
   serve (app2 ticketRoutes) env req = answer).
Proof.
  intros N U R E answer.
  assert (Terms.passes (Some "/api/") limiter env req) as L.
  { intros _. unfold limiter. now rewrite R. }
  assert (forall rest,
            dispatch env (Use (Some "/api/tickets") ticketRoutes :: rest)
              None req
            = dispatch env rest (Some e) req) as Raise.
  { intros rest. cbn [dispatch]. now rewrite U, E. }
  assert (errorMiddleware env e req = Respond
            (if includes (Terms.errorMessage e) "Can't reach database server"
             then Terms.databaseUnavailable env e
             else {| code := status (errorHandler e);
                     payload := Routed (errorHandler e) |})) as M.
  { unfold errorMiddleware, Terms.databaseUnavailable, Terms.development,
      Terms.errorMessage.
    destruct (includes _ _); [| reflexivity].
    destruct (NODE_ENV env) as [v |]; [| reflexivity].
    destruct (String.eqb v "development"); reflexivity. }
  split; intros S; unfold serve, app1, app2.
  - rewrite (dispatch_passes _ None passThrough) by apply passes_passThrough.
    rewrite (dispatch_passes _ None cors) by (now apply passes_cors).
    rewrite !(dispatch_passes _ None passThrough) by apply passes_passThrough.
    rewrite (dispatch_passes _ (Some "/api/") limiter) by assumption.
    rewrite (dispatch_passes _ None (static _)) by assumption.
    rewrite Raise. cbn [dispatch]. now rewrite M.
  - rewrite (dispatch_passes _ None passThrough) by apply passes_passThrough.
    rewrite (dispatch_passes _ None cors) by (now apply passes_cors).
    rewrite !(dispatch_passes _ None passThrough) by apply passes_passThrough.
    rewrite (dispatch_passes _ (Some "/api/") limiter) by assumption.
    rewrite (dispatch_passes _ None (static _)) by assumption.
    rewrite Raise. cbn [dispatch]. now rewrite M.
Qed.



End Servers.



(** X9 at a concrete request: [GET /health] while the limiter refuses
    everything. *)
Lemma limiter_guards_api_only_witness :
  Server.serve (Server.app1 Fixtures.noRoute)
    (Terms.withRateLimited (fun _ => true) Fixtures.emptyDisk)
    (Fixtures.request Server.GET "/health")
  = Server.serve (Server.app1 Fixtures.noRoute) Fixtures.emptyDisk
      (Fixtures.request Server.GET "/health").
Proof.
  exact (proj1 (limiter_guards_api_only Fixtures.noRoute Fixtures.emptyDisk
                  (fun _ => true) (Fixtures.request Server.GET "/health")
                  eq_refl)).
Defined.

(** X10 at a concrete request: the database is down, in production. *)
Lemma router_errors_reach_the_error_middleware_witness :
  Server.serve (Server.app2 Fixtures.databaseDown) Fixtures.emptyDisk
    (Fixtures.request Server.GET "/api/tickets")
  = Some {| Server.code := 503;
            Server.payload :=
              Server.JsonError
                "Database connection error. Please try again later." None |}.
Proof.
  exact (proj2 (router_errors_reach_the_error_middleware
                  Fixtures.databaseDown Fixtures.emptyDisk
                  (Fixtures.request Server.GET "/api/tickets")
                  (ClientError "Can't reach database server at db:5432")
                  ltac:(discriminate) eq_refl eq_refl eq_refl)
           (fun _ => eq_refl)).
Defined.



(** * The trip date from create to list *)

Section Dates.

Import JS.

Lemma radixDigit_digitChar c a :
  radixDigit 10 c = Some a -> c = digitChar a /\ 0 <= a < 10.
Proof.
  destruct c as [[] [] [] [] [] [] [] []]; intros H;
    try discriminate H; inversion H; subst a; split;
    try reflexivity; lia.
Qed.

Lemma digits2_digitChar c1 c2 v :
  digits2 c1 c2 = Some v ->
  exists a b, c1 = digitChar a /\ c2 = digitChar b /\
              0 <= a < 10 /\ 0 <= b < 10 /\ v = 10 * a + b.
Proof.
  unfold digits2. intros H.
  destruct (radixDigit 10 c1) as [a |] eqn:E1; [| discriminate H].
  destruct (radixDigit 10 c2) as [b |] eqn:E2; [| discriminate H].
  apply radixDigit_digitChar in E1 as [-> Ba], E2 as [-> Bb].
  inversion H. now exists a, b.
Qed.

Lemma append_assoc (a b c : string) :
  ((a ++ b) ++ c = a ++ (b ++ c))%string.
Proof. induction a as [| x a IH]; cbn; [reflexivity | now rewrite IH]. Qed.

Lemma digitsOf_acc fuel :
  forall n acc, digitsOf fuel n acc = (digitsOf fuel n "" ++ acc)%string.
Proof.
  induction fuel as [| f IH]; intros n acc; cbn [digitsOf]; [reflexivity |].
  destruct (n / 10 =? 0); [reflexivity |].
  rewrite (IH _ (String _ acc)), (IH _ (String _ "")).
  rewrite append_assoc. reflexivity.
Qed.

Lemma tenth_smaller n : 0 <= n -> n / 10 <> 0 -> 0 <= n / 10 < n.
Proof.
  intros Hn Q.
  pose proof (Z.div_mod n 10 ltac:(lia)).
  pose proof (Z.mod_pos_bound n 10 ltac:(lia)). lia.
Qed.

Lemma digitsOf_fuel f1 :
  forall f2 n acc,
    0 <= n -> (Z.to_nat n < f1)%nat -> (Z.to_nat n < f2)%nat ->
    digitsOf f1 n acc = digitsOf f2 n acc.
Proof.
  induction f1 as [| f1 IH]; intros f2 n acc Hn H1 H2; [lia |].
  destruct f2 as [| f2]; [lia |]. cbn [digitsOf].
  destruct (n / 10 =? 0) eqn:Q; [reflexivity |].
  apply Z.eqb_neq in Q.
  pose proof (tenth_smaller n Hn Q).
  apply IH; lia.
Qed.

(** The decimal form of a number is that of its tenth followed by its last
    digit. *)
Lemma Number_toString_step n :
  0 <= n ->
  Number_toString n =
  String.append (if n / 10 =? 0 then "" else Number_toString (n / 10))
    (String (digitChar (n mod 10)) "").
Proof.
  intros Hn. unfold Number_toString at 1. cbn [digitsOf].
  destruct (n / 10 =? 0) eqn:Q; [reflexivity |].
  apply Z.eqb_neq in Q.
  pose proof (tenth_smaller n Hn Q).
  rewrite digitsOf_acc. f_equal.
  unfold Number_toString. apply digitsOf_fuel; lia.
Qed.

Lemma Number_toString_1 n :
  0 <= n < 10 -> Number_toString n = String (digitChar n) "".
Proof.
  intros H. rewrite Number_toString_step by lia.
  rewrite Z.div_small, Z.mod_small by lia. reflexivity.
Qed.

Lemma Number_toString_2 n :
  10 <= n < 100 ->
  Number_toString n
  = String (digitChar (n / 10)) (String (digitChar (n mod 10)) "").
Proof.
  intros H. rewrite Number_toString_step by lia.
  assert (1 <= n / 10 < 10) as B
    by (split; [apply Z.div_le_lower_bound | apply Z.div_lt_upper_bound]; lia).
  assert ((n / 10 =? 0) = false) as -> by (apply Z.eqb_neq; lia).
  rewrite Number_toString_1 by lia. reflexivity.
Qed.

Lemma Number_toString_3 n :
  100 <= n < 1000 ->
  Number_toString n
  = String (digitChar (n / 100))
      (String (digitChar (n / 10 mod 10)) (String (digitChar (n mod 10)) "")).
Proof.
  intros H. rewrite Number_toString_step by lia.
  assert (10 <= n / 10 < 100) as B
    by (split; [apply Z.div_le_lower_bound | apply Z.div_lt_upper_bound]; lia).
  assert ((n / 10 =? 0) = false) as -> by (apply Z.eqb_neq; lia).
  rewrite Number_toString_2 by lia.
  rewrite Z.div_div by lia. reflexivity.
Qed.

Lemma Number_toString_4 n :
  1000 <= n < 10000 ->
  Number_toString n
  = String (digitChar (n / 1000))
      (String (digitChar (n / 100 mod 10))
         (String (digitChar (n / 10 mod 10))
            (String (digitChar (n mod 10)) ""))).
Proof.
  intros H. rewrite Number_toString_step by lia.
  assert (100 <= n / 10 < 1000) as B
    by (split; [apply Z.div_le_lower_bound | apply Z.div_lt_upper_bound]; lia).
  assert ((n / 10 =? 0) = false) as -> by (apply Z.eqb_neq; lia).
  rewrite Number_toString_3 by lia.
  rewrite !Z.div_div by lia. reflexivity.
Qed.

(** Two digits, padded. *)
Lemma pad_2 a b :
  0 <= a < 10 -> 0 <= b < 10 ->
  pad 2 (10 * a + b) = String (digitChar a) (String (digitChar b) "").
Proof.
  intros Ha Hb. unfold pad.
  assert ((10 * a + b) / 10 = a) as Q by (symmetry; apply (Z.div_unique _ _ a b); lia).
  assert ((10 * a + b) mod 10 = b) as R by (symmetry; apply (Z.mod_unique _ _ a b); lia).
  destruct (Z.eq_dec a 0) as [-> | Na].
  - rewrite Number_toString_1 by lia. cbn. reflexivity.
  - rewrite Number_toString_2 by lia. rewrite Q, R. reflexivity.
Qed.

(** Four digits, padded. *)
Lemma pad_4 a b c d :
  0 <= a < 10 -> 0 <= b < 10 -> 0 <= c < 10 -> 0 <= d < 10 ->
  pad 4 (100 * (10 * a + b) + (10 * c + d))
  = String (digitChar a) (String (digitChar b)
      (String (digitChar c) (String (digitChar d) ""))).
Proof.
  intros Ha Hb Hc Hd. unfold pad.
  remember (100 * (10 * a + b) + (10 * c + d)) as n eqn:En.
  assert (n mod 10 = d) as R0
    by (symmetry; apply (Z.mod_unique _ _ (100 * a + 10 * b + c)); lia).
  assert (n / 10 = 100 * a + 10 * b + c) as Q1
    by (symmetry; apply (Z.div_unique _ _ _ d); lia).
  assert (n / 10 mod 10 = c) as R1
    by (rewrite Q1; symmetry; apply (Z.mod_unique _ _ (10 * a + b)); lia).
  assert (n / 100 = 10 * a + b) as Q2
    by (symmetry; apply (Z.div_unique _ _ _ (10 * c + d)); lia).
  assert (n / 100 mod 10 = b) as R2
    by (rewrite Q2; symmetry; apply (Z.mod_unique _ _ a); lia).
  assert (n / 1000 = a) as Q3
    by (symmetry; apply (Z.div_unique _ _ _ (100 * b + 10 * c + d)); lia).
  destruct (Z.eq_dec a 0) as [Za | Na].
  - destruct (Z.eq_dec b 0) as [Zb | Nb].
    + destruct (Z.eq_dec c 0) as [Zc | Nc].
      * assert (n = d) as N by lia.
        rewrite N, Za, Zb, Zc, Number_toString_1 by lia. reflexivity.
      * rewrite Number_toString_2 by lia. rewrite Q1, R0, Za, Zb.
        replace (100 * 0 + 10 * 0 + c) with c by lia. reflexivity.
    + rewrite Number_toString_3 by lia. rewrite Q2, R1, R0, Za.
      replace (10 * 0 + b) with b by lia. reflexivity.
  - rewrite Number_toString_4 by lia. rewrite Q3, R2, R1, R0. reflexivity.
Qed.

Lemma civil_table : forallb Terms.civilCheck (Terms.range 400) = true.
Proof. vm_compute. reflexivity. Qed.

Lemma In_range n v : 0 <= v < Z.of_nat n -> In v (Terms.range n).
Proof.
  intros H. unfold Terms.range. apply in_map_iff.
  exists (Z.to_nat v). split; [lia | apply in_seq; lia].
Qed.

Lemma civilFromDays_parts z :
  civilFromDays z =
  (let mp := Terms.mpOf (Terms.doyOf (Terms.doeOf z)) in
   let m := if mp <? 10 then mp + 3 else mp - 9 in
   (if m <=? 2
    then Terms.yoeOf (Terms.doeOf z) + Terms.eraOf z * 400 + 1
    else Terms.yoeOf (Terms.doeOf z) + Terms.eraOf z * 400,
    m,
    Terms.doyOf (Terms.doeOf z) - (153 * mp + 2) / 5 + 1)).
Proof. reflexivity. Qed.

Lemma doeOf_bound z : 0 <= Terms.doeOf z <= 146096.
Proof.
  unfold Terms.doeOf, Terms.eraOf.
  pose proof (Z.div_mod (z + 719468) 146097 ltac:(lia)).
  pose proof (Z.mod_pos_bound (z + 719468) 146097 ltac:(lia)). lia.
Qed.

(** The year of the era does not decrease with the day of the era. *)
Lemma yoeOf_mono x x' :
  0 <= x <= x' -> x' <= 146096 -> Terms.yoeOf x <= Terms.yoeOf x'.
Proof.
  intros H H'. unfold Terms.yoeOf. apply Z.div_le_mono; [lia |].
  pose proof (Z.div_mod x 1460 ltac:(lia)).
  pose proof (Z.mod_pos_bound x 1460 ltac:(lia)).
  pose proof (Z.div_mod x' 1460 ltac:(lia)).
  pose proof (Z.mod_pos_bound x' 1460 ltac:(lia)).
  pose proof (Z.div_mod x 36524 ltac:(lia)).
  pose proof (Z.mod_pos_bound x 36524 ltac:(lia)).
  pose proof (Z.div_mod x' 36524 ltac:(lia)).
  pose proof (Z.mod_pos_bound x' 36524 ltac:(lia)).
  pose proof (Z.div_mod x 146096 ltac:(lia)).
  pose proof (Z.mod_pos_bound x 146096 ltac:(lia)).
  pose proof (Z.div_mod x' 146096 ltac:(lia)).
  pose proof (Z.mod_pos_bound x' 146096 ltac:(lia)).
  lia.
Qed.

(** Between two days of one month the date moves on with the day number. *)
Lemma civilFromDays_between z1 z2 z y m d1 :
  z1 <= z <= z2 ->
  Terms.eraOf z1 = Terms.eraOf z2 ->
  Terms.yoeOf (Terms.doeOf z1) = Terms.yoeOf (Terms.doeOf z2) ->
  Terms.mpOf (Terms.doyOf (Terms.doeOf z1))
  = Terms.mpOf (Terms.doyOf (Terms.doeOf z2)) ->
  civilFromDays z1 = (y, m, d1) ->
  civilFromDays z = (y, m, d1 + (z - z1)).
Proof.
  intros B Ee Ey Em C.
  assert (Terms.eraOf z = Terms.eraOf z1) as E.
  { unfold Terms.eraOf in *.
    pose proof (Z.div_le_mono (z1 + 719468) (z + 719468) 146097
                  ltac:(lia) ltac:(lia)).
    pose proof (Z.div_le_mono (z + 719468) (z2 + 719468) 146097
                  ltac:(lia) ltac:(lia)).
    lia. }
  assert (Terms.doeOf z = Terms.doeOf z1 + (z - z1)) as D
    by (unfold Terms.doeOf; rewrite E; lia).
  assert (Terms.doeOf z2 = Terms.doeOf z1 + (z2 - z1)) as D2
    by (unfold Terms.doeOf; rewrite <- Ee; lia).
  pose proof (doeOf_bound z1) as B1. pose proof (doeOf_bound z2) as B2.
  assert (Terms.yoeOf (Terms.doeOf z) = Terms.yoeOf (Terms.doeOf z1)) as Y.
  { pose proof (yoeOf_mono (Terms.doeOf z1) (Terms.doeOf z)
                  ltac:(lia) ltac:(lia)).
    pose proof (yoeOf_mono (Terms.doeOf z) (Terms.doeOf z2)
                  ltac:(lia) ltac:(lia)).
    lia. }
  assert (Terms.doyOf (Terms.doeOf z)
          = Terms.doyOf (Terms.doeOf z1) + (z - z1)) as Dy
    by (unfold Terms.doyOf; rewrite Y; lia).
  assert (Terms.doyOf (Terms.doeOf z2)
          = Terms.doyOf (Terms.doeOf z1) + (z2 - z1)) as Dy2
    by (unfold Terms.doyOf; rewrite <- Ey; lia).
  assert (Terms.mpOf (Terms.doyOf (Terms.doeOf z))
          = Terms.mpOf (Terms.doyOf (Terms.doeOf z1))) as M.
  { unfold Terms.mpOf in *.
    pose proof (Z.div_le_mono (5 * Terms.doyOf (Terms.doeOf z1) + 2)
                  (5 * Terms.doyOf (Terms.doeOf z) + 2) 153
                  ltac:(lia) ltac:(lia)).
    pose proof (Z.div_le_mono (5 * Terms.doyOf (Terms.doeOf z) + 2)
                  (5 * Terms.doyOf (Terms.doeOf z2) + 2) 153
                  ltac:(lia) ltac:(lia)).
    lia. }
  rewrite civilFromDays_parts in C |- *. cbv zeta in C |- *.
  rewrite M, Y, E, Dy.
  assert (forall a b c a' b' c' : Z,
            (a, b, c) = (a', b', c') -> a = a' /\ b = b' /\ c = c') as Inj
    by (intros; split; [| split]; congruence).
  apply Inj in C as (Cy & Cm & Cd). rewrite <- Cy, <- Cm, <- Cd.
  apply f_equal2; [reflexivity | lia].
Qed.

Lemma sameDate_eq a b : Terms.sameDate a b = true -> a = b.
Proof.
  destruct a as [[y m] d], b as [[y' m'] d']. cbn. intros H.
  apply andb_prop in H as [H Hd]. apply andb_prop in H as [Hy Hm].
  apply Z.eqb_eq in Hy, Hm, Hd. congruence.
Qed.

(** Within a month the day number moves on with the day. *)
Lemma daysFromCivil_day y m d :
  daysFromCivil y m d = daysFromCivil y m 1 + (d - 1).
Proof. unfold daysFromCivil. lia. Qed.

(** Within the first 400 years every date is found again from its day
    number. *)
Lemma civil_round_trip_400 y m d :
  0 <= y < 400 -> 1 <= m <= 12 -> 1 <= d <= daysInMonth y m ->
  civilFromDays (daysFromCivil y m d) = (y, m, d).
Proof.
  intros Hy Hm Hd.
  pose proof civil_table as T.
  rewrite forallb_forall in T.
  specialize (T y (In_range 400 y ltac:(lia))).
  unfold Terms.civilCheck in T. rewrite forallb_forall in T.
  assert (In m (map (Z.add 1) (Terms.range 12))) as Im.
  { apply in_map_iff. exists (m - 1). split; [lia | apply In_range; lia]. }
  specialize (T m Im). unfold Terms.monthCheck in T. cbv zeta in T.
  apply andb_prop in T as [T Tm]. apply andb_prop in T as [T Ty].
  apply andb_prop in T as [T Te]. apply andb_prop in T as [T1 T2].
  apply sameDate_eq in T1. apply Z.eqb_eq in Te, Ty, Tm.
  rewrite (civilFromDays_between (daysFromCivil y m 1)
             (daysFromCivil y m (daysInMonth y m))
             (daysFromCivil y m d) y m 1); try assumption.
  - f_equal. rewrite (daysFromCivil_day y m d). lia.
  - rewrite (daysFromCivil_day y m d),
      (daysFromCivil_day y m (daysInMonth y m)). lia.
Qed.

(** Four centuries later is 146097 days later. *)
Lemma daysFromCivil_shift y m d k :
  daysFromCivil (y + 400 * k) m d = daysFromCivil y m d + 146097 * k.
Proof.
  unfold daysFromCivil.
  assert (forall u,
            let era := u / 400 in
            let yoe := u - era * 400 in
            let era' := (u + k * 400) / 400 in
            let yoe' := u + k * 400 - era' * 400 in
            era' = era + k /\ yoe' = yoe) as Shift.
  { intros u. cbv zeta. rewrite Z.div_add by lia. split; lia. }
  destruct (m <=? 2).
  - replace (y + 400 * k - 1) with (y - 1 + k * 400) by lia.
    destruct (Shift (y - 1)) as [-> ->]. lia.
  - replace (y + 400 * k) with (y + k * 400) by lia.
    destruct (Shift y) as [-> ->]. lia.
Qed.

Lemma civilFromDays_shift z k :
  civilFromDays (z + 146097 * k) =
  let '(y, m, d) := civilFromDays z in (y + 400 * k, m, d).
Proof.
  unfold civilFromDays.
  replace (z + 146097 * k + 719468) with (z + 719468 + k * 146097) by lia.
  rewrite Z.div_add by lia.
  set (era := (z + 719468) / 146097).
  replace (z + 719468 + k * 146097 - (era + k) * 146097)
    with (z + 719468 - era * 146097) by lia.
  set (doe := z + 719468 - era * 146097).
  set (yoe := (doe - doe / 1460 + doe / 36524 - doe / 146096) / 365).
  set (doy := doe - (365 * yoe + yoe / 4 - yoe / 100)).
  set (mp := (5 * doy + 2) / 153).
  cbv zeta.
  destruct ((if mp <? 10 then mp + 3 else mp - 9) <=? 2); f_equal; f_equal; lia.
Qed.

Lemma daysInMonth_shift y m k :
  daysInMonth (y + 400 * k) m = daysInMonth y m.
Proof.
  unfold daysInMonth, isLeapYear.
  replace (y + 400 * k) with (y + (100 * k) * 4) at 1 by lia.
  replace (y + 400 * k) with (y + (4 * k) * 100) at 1 by lia.
  replace (y + 400 * k) with (y + k * 400) by lia.
  now rewrite !Z.mod_add by lia.
Qed.

(** Every date is found again from its day number. *)
Lemma civil_round_trip y m d :
  1 <= m <= 12 -> 1 <= d <= daysInMonth y m ->
  civilFromDays (daysFromCivil y m d) = (y, m, d).
Proof.
  intros Hm Hd.
  pose proof (Z.div_mod y 400 ltac:(lia)) as E.
  pose proof (Z.mod_pos_bound y 400 ltac:(lia)) as B.
  remember (y / 400) as k eqn:Ek. remember (y mod 400) as y0 eqn:Ey0.
  assert (y = y0 + 400 * k) as Hy by lia.
  clear Ek Ey0 E. subst y.
  rewrite daysInMonth_shift in Hd.
  rewrite daysFromCivil_shift, civilFromDays_shift.
  now rewrite (civil_round_trip_400 y0 m d B Hm Hd).
Qed.

Lemma Some_eq (x y : Z) : Some x = Some y -> x = y.
Proof. congruence. Qed.

Lemma digits2_bound c1 c2 v : digits2 c1 c2 = Some v -> 0 <= v < 100.
Proof.
  intros H. apply digits2_digitChar in H as (a & b & _ & _ & Ba & Bb & ->).
  lia.
Qed.

(** The clock part of an ISO string is a time of day, or the end of the
    day. *)
Lemma isoClock_bound r c : isoClock r = Some c -> 0 <= c <= msPerDay.
Proof.
  unfold isoClock. intros H.
  destruct r as [| cT r]; [discriminate H |].
  destruct cT as [[] [] [] [] [] [] [] []]; try discriminate H.
  destruct r as [| h1 r]; [discriminate H |].
  destruct r as [| h2 r]; [discriminate H |].
  destruct r as [| k1 r]; [discriminate H |].
  destruct k1 as [[] [] [] [] [] [] [] []]; try discriminate H.
  destruct r as [| m1 r]; [discriminate H |].
  destruct r as [| m2 r]; [discriminate H |].
  destruct r as [| k2 r]; [discriminate H |].
  destruct k2 as [[] [] [] [] [] [] [] []]; try discriminate H.
  destruct r as [| s1 r]; [discriminate H |].
  destruct r as [| s2 r]; [discriminate H |].
  destruct r as [| k3 r]; [discriminate H |].
  destruct k3 as [[] [] [] [] [] [] [] []]; try discriminate H.
  destruct r as [| f1 r]; [discriminate H |].
  destruct r as [| f2 r]; [discriminate H |].
  destruct r as [| f3 r]; [discriminate H |].
  destruct r as [| kZ r]; [discriminate H |].
  destruct kZ as [[] [] [] [] [] [] [] []]; try discriminate H.
  destruct r as [| extra r]; [| discriminate H].
  destruct (digits2 h1 h2) as [h |] eqn:Eh; [| discriminate H].
  destruct (digits2 m1 m2) as [m |] eqn:Em; [| discriminate H].
  destruct (digits2 s1 s2) as [sec |] eqn:Es; [| discriminate H].
  destruct (radixDigit 10 f1) as [f |] eqn:Ef; [| discriminate H].
  destruct (digits2 f2 f3) as [ff |] eqn:Eff; [| discriminate H].
  destruct ((h <? 24) && (m <? 60) && (sec <? 60)
            || (h =? 24) && (m =? 0) && (sec =? 0) && (100 * f + ff =? 0))
    eqn:B; [| discriminate H].
  apply digits2_bound in Eh, Em, Es, Eff.
  apply radixDigit_digitChar in Ef as [_ Bf].
  apply Some_eq in H. subst c.
  apply orb_prop in B as [B | B].
  - apply andb_prop in B as [B B3]. apply andb_prop in B as [B1 B2].
    apply Z.ltb_lt in B1, B2, B3.
    unfold msPerDay, msPerHour, msPerMinute, msPerSecond. lia.
  - apply andb_prop in B as [B B4]. apply andb_prop in B as [B B3].
    apply andb_prop in B as [B1 B2].
    apply Z.eqb_eq in B1, B2, B3, B4.
    unfold msPerDay, msPerHour, msPerMinute, msPerSecond. lia.
Qed.

(** How the date parser reads a string that names a day of the calendar:
    ten characters [YYYY-MM-DD], alone or followed by a time of that day. *)
Lemma isoDateParse_inv s t :
  Terms.calendarDate s = true ->
  isoDateParse s = Some t ->
  exists a b c d m1 m2 d1 d2 rest m dd clock,
    s = String (digitChar a) (String (digitChar b) (String (digitChar c)
          (String (digitChar d) (String "-" (String m1 (String m2
            (String "-" (String d1 (String d2 rest))))))))) /\
    0 <= a < 10 /\ 0 <= b < 10 /\ 0 <= c < 10 /\ 0 <= d < 10 /\
    digits2 m1 m2 = Some m /\ digits2 d1 d2 = Some dd /\
    1 <= m <= 12 /\
    1 <= dd <= daysInMonth (100 * (10 * a + b) + (10 * c + d)) m /\
    0 <= clock < msPerDay /\
    t = daysFromCivil (100 * (10 * a + b) + (10 * c + d)) m dd * msPerDay
        + clock.
Proof.
  unfold isoDateParse, Terms.calendarDate. intros C H.
  destruct s as [| y1 s]; [discriminate H |].
  destruct s as [| y2 s]; [discriminate H |].
  destruct s as [| y3 s]; [discriminate H |].
  destruct s as [| y4 s]; [discriminate H |].
  destruct s as [| k1 s]; [discriminate H |].
  destruct k1 as [[] [] [] [] [] [] [] []]; try discriminate H.
  destruct s as [| m1 s]; [discriminate H |].
  destruct s as [| m2 s]; [discriminate H |].
  destruct s as [| k2 s]; [discriminate H |].
  destruct k2 as [[] [] [] [] [] [] [] []]; try discriminate H.
  destruct s as [| d1 s]; [discriminate H |].
  destruct s as [| d2 rest]; [discriminate H |].
  destruct (digits2 y1 y2) as [yh |] eqn:Eyh; [| discriminate H].
  destruct (digits2 y3 y4) as [yl |] eqn:Eyl; [| discriminate H].
  destruct (digits2 m1 m2) as [m |] eqn:Em; [| discriminate H].
  destruct (digits2 d1 d2) as [dd |] eqn:Ed; [| discriminate H].
  apply andb_prop in C as [C Ck]. apply andb_prop in C as [C B4].
  apply andb_prop in C as [C B3]. apply andb_prop in C as [B1 B2].
  apply Z.leb_le in B1, B2, B3, B4.
  destruct ((1 <=? m) && (m <=? 12) && (1 <=? dd) && (dd <=? 31));
    [| discriminate H].
  apply digits2_digitChar in Eyh as (a & b & -> & -> & Ba & Bb & ->).
  apply digits2_digitChar in Eyl as (c & d & -> & -> & Bc & Bd & ->).
  assert (exists clock,
             0 <= clock < msPerDay /\
             t = daysFromCivil (100 * (10 * a + b) + (10 * c + d)) m dd
                 * msPerDay + clock) as [clock [Bk Et]].
  { destruct rest as [| r0 rest].
    - exists 0. apply Some_eq in H. unfold msPerDay in *. split; lia.
    - destruct (isoClock (String r0 rest)) as [k |] eqn:Ek;
        [| discriminate H].
      exists k. apply Z.ltb_lt in Ck.
      pose proof (isoClock_bound _ _ Ek).
      split; [lia |]. now apply Some_eq in H. }
  exists a, b, c, d, m1, m2, d1, d2, rest, m, dd, clock.
  repeat split; try assumption; lia.
Qed.

Lemma digitChar_not_T a : 0 <= a < 10 -> Ascii.eqb (digitChar a) "T" = false.
Proof.
  intros H.
  assert (a = 0 \/ a = 1 \/ a = 2 \/ a = 3 \/ a = 4 \/ a = 5 \/ a = 6 \/
          a = 7 \/ a = 8 \/ a = 9) as C by lia.
  repeat (destruct C as [-> | C]; [reflexivity |]). subst. reflexivity.
Qed.

Lemma beforeT_digit a r :
  0 <= a < 10 ->
  beforeT (String (digitChar a) r) = String (digitChar a) (beforeT r).
Proof. intros H. cbn [beforeT]. now rewrite digitChar_not_T. Qed.

(** The date part of the ISO form of a parsed date is the date as it was
    written. *)
Lemma date_part_round_trip s t :
  Terms.calendarDate s = true ->
  isoDateParse s = Some t ->
  beforeT (toISOString t) = substring 0 10 s.
Proof.
  intros C H.
  apply (isoDateParse_inv s t C) in H
    as (a & b & c & d & m1 & m2 & d1 & d2 & rest & m & dd & clock &
        -> & Ba & Bb & Bc & Bd & Em & Ed & Bm & Bdd & Bk & ->).
  set (y := 100 * (10 * a + b) + (10 * c + d)) in *.
  unfold toISOString.
  assert ((daysFromCivil y m dd * msPerDay + clock) / msPerDay
          = daysFromCivil y m dd) as ->.
  { symmetry. apply (Z.div_unique _ _ _ clock); [left; exact Bk | lia]. }
  rewrite (civil_round_trip y m dd Bm Bdd).
  assert (isoYear y = pad 4 y) as ->.
  { unfold isoYear.
    assert (((0 <=? y) && (y <=? 9999))%bool = true) as ->; [| reflexivity].
    apply andb_true_intro. split; apply Z.leb_le; subst y; lia. }
  subst y. rewrite (pad_4 a b c d Ba Bb Bc Bd).
  apply digits2_digitChar in Em as (ma & mb & -> & -> & Bma & Bmb & ->).
  apply digits2_digitChar in Ed as (da & db & -> & -> & Bda & Bdb & ->).
  rewrite (pad_2 ma mb Bma Bmb), (pad_2 da db Bda Bdb).
  cbn [String.append substring].
  assert (forall r, beforeT (String "-" r) = String "-" (beforeT r)) as Dash
    by reflexivity.
  assert (forall r, beforeT (String "T" r) = "") as T by reflexivity.
  rewrite !beforeT_digit, Dash by assumption.
  rewrite !beforeT_digit, Dash by assumption.
  rewrite !beforeT_digit, T by assumption.
  assert (substring 0 0 rest = "") as -> by (destruct rest; reflexivity).
  reflexivity.
Qed.

(** X13.  The trip date comes back as it was written.  Let the [tripDate]
    of a valid body name a day of the calendar, alone or with a time of
    that day in UTC ([YYYY-MM-DD] or [YYYY-MM-DDTHH:mm:ss.sssZ]), and let
    the runtime read it as the date-time string format says.  Then the
    ticket created from the body is shown by the list, on some page, under
    the identifier the create was answered with; and wherever a list shows
    that identifier, its [tripDate] is the first ten characters of the
    [tripDate] that was sent, whatever the time zone of the server.  (A
    day past the end of its month is read on into the next month and comes
    back as that later date, so the statement leaves it out.) *)
Theorem tripDate_is_listed_as_written
  (tz : Z) (Date_parse : string -> option Z)
  (reasonCategories : list string) (isPhoneNumber : string -> bool)
  (s : Store) (now : Z) (b : CreateTicketBody.t) :
  Spec.wellFormed s ->
  Spec.validBody Date_parse reasonCategories isPhoneNumber b ->
  Terms.calendarDate (CreateTicketBody.tripDate b) = true ->
  Date_parse (CreateTicketBody.tripDate b)
  = isoDateParse (CreateTicketBody.tripDate b) ->
  let answer :=
    Tickets.postRoute Date_parse reasonCategories isPhoneNumber now b s in
  let written := substring 0 10 (CreateTicketBody.tripDate b) in
  exists ticketId,
    fst answer = Spec.created ticketId /\
    (exists q j,
        Spec.validQuery Date_parse q /\
        In j (Spec.shownTickets
                (fst (Tickets.listRoute tz Date_parse q (snd answer)))) /\
        TicketJson.id j = ticketId) /\
    (forall q j,
        In j (Spec.shownTickets
                (fst (Tickets.listRoute tz Date_parse q (snd answer)))) ->
        TicketJson.id j = ticketId ->
        TicketJson.tripDate j = written).
Proof.
  intros W V C P answer written.
  destruct (Claims.validBody_date Date_parse reasonCategories isPhoneNumber
              b V) as [d D].
  subst answer.
  rewrite (Claims.postRoute_valid Date_parse reasonCategories isPhoneNumber
             now b s d V D).
  cbn [fst snd]. exists (nextId s). split; [reflexivity |].
  set (t := Spec.newRow s now d b).
  assert (TicketJson.tripDate (Tickets.render t) = written) as R.
  { cbn. subst written. apply date_part_round_trip; [exact C |].
    now rewrite <- P. }
  split.
  - destruct (Claims.listed_somewhere tz Date_parse (Spec.withRow t s) t)
      as (q & Vq & Hq).
    { cbn. apply in_or_app. right. now left. }
    exists q, (Tickets.render t). repeat split; assumption || reflexivity.
  - intros q j Hj Ej.
    apply Claims.listRoute_shows_rows in Hj as (t' & Ht' & ->).
    cbn in Ht'. apply in_app_or in Ht' as [Ht' | [<- | []]]; [| exact R].
    destruct W as (_ & B & _). specialize (B t' Ht'). cbn in Ej. lia.
Qed.

End Dates.

(** X13 at a concrete request: a trip of 2024-01-01, listed by a server
    three hours east of UTC. *)
Lemma tripDate_is_listed_as_written_witness :
  exists q j,
    In j (Spec.shownTickets
            (fst (Tickets.listRoute 180 JS.isoDateParse q
                    (snd (Tickets.postRoute JS.isoDateParse
                            Fixtures.reasonCategories Fixtures.isPhoneNumber
                            1704300000000 Fixtures.body
                            Fixtures.oneTicket))))) /\
    TicketJson.id j = 2 /\ TicketJson.tripDate j = "2024-01-01".
Proof.
  assert (Spec.wellFormed Fixtures.oneTicket) as W.
  { split; [cbn; lia |]. split.
    - intros t [<- | []]. cbn. lia.
    - cbn. constructor; [intros [] | constructor]. }
  destruct (tripDate_is_listed_as_written 180 JS.isoDateParse
              Fixtures.reasonCategories
              Fixtures.isPhoneNumber Fixtures.oneTicket 1704300000000
              Fixtures.body W eq_refl eq_refl eq_refl)
    as (ticketId & E & (q & j & _ & Hj & Ej) & All).
  assert (ticketId = 2) as -> by (vm_compute in E; congruence).
  exists q, j. split; [exact Hj |]. split; [exact Ej |].
  exact (All q j Hj Ej).
Defined.

End Extras.

(** * Checks of the runtime functions on concrete inputs *)

Example parseInt_12abc : JS.parseInt "12abc" = Some 12.
Proof. reflexivity. Qed.
Example parseInt_7_9 : JS.parseInt "7.9" = Some 7.
Proof. reflexivity. Qed.
Example parseInt_abc : JS.parseInt "abc" = None.
Proof. reflexivity. Qed.
Example parseInt_hex : JS.parseInt "0x10" = Some 16.
Proof. reflexivity. Qed.
Example parseInt_hex_empty : JS.parseInt "0xg" = None.
Proof. reflexivity. Qed.
Example parseInt_neg : JS.parseInt "  -42px" = Some (-42).
Proof. reflexivity. Qed.
Example toISOString_epoch : JS.toISOString 0 = "1970-01-01T00:00:00.000Z".
Proof. reflexivity. Qed.
Example toISOString_2024 :
  JS.toISOString 1704110400123 = "2024-01-01T12:00:00.123Z".
Proof. vm_compute. reflexivity. Qed.
Example toISOString_before_epoch :
  JS.toISOString (-1) = "1969-12-31T23:59:59.999Z".
Proof. vm_compute. reflexivity. Qed.
Example beforeT_date :
  JS.beforeT (JS.toISOString 1704110400123) = "2024-01-01".
Proof. vm_compute. reflexivity. Qed.
Example setHours_utc :
  JS.setHours 0 1704110400123 23 59 59 999 = 1704153599999.
Proof. reflexivity. Qed.
Example isoDateParse_date :
  JS.isoDateParse "2024-01-01" = Some 1704067200000.
Proof. reflexivity. Qed.
Example isoDateParse_instant :
  JS.isoDateParse "2024-01-01T12:00:00.123Z" = Some 1704110400123.
Proof. reflexivity. Qed.
Example isoDateParse_past_the_month :
  JS.isoDateParse "2024-02-30" = Some 1709251200000 /\
  JS.toISOString 1709251200000 = "2024-03-01T00:00:00.000Z".
Proof. split; vm_compute; reflexivity. Qed.
Example isoDateParse_hour_24 :
  JS.isoDateParse "2024-01-01T24:00:00.000Z" = Some 1704153600000 /\
  JS.isoDateParse "2024-01-01T24:00:00.001Z" = None.
Proof. split; vm_compute; reflexivity. Qed.
Example isoDateParse_invalid :
  JS.isoDateParse "2024-02-32" = None /\ JS.isoDateParse "2024-13-01" = None.
Proof. split; reflexivity. Qed.
Example tripDate_past_the_month :
  map TicketJson.tripDate
    (Spec.shownTickets
       (fst (Tickets.listRoute 0 JS.isoDateParse Fixtures.noParams
               (snd (Tickets.postRoute JS.isoDateParse
                       Fixtures.reasonCategories Fixtures.isPhoneNumber
                       1704300000000 (Fixtures.bodyOn "2024-02-30")
                       emptyStore)))))
  = ["2024-03-01"].
Proof. vm_compute. reflexivity. Qed.
Example isoDateParse_toISOString :
  JS.isoDateParse (JS.toISOString 1704110400123) = Some 1704110400123.
Proof. vm_compute. reflexivity. Qed.
Example Number_toString_2024 : JS.Number_toString 2024 = "2024".
Proof. vm_compute. reflexivity. Qed.
Example ceilDiv_15_10 : JS.ceilDiv 15 10 = 2.
Proof. reflexivity. Qed.
Example ceilDiv_20_10 : JS.ceilDiv 20 10 = 2.
Proof. reflexivity. Qed.
Example underMount_api :
  Server.underMount (Some "/api/") "/api/tickets" = true /\
  Server.underMount (Some "/api/") "/health" = false /\
  Server.underMount (Some "/api/tickets") "/api/tickets/export" = true.
Proof. repeat split. Qed.
Example delete_12abc :
  Tickets.deleteRoute "12abc"
    {| rows := [Fixtures.ticket 12 Fixtures.jan1 0 "Late arrival"];
       nextId := 13 |}
  = (Spec.deleted, {| rows := []; nextId := 13 |}).
Proof. reflexivity. Qed.
Example list_default_page :
  Spec.shownIds
    (fst (Tickets.listRoute 0 JS.isoDateParse Fixtures.noParams
            Fixtures.fifteenTickets))
  = [15; 14; 13; 12; 11; 10; 9; 8; 7; 6; 5; 4; 3; 2; 1].
Proof. vm_compute. reflexivity. Qed.
Example list_invalid_page :
  status
    (fst (Tickets.listRoute 0 JS.isoDateParse
            (Fixtures.query None None None (Some "abc") None)
            Fixtures.oneTicket))
  = 400.
Proof. reflexivity. Qed.
Example static_on_built_disk :
  Server.static "dist" Fixtures.builtDisk
    (Fixtures.request Server.GET "/assets/app.js")
  = Server.Respond {| Server.code := 200;
                      Server.payload := Server.File "dist/assets/app.js" |} /\
  Server.static "dist" Fixtures.builtDisk
    (Fixtures.request Server.GET "/assets")
  = Server.Respond {| Server.code := 301;
                      Server.payload := Server.Redirect "/assets/" |} /\
  Server.static "dist" Fixtures.builtDisk
    (Fixtures.request Server.GET "/.env")
  = Server.Next /\
  Server.static "dist" Fixtures.builtDisk
    (Fixtures.request Server.GET "/about")
  = Server.Next.
Proof. repeat split. Qed.
Example health_on_first_variant :
  Server.serve (Server.app1 Server.passThrough)
    {| Server.now := 1704110400123; Server.NODE_ENV := Some "production";
       Server.isFile := fun _ => false; Server.isDirectory := fun _ => false;
       Server.rateLimited := fun _ => false |}
    Spec.getHealth
  = Some {| Server.code := 200;
            Server.payload :=
              Server.JsonHealth "OK" "2024-01-01T12:00:00.123Z" |}.
Proof. vm_compute. reflexivity. Qed.
Example health_on_second_variant :
  Server.serve (Server.app2 Server.passThrough)
    {| Server.now := 1704110400123; Server.NODE_ENV := Some "production";
       Server.isFile := fun f => String.eqb f "../frontend/dist/index.html";
       Server.isDirectory := fun _ => false;
       Server.rateLimited := fun _ => false |}
    Spec.getHealth
  = Some {| Server.code := 200;
            Server.payload := Server.File "../frontend/dist/index.html" |}.
Proof. vm_compute. reflexivity. Qed.
